(** * HealthLens: response orchestration and local vitals inference

    A shallow embedding of [services/geminiService.ts] (the two
    orchestrators [analyzeSymptoms] and [findNearbyDoctors]), of the
    vitals classifier, [calculateTrends] and [handleAnalyze] of [App.tsx],
    and of the interfaces of [types.ts].

    Conventions of the embedding:
    - a JavaScript string is the list of its UTF-16 code units;
    - a JavaScript number is [num]: [NaN], an infinity, or the rational a
      finite binary64 value denotes.  Parsing, decimal literals and
      arithmetic round to the nearest binary64 value, ties to even, and
      overflow to an infinity; negative zero is identified with zero;
    - [await ai.models.generateContent(..)] is a call to a remote oracle
      that may answer or throw; every call is appended to a call log, so
      that the number and order of requests can be stated;
    - [console.log/warn/error] are not modelled. *)

From Stdlib Require Import List Bool Ascii String NArith ZArith QArith Qround Qabs
  Qpower Lia Lqa.
From Stdlib Require DecimalString.
From Stdlib Require Import Sorted.
Import ListNotations.

(* ================================================================== *)
(** ** JavaScript strings and numbers *)

Module JS.

Definition jsstring := list N.

(** An ASCII literal of the source, as code units. *)
Definition lit (s : string) : jsstring :=
  map N_of_ascii (list_ascii_of_string s).

(** A string is truthy iff it is not empty. *)
Definition truthy (s : jsstring) : bool :=
  match s with [] => false | _ :: _ => true end.

(** [a || b] on strings. *)
Definition or_else (a b : jsstring) : jsstring :=
  if truthy a then a else b.

(** WhiteSpace and LineTerminator of ECMAScript: what [trim] removes and
    what [\s] matches. *)
Definition isWhiteSpace (c : N) : bool :=
  existsb (N.eqb c)
    [9; 10; 11; 12; 13; 32; 160; 5760; 8232; 8233; 8239; 8287; 12288; 65279]%N
  || ((8192 <=? c)%N && (c <=? 8202)%N).

(** [\d] *)
Definition isDigit (c : N) : bool := ((48 <=? c) && (c <=? 57))%N.

(** [\w] *)
Definition isWord (c : N) : bool :=
  (((65 <=? c) && (c <=? 90)) || ((97 <=? c) && (c <=? 122))
   || isDigit c || (c =? 95))%N.

Fixpoint dropWhile (p : N -> bool) (s : jsstring) : jsstring :=
  match s with
  | [] => []
  | c :: t => if p c then dropWhile p t else s
  end.

Fixpoint takeWhile (p : N -> bool) (s : jsstring) : jsstring :=
  match s with
  | [] => []
  | c :: t => if p c then c :: takeWhile p t else []
  end.

Definition trimStart (s : jsstring) : jsstring := dropWhile isWhiteSpace s.
Definition trimEnd (s : jsstring) : jsstring :=
  rev (dropWhile isWhiteSpace (rev s)).
Definition trim (s : jsstring) : jsstring := trimEnd (trimStart s).

(** [stripPrefix p s] is the rest of [s] after [p] when [s] starts with [p]. *)
Fixpoint stripPrefix (p s : jsstring) : option jsstring :=
  match p, s with
  | [], _ => Some s
  | _ :: _, [] => None
  | a :: p', b :: s' => if (a =? b)%N then stripPrefix p' s' else None
  end.

Definition startsWith (s p : jsstring) : bool :=
  match stripPrefix p s with Some _ => true | None => false end.

(** [s.includes(p)] *)
Fixpoint includes (s p : jsstring) : bool :=
  startsWith s p
  || match s with [] => false | _ :: t => includes t p end.

(** [s.split(sep)] for a separator of one code unit. *)
Fixpoint split (sep : N) (s : jsstring) : list jsstring :=
  match s with
  | [] => [[]]
  | c :: t =>
      if (c =? sep)%N then [] :: split sep t
      else match split sep t with
           | l :: ls => (c :: l) :: ls
           | [] => [[c]]
           end
  end.

(** [a.join(sep)] *)
Fixpoint join (sep : jsstring) (a : list jsstring) : jsstring :=
  match a with
  | [] => []
  | [l] => l
  | l :: ls => l ++ sep ++ join sep ls
  end.

(** [s.substring(0, n)] *)
Definition substring0 (n : nat) (s : jsstring) : jsstring := firstn n s.

(** *** Regular expressions of the form [KEY\s*(CLASS+)]

    Both patterns of the source have this shape.  The search is leftmost;
    at a position the literal must match, [\s*] takes the longest run of
    white space and the group the longest run of the class.  Neither class
    contains white space, so backtracking into [\s*] cannot produce a match
    the greedy attempt misses. *)

Definition matchHere (key : jsstring) (cls : N -> bool) (s : jsstring)
  : option jsstring :=
  match stripPrefix key s with
  | Some r =>
      match takeWhile cls (dropWhile isWhiteSpace r) with
      | [] => None
      | g => Some g
      end
  | None => None
  end.

(** [s.match(/KEY\s*(CLASS+)/)], reduced to its capture group [m[1]]. *)
Fixpoint matchGroup (key : jsstring) (cls : N -> bool) (s : jsstring)
  : option jsstring :=
  match matchHere key cls s with
  | Some g => Some g
  | None =>
      match s with
      | [] => None
      | _ :: t => matchGroup key cls t
      end
  end.

(** *** Numbers *)

Inductive num : Type :=
| NaN
| Inf (negative : bool)
| Fin (q : Q).

Definition ofZ (z : Z) : num := Fin (inject_Z z).

Definition Qltb (a b : Q) : bool :=
  match (a ?= b)%Q with Lt => true | _ => false end.

Definition Qeqb (a b : Q) : bool :=
  match (a ?= b)%Q with Eq => true | _ => false end.

(** [a < b]; false as soon as one side is [NaN]. *)
Definition lt (a b : num) : bool :=
  match a, b with
  | NaN, _ | _, NaN => false
  | Inf na, Inf nb => na && negb nb
  | Inf na, Fin _ => na
  | Fin _, Inf nb => negb nb
  | Fin x, Fin y => Qltb x y
  end.

(** [a > b] *)
Definition gt (a b : num) : bool := lt b a.

Definition neg (a : num) : num :=
  match a with
  | NaN => NaN
  | Inf n => Inf (negb n)
  | Fin x => Fin (- x)
  end.

(** *** Binary64

    The Number value of a real: the nearest value of the form
    [m * 2^e] with [m < 2^53] and [-1074 <= e <= 971], a tie going to the
    even [m]; from [2^1024 - 2^970] on the result is an infinity. *)

(** The integer nearest to [n / d], for [0 <= n]; a tie goes to the even
    neighbour. *)
Definition roundHalfEven (n : Z) (d : positive) : Z :=
  let f := (n / Zpos d)%Z in
  let r := (n mod Zpos d)%Z in
  match (2 * r ?= Zpos d)%Z with
  | Lt => f
  | Gt => (f + 1)%Z
  | Eq => if Z.even f then f else (f + 1)%Z
  end.

Definition pow2 (e : Z) : Q := Qpower 2 e.

(** The [e] with [2^e <= n / d < 2^(e + 1)]. *)
Definition binade (n d : positive) : Z :=
  let e := (Z.log2 (Zpos n) - Z.log2 (Zpos d))%Z in
  if Qle_bool (pow2 e) (Zpos n # d) then e else (e - 1)%Z.

(** [n / d] rounded to 53 significant bits, or to a multiple of [2^-1074]
    below [2^-1022]. *)
Definition nearest (n d : positive) : Q :=
  let ulp := pow2 (Z.max (binade n d) (-1022) - 52) in
  let scaled := ((Zpos n # d) / ulp)%Q in
  inject_Z (roundHalfEven (Qnum scaled) (Qden scaled)) * ulp.

(** The Number value of the rational [q]. *)
Definition number (q : Q) : num :=
  match Qnum q with
  | Z0 => Fin 0
  | Zpos n =>
      let v := nearest n (Qden q) in
      if Qle_bool (pow2 1024) v then Inf false else Fin (Qred v)
  | Zneg n =>
      let v := nearest n (Qden q) in
      if Qle_bool (pow2 1024) v then Inf true else Fin (Qred (- v))
  end.

Definition isNegative (x : Q) : bool := Qltb x 0.

(** [a + b]; a zero operand leaves the other one as it is. *)
Definition add (a b : num) : num :=
  match a, b with
  | NaN, _ | _, NaN => NaN
  | Inf na, Inf nb => if Bool.eqb na nb then Inf na else NaN
  | Inf na, Fin _ => Inf na
  | Fin _, Inf nb => Inf nb
  | Fin x, Fin y =>
      if Qeqb y 0 then Fin x
      else if Qeqb x 0 then Fin y
      else number (x + y)
  end.

Definition sub (a b : num) : num := add a (neg b).

Definition mul (a b : num) : num :=
  match a, b with
  | NaN, _ | _, NaN => NaN
  | Inf na, Inf nb => Inf (xorb na nb)
  | Inf na, Fin y => if Qeqb y 0 then NaN else Inf (xorb na (isNegative y))
  | Fin x, Inf nb => if Qeqb x 0 then NaN else Inf (xorb (isNegative x) nb)
  | Fin x, Fin y => number (x * y)
  end.

Definition div (a b : num) : num :=
  match a, b with
  | NaN, _ | _, NaN => NaN
  | Inf _, Inf _ => NaN
  | Inf na, Fin y => Inf (xorb na (isNegative y))
  | Fin _, Inf _ => Fin 0
  | Fin x, Fin y =>
      if Qeqb y 0
      then (if Qeqb x 0 then NaN else Inf (isNegative x))
      else number (x / y)
  end.

(** [Math.abs] *)
Definition abs (a : num) : num :=
  match a with
  | NaN => NaN
  | Inf _ => Inf false
  | Fin x => Fin (Qabs x)
  end.

(** [Math.round]: the nearest integer, halves going up.  The result is
    exact: the nearest integer of a binary64 value is a binary64 value. *)
Definition Qround_half_up (x : Q) : Z := Qfloor (x + (1 # 2)).

Definition round (a : num) : num :=
  match a with
  | Fin x => ofZ (Qround_half_up x)
  | _ => a
  end.

(** A number is falsy iff it is [NaN] or zero; [a || b] on numbers. *)
Definition num_truthy (a : num) : bool :=
  match a with
  | NaN => false
  | Inf _ => true
  | Fin x => negb (Qeqb x 0)
  end.

Definition num_or_else (a b : num) : num := if num_truthy a then a else b.

(** *** [parseInt] *)

Definition digitValue (c : N) : option N :=
  if isDigit c then Some (c - 48)%N
  else if ((97 <=? c) && (c <=? 122))%N then Some (c - 87)%N
  else if ((65 <=? c) && (c <=? 90))%N then Some (c - 55)%N
  else None.

Definition isRadixDigit (R : N) (c : N) : bool :=
  match digitValue c with
  | Some d => (d <? R)%N
  | None => false
  end.

Definition digitsValue (R : N) (ds : jsstring) : N :=
  fold_left
    (fun acc c => (acc * R + match digitValue c with Some d => d | None => 0 end)%N)
    ds 0%N.

(** [parseInt(s, radix)]; [radix = None] is the call with one argument.
    The result is the Number value of the integer the digits denote. *)
Definition parseInt (s : jsstring) (radix : option N) : num :=
  let S0 := trimStart s in
  let negative := match S0 with 45%N :: _ => true | _ => false end in
  let S1 := match S0 with
            | 45%N :: t => t
            | 43%N :: t => t
            | _ => S0
            end in
  let R0 := match radix with Some r => r | None => 0%N end in
  if (negb (R0 =? 0) && ((R0 <? 2) || (36 <? R0)))%N then NaN
  else
    let strip := ((R0 =? 0) || (R0 =? 16))%N in
    let R1 := if (R0 =? 0)%N then 10%N else R0 in
    let '(R, S2) :=
      match S1 with
      | 48%N :: x :: t =>
          if strip && ((x =? 120) || (x =? 88))%N then (16%N, t) else (R1, S1)
      | _ => (R1, S1)
      end in
    match takeWhile (isRadixDigit R) S2 with
    | [] => NaN
    | ds =>
        let v := Z.of_N (digitsValue R ds) in
        number (inject_Z (if negative then - v else v))
    end.

(** *** [parseFloat]

    The longest prefix, after leading white space, that is a
    StrDecimalLiteral: a sign, then [Infinity] or a decimal with optional
    fraction and exponent.  The result is the Number value of the decimal
    read. *)

Definition isE (c : N) : bool := ((c =? 101) || (c =? 69))%N.

Definition exponentPart (s : jsstring) : Z :=
  match s with
  | e :: t =>
      if isE e then
        let '(eneg, t') := match t with
                           | 45%N :: u => (true, u)
                           | 43%N :: u => (false, u)
                           | _ => (false, t)
                           end in
        match takeWhile isDigit t' with
        | [] => 0%Z
        | ds => let v := Z.of_N (digitsValue 10 ds) in
                if eneg then (- v)%Z else v
        end
      else 0%Z
  | [] => 0%Z
  end.

Definition parseFloat (s : jsstring) : num :=
  let S0 := trimStart s in
  let negative := match S0 with 45%N :: _ => true | _ => false end in
  let S1 := match S0 with
            | 45%N :: t => t
            | 43%N :: t => t
            | _ => S0
            end in
  if startsWith S1 (lit "Infinity") then Inf negative
  else
    let ip := takeWhile isDigit S1 in
    let r1 := dropWhile isDigit S1 in
    let '(fp, r2) :=
      match r1 with
      | 46%N :: t => (takeWhile isDigit t, dropWhile isDigit t)
      | _ => ([], r1)
      end in
    match ip, fp with
    | [], [] => NaN
    | _, _ =>
        let mant :=
          (inject_Z (Z.of_N (digitsValue 10 ip))
           + inject_Z (Z.of_N (digitsValue 10 fp))
             / inject_Z (10 ^ Z.of_nat (List.length fp)))%Q in
        let v := (mant * Qpower (10 # 1) (exponentPart r2))%Q in
        number (if negative then (- v)%Q else v)
    end.

(** *** Number to string, for integers

    [String(n)] for an integer [n] below 10^21 in magnitude is its decimal
    numeral. *)
Definition decimal (z : Z) : jsstring :=
  lit (DecimalString.NilZero.string_of_int (Z.to_int z)).

Definition isInteger (q : Q) : bool := Qeqb q (inject_Z (Qfloor q)).

(** [String(n)], as template literals apply it.  The numeral of a number
    that is not an integer, or of an integer from 10^21 on, is left to
    [other]. *)
Definition toString (other : Q -> jsstring) (n : num) : jsstring :=
  match n with
  | NaN => lit "NaN"
  | Inf negative => if negative then lit "-Infinity" else lit "Infinity"
  | Fin q =>
      if isInteger q && (Z.abs (Qfloor q) <? 10 ^ 21)%Z
      then decimal (Qfloor q)
      else other q
  end.

Definition nl : jsstring := [10%N].
Definition dq : jsstring := [34%N].

End JS.

Import JS.

(* ================================================================== *)
(** ** types.ts *)

Module GroundingSource.
Record t := mk { title : jsstring; uri : jsstring }.
End GroundingSource.

Module MapSource.
Record t := mk { title : jsstring; uri : jsstring; address : option jsstring }.
End MapSource.

Module Confidence.
Record t := mk { score : num; label : jsstring }.
End Confidence.

Module AnalysisResult.
Record t := mk {
  content : jsstring;
  confidence : Confidence.t;
  language : jsstring;
  sources : list GroundingSource.t }.
End AnalysisResult.

Module DoctorSearchResult.
Record t := mk { content : jsstring; mapSources : list MapSource.t }.
End DoctorSearchResult.

Module Vitals.
Record t := mk {
  temp : jsstring;
  hr : jsstring;
  bpSys : jsstring;
  bpDia : jsstring;
  spo2 : jsstring }.
End Vitals.

Module HistoryItem.
Record t := mk {
  id : jsstring;
  symptoms : jsstring;
  timestamp : Z;
  result : AnalysisResult.t;
  vitals : option Vitals.t }.
End HistoryItem.

Inductive Severity := normal | warning | critical.

Module LocalAnalysis.
Record t := mk { condition : jsstring; severity : Severity; message : jsstring }.
End LocalAnalysis.

Inductive Direction := up | down | stable.

Module TrendInsight.
Record t := mk {
  metric : jsstring;
  change : jsstring;
  direction : Direction;
  message : jsstring }.
End TrendInsight.

(* ================================================================== *)
(** ** The remote model (the part of @google/genai the service uses) *)

Record ImageState := { data : jsstring; mimeType : jsstring }.

Inductive Part :=
| inlineData (data mimeType : jsstring)
| textPart (text : jsstring).

Inductive Contents :=
| Parts (parts : list Part)
| Prompt (prompt : jsstring).

Inductive Tool := googleSearch | googleMaps.

Record LatLng := { latitude : num; longitude : num }.

Record Config := {
  systemInstruction : option jsstring;
  tools : list Tool;
  toolConfig : option LatLng;
  temperature : option Q }.

Record Request := { model : jsstring; contents : Contents; config : Config }.

(** A field of a grounding chunk is absent ([None]) or a string. *)
Record WebChunk := { web_uri : option jsstring; web_title : option jsstring }.

Record MapsChunk := {
  maps_uri : option jsstring;
  maps_title : option jsstring;
  maps_address : option jsstring }.

Record GroundingChunk := { web : option WebChunk; maps : option MapsChunk }.

(** [text] is [response.text]; [groundingChunks] is
    [response.candidates?.[0]?.groundingMetadata?.groundingChunks]. *)
Record Response := {
  text : option jsstring;
  groundingChunks : option (list GroundingChunk) }.

(** What a [throw] carries. *)
Inductive exn :=
| Error (message : jsstring)
| TypeError (message : jsstring)
| DOMException (message : jsstring).

Inductive outcome (A : Type) :=
| Returned (a : A)
| Thrown (e : exn).
Arguments Returned {A} a.
Arguments Thrown {A} e.

(** The remote model: its answer to a request may depend on the requests
    made before. *)
Definition remote := list Request -> Request -> outcome Response.

(** Computations that call the remote model: the log of requests made so
    far is threaded through, and a computation returns or throws. *)
Definition M (A : Type) := list Request -> outcome A * list Request.

Definition ret {A} (a : A) : M A := fun log => (Returned a, log).

Definition throw {A} (e : exn) : M A := fun log => (Thrown e, log).

Definition bind {A B} (m : M A) (k : A -> M B) : M B :=
  fun log =>
    match m log with
    | (Returned a, log') => k a log'
    | (Thrown e, log') => (Thrown e, log')
    end.

(** [try { m } catch (e) { h e }] *)
Definition tryCatch {A} (m : M A) (h : exn -> M A) : M A :=
  fun log =>
    match m log with
    | (Returned a, log') => (Returned a, log')
    | (Thrown e, log') => h e log'
    end.

(** [await ai.models.generateContent(req)] *)
Definition generateContent (ai : remote) (req : Request) : M Response :=
  fun log => (ai log req, log ++ [req]).

Declare Scope js_scope.
Delimit Scope js_scope with js.
Notation "x <- m ;; k" := (bind m (fun x => k))
  (at level 61, m at next level, right associativity) : js_scope.
Notation "' p <- m ;; k" := (bind m (fun x => match x with p => k end))
  (at level 61, p pattern, m at next level, right associativity) : js_scope.

(** Truthiness of an optional string field: present and not empty. *)
Definition present (o : option jsstring) : option jsstring :=
  match o with
  | Some s => if truthy s then Some s else None
  | None => None
  end.

(* ================================================================== *)
(** ** services/geminiService.ts *)

Section GeminiService.

Variable ai : remote.
Variable numeral : Q -> jsstring.

Local Open Scope js_scope.

Definition toString := JS.toString numeral.

Definition vitalsContext (vitals : option Vitals.t) : jsstring :=
  match vitals with
  | None => []
  | Some v =>
      let parts :=
        (if truthy (Vitals.temp v)
         then [lit "Temperature: " ++ Vitals.temp v ++ [176%N] ++ lit "F"]
         else [])
        ++ (if truthy (Vitals.hr v)
            then [lit "Heart Rate: " ++ Vitals.hr v ++ lit " bpm"]
            else [])
        ++ (if truthy (Vitals.bpSys v) && truthy (Vitals.bpDia v)
            then [lit "Blood Pressure: " ++ Vitals.bpSys v ++ lit "/"
                  ++ Vitals.bpDia v ++ lit " mmHg"]
            else [])
        ++ (if truthy (Vitals.spo2 v)
            then [lit "Oxygen Saturation: " ++ Vitals.spo2 v ++ lit "%"]
            else []) in
      if (0 <? List.length parts)%nat
      then nl ++ lit "PATIENT VITALS:" ++ nl ++ join nl parts ++ nl
      else []
  end.

Definition systemInstructionText (language : jsstring) : jsstring :=
  List.concat
    [ nl;
      lit "    You are a highly experienced medical information assistant."; nl;
      lit "    "; nl;
      lit "    GLOBAL OUTPUT RULES:"; nl;
      lit "    1. You must act as a medical professional."; nl;
      lit "    2. The user's requested language is: "; dq; language; dq; lit "."; nl;
      lit "    3. The FIRST LINE of your response MUST be metadata in ENGLISH (regardless of the requested language), following this exact format:"; nl;
      lit "       CONFIDENCE_SCORE: [0-100] | CONFIDENCE_LABEL: [High/Medium/Low]"; nl;
      lit "    4. The REST of the response (the body) MUST be written strictly in "; dq; language; dq; lit "."; nl;
      lit "    5. Translate ALL Markdown headers (e.g., # Summary, ## Recommendations) into "; dq; language; dq; lit "."; nl;
      lit "    6. Include a disclaimer in "; dq; language; dq; lit " at the end."; nl;
      lit "    "; nl;
      lit "    Calculated Confidence Logic:"; nl;
      lit "    - High (80-100%): Symptoms/Images are clear."; nl;
      lit "    - Medium (50-79%): Symptoms are common/ambiguous."; nl;
      lit "    - Low (0-49%): Information is insufficient."; nl;
      lit "  " ].

Definition analysisPrompt (symptoms : jsstring) (image : option ImageState)
    (vitalsContext language : jsstring) : jsstring :=
  List.concat
    [ nl;
      lit "    Analyze the provided ";
        (match image with
         | Some _ => lit "medical image/photo"
         | None => lit "symptoms"
         end); lit "."; nl;
      lit "    "; nl;
      lit "    Patient Context:"; nl;
      lit "    "; dq; symptoms; dq; nl;
      nl;
      lit "    "; vitalsContext; nl;
      nl;
      lit "    Structure your response in Markdown:"; nl;
      lit "    1. Summary (in "; language; lit ")"; nl;
      lit "    2. Potential Conditions (in "; language; lit ")"; nl;
      lit "    3. Urgency (Low/Medium/High/Emergency) (in "; language; lit ")"; nl;
      lit "    4. Recommendations (in "; language; lit ")"; nl;
      nl;
      lit "    Remember: First line ENGLISH metadata. Rest in "; language; lit "."; nl;
      lit "  " ].

Definition analysisRequest (symptoms : jsstring) (image : option ImageState)
    (vitals : option Vitals.t) (language : jsstring) : Request :=
  let modelName :=
    match image with
    | Some _ => lit "gemini-2.5-flash"
    | None => lit "gemini-3-flash-preview"
    end in
  let prompt := analysisPrompt symptoms image (vitalsContext vitals) language in
  let requestParts :=
    (match image with
     | Some i => [inlineData (data i) (mimeType i)]
     | None => []
     end) ++ [textPart prompt] in
  {| model := modelName;
     contents := Parts requestParts;
     config := {| systemInstruction := Some (systemInstructionText language);
                  tools := [googleSearch];
                  toolConfig := None;
                  temperature := Some (2 # 10) |} |}.

Definition defaultConfidence : Confidence.t :=
  Confidence.mk (ofZ 0) (lit "Low").

Definition scoreMatch (firstLine : jsstring) : option jsstring :=
  matchGroup (lit "CONFIDENCE_SCORE:") isDigit firstLine.

Definition labelMatch (firstLine : jsstring) : option jsstring :=
  matchGroup (lit "CONFIDENCE_LABEL:") isWord firstLine.

(** Lines 90-116 of the service: the confidence and the content read off
    the text.  [lines[0].trim()] throws a TypeError when [lines[0]] is
    undefined; the inner [try] leaves both variables as they were. *)
Definition responseParser (fullText : jsstring) : M (Confidence.t * jsstring) :=
  let lines := split 10 fullText in
  firstLine <- match nth_error lines 0 with
               | Some l => ret (trim l)
               | None => throw (TypeError (lit "Cannot read properties of undefined"))
               end ;;
  if includes firstLine (lit "CONFIDENCE_SCORE:") then
    tryCatch
      (match scoreMatch firstLine, labelMatch firstLine with
       | Some s, Some l =>
           ret (Confidence.mk (parseInt s (Some 10%N)) l,
                trim (join nl (skipn 1 lines)))
       | _, _ => ret (defaultConfidence, fullText)
       end)
      (fun _ => ret (defaultConfidence, fullText))
  else ret (defaultConfidence, fullText).

(** Lines 118-130: the web citations with both a title and a uri. *)
Definition groundingSources (response : Response) : list GroundingSource.t :=
  match groundingChunks response with
  | Some chunks =>
      fold_left
        (fun sources chunk =>
           match web chunk with
           | Some w =>
               match present (web_uri w), present (web_title w) with
               | Some u, Some t => sources ++ [GroundingSource.mk t u]
               | _, _ => sources
               end
           | None => sources
           end)
        chunks []
  | None => []
  end.

Definition noAnalysisText : jsstring :=
  lit "Unable to generate analysis. Please try again.".

Definition analyzeSymptoms (symptoms : jsstring) (image : option ImageState)
    (vitals : option Vitals.t) (language : jsstring) : M AnalysisResult.t :=
  tryCatch
    (response <- generateContent ai (analysisRequest symptoms image vitals language) ;;
     let fullText :=
       or_else (match text response with Some s => s | None => [] end)
               noAnalysisText in
     ' (confidence, content) <- responseParser fullText ;;
     ret (AnalysisResult.mk content confidence language (groundingSources response)))
    (fun _ =>
       throw (Error (lit "Failed to analyze symptoms. Please check your connection or try a different image."))).

Definition processResponse (response : Response) (defaultTitle : jsstring)
  : DoctorSearchResult.t :=
  let text := or_else (match text response with Some s => s | None => [] end)
                      defaultTitle in
  let mapSources :=
    match groundingChunks response with
    | Some chunks =>
        fold_left
          (fun mapSources chunk =>
             let fromWeb :=
               match web chunk with
               | Some w =>
                   match present (web_uri w), present (web_title w) with
                   | Some u, Some t => mapSources ++ [MapSource.mk t u (Some [])]
                   | _, _ => mapSources
                   end
               | None => mapSources
               end in
             match maps chunk with
             | Some m =>
                 match present (maps_uri m), present (maps_title m) with
                 | Some u, Some t => mapSources ++ [MapSource.mk t u (maps_address m)]
                 | _, _ => fromWeb
                 end
             | None => fromWeb
             end)
          chunks []
    | None => []
    end in
  DoctorSearchResult.mk text mapSources.

Definition mapsPrompt (medicalContext : jsstring) (lat lng : num)
    (language : jsstring) : jsstring :=
  List.concat
    [ nl;
      lit "      Context: "; medicalContext; nl;
      lit "      User Location: "; toString lat; lit ", "; toString lng; nl;
      lit "      Output Language: "; language; nl;
      lit "      "; nl;
      lit "      Task: Identify the correct specialist type and Find 3 specific medical facilities near the user's location using the Google Maps tool."; nl;
      lit "      Ensure the response text is in "; language; lit "."; nl;
      lit "    " ].

Definition fallbackPrompt (medicalContext : jsstring) (lat lng : num)
    (language : jsstring) : jsstring :=
  List.concat
    [ nl;
      lit "      Find top-rated doctors, clinics, or hospitals for this condition: "; dq; substring0 100 medicalContext; lit "..."; dq; nl;
      lit "      Near these coordinates: "; toString lat; lit ", "; toString lng; lit "."; nl;
      lit "      Provide a list with names and addresses if possible."; nl;
      lit "      Response MUST be in "; language; lit "."; nl;
      lit "    " ].

Definition mapsRequest (medicalContext : jsstring) (lat lng : num)
    (language : jsstring) : Request :=
  {| model := lit "gemini-2.5-flash";
     contents := Prompt (mapsPrompt medicalContext lat lng language);
     config := {| systemInstruction := None;
                  tools := [googleMaps];
                  toolConfig := Some {| latitude := lat; longitude := lng |};
                  temperature := None |} |}.

Definition searchRequest (medicalContext : jsstring) (lat lng : num)
    (language : jsstring) : Request :=
  {| model := lit "gemini-3-flash-preview";
     contents := Prompt (fallbackPrompt medicalContext lat lng language);
     config := {| systemInstruction := None;
                  tools := [googleSearch];
                  toolConfig := None;
                  temperature := None |} |}.

(** The first [try] either returns from the function ([Some result]) or
    falls through to the second attempt ([None]). *)
Definition findNearbyDoctors (medicalContext : jsstring) (lat lng : num)
    (language : jsstring) : M DoctorSearchResult.t :=
  attempt1 <-
    tryCatch
      (response <- generateContent ai (mapsRequest medicalContext lat lng language) ;;
       let result := processResponse response (lit "Maps Search Results") in
       if (0 <? List.length (DoctorSearchResult.mapSources result))%nat
       then ret (Some result)
       else ret None)
      (fun _ => ret None) ;;
  match attempt1 with
  | Some result => ret result
  | None =>
      tryCatch
        (response <- generateContent ai (searchRequest medicalContext lat lng language) ;;
         ret (processResponse response (lit "Search Results")))
        (fun _ => throw (Error (lit "Failed to locate nearby doctors.")))
  end.

End GeminiService.

(* ================================================================== *)
(** ** App.tsx *)

Definition push {A} (a : list A) (x : A) : list A := a ++ [x].

(** The effect on [vitals] (lines 120-160) pushes onto one array
    [alerts] in four successive blocks; each block is given here as what
    it does to [alerts]. *)

(* Fever Check *)
Definition feverCheck (vitals : Vitals.t) (alerts : list LocalAnalysis.t)
  : list LocalAnalysis.t :=
  if truthy (Vitals.temp vitals) then
    let temp := parseFloat (Vitals.temp vitals) in
    if gt temp (ofZ 103) then
      push alerts (LocalAnalysis.mk (lit "High Fever") critical
                     (lit "Medical attention recommended immediately."))
    else if gt temp (number (1004 # 10)) then
      push alerts (LocalAnalysis.mk (lit "Fever") warning
                     (lit "Monitor temperature closely."))
    else if lt temp (ofZ 95) then
      push alerts (LocalAnalysis.mk (lit "Hypothermia Risk") critical
                     (lit "Body temperature is dangerously low."))
    else
      push alerts (LocalAnalysis.mk (lit "Temperature") normal
                     (lit "Within normal range."))
  else alerts.

(* Heart Rate Check *)
Definition heartRateCheck (vitals : Vitals.t) (alerts : list LocalAnalysis.t)
  : list LocalAnalysis.t :=
  if truthy (Vitals.hr vitals) then
    let hr := parseInt (Vitals.hr vitals) None in
    if gt hr (ofZ 120) then
      push alerts (LocalAnalysis.mk (lit "Tachycardia") critical
                     (lit "Heart rate is significantly high."))
    else if gt hr (ofZ 100) then
      push alerts (LocalAnalysis.mk (lit "Elevated HR") warning
                     (lit "Heart rate is above normal."))
    else if lt hr (ofZ 50) then
      push alerts (LocalAnalysis.mk (lit "Bradycardia") warning
                     (lit "Heart rate is lower than normal."))
    else
      push alerts (LocalAnalysis.mk (lit "Heart Rate") normal
                     (lit "Normal resting heart rate."))
  else alerts.

(* Blood Pressure Check *)
Definition bloodPressureCheck (vitals : Vitals.t)
    (alerts : list LocalAnalysis.t) : list LocalAnalysis.t :=
  if truthy (Vitals.bpSys vitals) && truthy (Vitals.bpDia vitals) then
    let sys := parseInt (Vitals.bpSys vitals) None in
    let dia := parseInt (Vitals.bpDia vitals) None in
    if gt sys (ofZ 180) || gt dia (ofZ 120) then
      push alerts (LocalAnalysis.mk (lit "Hypertensive Crisis") critical
                     (lit "Seek emergency care immediately."))
    else if gt sys (ofZ 140) || gt dia (ofZ 90) then
      push alerts (LocalAnalysis.mk (lit "High BP") warning
                     (lit "Stage 2 Hypertension range."))
    else if gt sys (ofZ 130) || gt dia (ofZ 80) then
      push alerts (LocalAnalysis.mk (lit "Elevated BP") warning
                     (lit "Stage 1 Hypertension range."))
    else
      push alerts (LocalAnalysis.mk (lit "Blood Pressure") normal
                     (lit "Normal healthy range."))
  else alerts.

(* SpO2 Check *)
Definition spo2Check (vitals : Vitals.t) (alerts : list LocalAnalysis.t)
  : list LocalAnalysis.t :=
  if truthy (Vitals.spo2 vitals) then
    let spo2 := parseInt (Vitals.spo2 vitals) None in
    if lt spo2 (ofZ 90) then
      push alerts (LocalAnalysis.mk (lit "Hypoxia Risk") critical
                     (lit "Oxygen levels are dangerously low."))
    else if lt spo2 (ofZ 95) then
      push alerts (LocalAnalysis.mk (lit "Low Oxygen") warning
                     (lit "Oxygen saturation is below optimal."))
    else
      push alerts (LocalAnalysis.mk (lit "Oxygen Level") normal
                     (lit "Normal saturation."))
  else alerts.

(** What [setLocalAnalysis] stores for a given [vitals]. *)
Definition localAnalysis (vitals : Vitals.t) : list LocalAnalysis.t :=
  let alerts : list LocalAnalysis.t := [] in
  let alerts := feverCheck vitals alerts in
  let alerts := heartRateCheck vitals alerts in
  let alerts := bloodPressureCheck vitals alerts in
  let alerts := spo2Check vitals alerts in
  alerts.

(** [h => h.vitals] as a filter predicate. *)
Definition hasVitals (h : HistoryItem.t) : bool :=
  match HistoryItem.vitals h with Some _ => true | None => false end.

(** [h.vitals?.hr], with [undefined] read as the empty string: both are
    falsy, and the source only tests it or replaces it by ['0']. *)
Definition vitalsHr (h : HistoryItem.t) : jsstring :=
  match HistoryItem.vitals h with
  | Some v => Vitals.hr v
  | None => []
  end.

Section Trends.

Variable numeral : Q -> jsstring.

Definition calculateTrends (currentVitals : Vitals.t)
    (historyData : list HistoryItem.t) : list TrendInsight.t :=
  let insights : list TrendInsight.t := [] in
  let recentHistory := firstn 5 (filter hasVitals historyData) in
  if (List.length recentHistory =? 0)%nat then insights
  else
    (* Heart Rate Trend *)
    if truthy (Vitals.hr currentVitals) then
      let currentHR := parseInt (Vitals.hr currentVitals) None in
      let avgHR :=
        div
          (fold_left
             (fun acc curr =>
                add acc
                  (num_or_else (parseInt (or_else (vitalsHr curr) (lit "0")) None)
                               (ofZ 0)))
             recentHistory (ofZ 0))
          (ofZ (Z.of_nat
                  (List.length
                     (filter (fun h => truthy (vitalsHr h)) recentHistory)))) in
      if gt avgHR (ofZ 0) then
        let diff := sub currentHR avgHR in
        let percentChange := mul (div diff avgHR) (ofZ 100) in
        if gt (abs percentChange) (ofZ 10) then
          push insights
            (TrendInsight.mk
               (lit "Heart Rate")
               (JS.toString numeral (abs (round percentChange)) ++ lit "%")
               (if gt percentChange (ofZ 0) then up else down)
               (if gt percentChange (ofZ 0)
                then lit "Significant increase compared to your recent average. Monitor for fatigue."
                else lit "Lower than your recent average."))
        else insights
      else insights
    else insights.

End Trends.

(** The text [JSON.stringify] makes of a history.  The handlers only
    write it; it is kept as the list it was made from. *)
Inductive Blob := JSON_stringify (h : list HistoryItem.t).

(** The React state [handleAnalyze] reads and writes, and the
    [healthlens_history] entry of localStorage, if there is one.  The
    theme, the voice input and the outbreak alert are left out:
    [handleAnalyze] neither reads them nor do they flow into the
    history. *)
Record AppState := {
  symptoms : jsstring;
  isAnalyzing : bool;
  result : option AnalysisResult.t;
  error : option jsstring;
  history : list HistoryItem.t;
  selectedLanguage : jsstring;
  selectedImage : option ImageState;
  vitals : Vitals.t;
  trendInsights : list TrendInsight.t;
  storage : option Blob }.

Definition setIsAnalyzing (b : bool) (s : AppState) : AppState :=
  {| symptoms := symptoms s; isAnalyzing := b; result := result s;
     error := error s; history := history s;
     selectedLanguage := selectedLanguage s; selectedImage := selectedImage s;
     vitals := vitals s; trendInsights := trendInsights s;
     storage := storage s |}.

Definition setResult (r : option AnalysisResult.t) (s : AppState) : AppState :=
  {| symptoms := symptoms s; isAnalyzing := isAnalyzing s; result := r;
     error := error s; history := history s;
     selectedLanguage := selectedLanguage s; selectedImage := selectedImage s;
     vitals := vitals s; trendInsights := trendInsights s;
     storage := storage s |}.

Definition setError (e : option jsstring) (s : AppState) : AppState :=
  {| symptoms := symptoms s; isAnalyzing := isAnalyzing s; result := result s;
     error := e; history := history s;
     selectedLanguage := selectedLanguage s; selectedImage := selectedImage s;
     vitals := vitals s; trendInsights := trendInsights s;
     storage := storage s |}.

Definition setHistory (h : list HistoryItem.t) (s : AppState) : AppState :=
  {| symptoms := symptoms s; isAnalyzing := isAnalyzing s; result := result s;
     error := error s; history := h;
     selectedLanguage := selectedLanguage s; selectedImage := selectedImage s;
     vitals := vitals s; trendInsights := trendInsights s;
     storage := storage s |}.

Definition setTrendInsights (t : list TrendInsight.t) (s : AppState) : AppState :=
  {| symptoms := symptoms s; isAnalyzing := isAnalyzing s; result := result s;
     error := error s; history := history s;
     selectedLanguage := selectedLanguage s; selectedImage := selectedImage s;
     vitals := vitals s; trendInsights := t;
     storage := storage s |}.

(** What a write or a removal leaves in the [healthlens_history] entry. *)
Definition setStorage (v : option Blob) (s : AppState) : AppState :=
  {| symptoms := symptoms s; isAnalyzing := isAnalyzing s; result := result s;
     error := error s; history := history s;
     selectedLanguage := selectedLanguage s; selectedImage := selectedImage s;
     vitals := vitals s; trendInsights := trendInsights s;
     storage := v |}.

(** Handlers of the component: the React state is threaded next to the
    call log, and what was set before a [throw] stays set. *)
Definition UI (A : Type) :=
  AppState -> list Request -> outcome A * AppState * list Request.

Definition ui_ret {A} (a : A) : UI A := fun s log => (Returned a, s, log).

Definition ui_bind {A B} (m : UI A) (k : A -> UI B) : UI B :=
  fun s log =>
    match m s log with
    | (Returned a, s', log') => k a s' log'
    | (Thrown e, s', log') => (Thrown e, s', log')
    end.

(** A state setter. *)
Definition set (f : AppState -> AppState) : UI unit :=
  fun s log => (Returned tt, f s, log).

(** [await m] for a service call [m]. *)
Definition await {A} (m : M A) : UI A :=
  fun s log => let '(r, log') := m log in (r, s, log').

(** [try { m } catch (err) { h err } finally { f }] *)
Definition tryCatchFinally (m : UI unit) (h : exn -> UI unit) (f : UI unit)
  : UI unit :=
  fun s log =>
    let '(r, s1, log1) :=
      match m s log with
      | (Returned a, s', log') => (Returned a, s', log')
      | (Thrown e, s', log') => h e s' log'
      end in
    match f s1 log1 with
    | (Returned _, s2, log2) => (r, s2, log2)
    | (Thrown e, s2, log2) => (Thrown e, s2, log2)
    end.

Declare Scope ui_scope.
Delimit Scope ui_scope with ui.
Notation "x <- m ;; k" := (ui_bind m (fun x => k))
  (at level 61, m at next level, right associativity) : ui_scope.
Notation "m ;; k" := (ui_bind m (fun _ => k))
  (at level 61, right associativity) : ui_scope.

Definition exn_message (e : exn) : jsstring :=
  match e with Error m => m | TypeError m => m | DOMException m => m end.

(** [localStorage.setItem('healthlens_history', v)].  The browser refuses
    the write by throwing when storage is denied or its quota is
    exceeded; [refused] is what it throws, if it does.  A refused write
    leaves the entry as it was. *)
Definition setItem (refused : option exn) (v : Blob) : UI unit :=
  fun s log =>
    match refused with
    | Some e => (Thrown e, s, log)
    | None => (Returned tt, setStorage (Some v) s, log)
    end.

(** [localStorage.removeItem('healthlens_history')]; a removal needs no
    room and is not refused. *)
Definition removeItem : UI unit := set (setStorage None).

Section App.

Variable ai : remote.
Variable numeral : Q -> jsstring.

(** [Object.values(vitals).some(v => v)] *)
Definition someVitals (v : Vitals.t) : bool :=
  existsb truthy
    [Vitals.temp v; Vitals.hr v; Vitals.bpSys v; Vitals.bpDia v; Vitals.spo2 v].

(** [handleAnalyze] of a render whose state is [st]: every read of
    [symptoms], [vitals], [history], ... is a read of [st].  [uuid] and
    [now] are what [crypto.randomUUID()] and [Date.now()] return, and
    [refused] is what [localStorage.setItem] throws, if it does.
    [checkOutbreaks()] only sets the outbreak alert and is left out. *)
Definition handleAnalyze (uuid : jsstring) (now : Z) (refused : option exn)
  : UI unit :=
  fun st =>
    (if negb (truthy (trim (symptoms st)))
        && negb (match selectedImage st with Some _ => true | None => false end)
        && negb (someVitals (vitals st))
     then ui_ret tt
     else
       (set (setIsAnalyzing true) ;;
        set (setError None) ;;
        set (setResult None) ;;
        set (setTrendInsights []) ;;
        tryCatchFinally
          ((* Calculate trends before saving new history *)
           let trends := calculateTrends numeral (vitals st) (history st) in
           set (setTrendInsights trends) ;;
           data <- await (analyzeSymptoms ai (symptoms st) (selectedImage st)
                            (Some (vitals st)) (selectedLanguage st)) ;;
           set (setResult (Some data)) ;;
           let newHistoryItem :=
             HistoryItem.mk
               uuid
               (or_else (symptoms st)
                  (match selectedImage st with
                   | Some _ => lit "[Image Scan Analysis]"
                   | None => lit "[Vitals Analysis]"
                   end))
               now
               data
               (Some (vitals st)) in
           let updatedHistory := firstn 10 (newHistoryItem :: history st) in
           set (setHistory updatedHistory) ;;
           setItem refused (JSON_stringify updatedHistory))
          (fun err =>
             set (setError (Some (or_else (exn_message err)
                                    (lit "Something went wrong.")))))
          (set (setIsAnalyzing false)))%ui) st.

(** [clearHistory] *)
Definition clearHistory : UI unit :=
  (set (setHistory []) ;;
   removeItem)%ui.

End App.

(** [handleImageUpload] (lines 225-239): what the [onloadend] callback
    stores for the data URL [base64String] the reader produced and the
    type of the file.  [base64String.split(',')[1]] is [None] when it is
    undefined. *)
Definition base64Data (base64String : jsstring) : option jsstring :=
  nth_error (split 44 base64String) 1.

Definition uploadMimeType (fileType : jsstring) : jsstring :=
  or_else fileType (lit "image/jpeg").

(** The updater of [recognition.onresult] in [toggleVoiceInput]. *)
Definition appendTranscript (prev transcript : jsstring) : jsstring :=
  if truthy prev then prev ++ lit " " ++ transcript else transcript.

(* ================================================================== *)
(** ** components/DoctorFinder.tsx *)

Module DoctorFinder.

(** The state of the component. *)
Record State := {
  loading : bool;
  result : option DoctorSearchResult.t;
  error : option jsstring;
  status : jsstring }.

Definition setLoading (b : bool) (s : State) : State :=
  {| loading := b; result := result s; error := error s; status := status s |}.

Definition setResult (r : option DoctorSearchResult.t) (s : State) : State :=
  {| loading := loading s; result := r; error := error s; status := status s |}.

Definition setError (e : option jsstring) (s : State) : State :=
  {| loading := loading s; result := result s; error := e; status := status s |}.

Definition setStatus (t : jsstring) (s : State) : State :=
  {| loading := loading s; result := result s; error := error s; status := t |}.

(** What the browser does with [getCurrentPosition]: there is no
    [navigator.geolocation], or the success callback is called with a
    position, or the error callback with a code. *)
Inductive Geolocation :=
| Unsupported
| Position (latitude longitude : num)
| PositionError (code : Z).

(** The error callback's message (lines 58-61): three successive [if]s
    over a default. *)
Definition positionErrorMessage (code : Z) : jsstring :=
  let errorMsg := lit "Unable to retrieve your location." in
  let errorMsg :=
    if (code =? 1)%Z
    then lit "Location access denied. Please enable permissions."
    else errorMsg in
  let errorMsg :=
    if (code =? 2)%Z
    then lit "Location unavailable. Please check your GPS/Network."
    else errorMsg in
  let errorMsg :=
    if (code =? 3)%Z then lit "Location request timed out." else errorMsg in
  errorMsg.

Section Component.

Variable ai : remote.
Variable numeral : Q -> jsstring.
Variable medicalContext : jsstring.
Variable language : jsstring.

(** [handleFindDoctors] together with the callback the browser then
    calls, in state-passing style: the state of the component and the log
    of requests before, and after. *)
Definition handleFindDoctors (geo : Geolocation) (s : State)
    (log : list Request) : State * list Request :=
  let s := setLoading true s in
  let s := setError None s in
  let s := setStatus (lit "Requesting location access...") s in
  match geo with
  | Unsupported =>
      let s := setError (Some (lit "Geolocation is not supported by your browser")) s in
      let s := setLoading false s in
      (s, log)
  | Position latitude longitude =>
      let s := setStatus (lit "Location found. Searching for specialists...") s in
      match findNearbyDoctors ai numeral medicalContext latitude longitude
              language log with
      | (Returned data, log') =>
          let s := setResult (Some data) s in
          let s :=
            if (List.length (DoctorSearchResult.mapSources data) =? 0)%nat
            then setStatus (lit "Note: Specific map pins weren't returned, but here are relevant search results.") s
            else setStatus [] s in
          let s := setLoading false s in
          (s, log')
      | (Thrown err, log') =>
          let s := setError (Some (or_else (exn_message err)
                                     (lit "Failed to find doctors nearby."))) s in
          let s := setLoading false s in
          (s, log')
      end
  | PositionError code =>
      let s := setError (Some (positionErrorMessage code)) s in
      let s := setLoading false s in
      (s, log)
  end.

End Component.

(** What [formatContent] renders a line as. *)
Inductive Element :=
| li (text : jsstring)
| spacer
| p (line : jsstring).

Definition formatLine (line : jsstring) : Element :=
  if startsWith (trim line) (lit "* ") || startsWith (trim line) (lit "- ")
  then li (skipn 2 (trim line))
  else if negb (truthy (trim line)) then spacer
  else p line.

(** [formatContent] *)
Definition formatContent (content : jsstring) : list Element :=
  map formatLine (split 10 content).

End DoctorFinder.

(* ================================================================== *)
(** * Vocabulary of the properties *)

(** The first line of a text and what follows its first line feed. *)
Definition notLF (c : N) : bool := negb (c =? 10)%N.

Definition firstLineOf (s : jsstring) : jsstring := takeWhile notLF s.

Definition afterFirstLine (s : jsstring) : jsstring :=
  match dropWhile notLF s with
  | [] => []
  | _ :: t => t
  end.

Definition marker : jsstring := lit "CONFIDENCE_SCORE:".

(** What the first line of a text states: the digits after the score key
    and the word after the label key, when the marker is there and both
    are found. *)
Definition headerOf (t : jsstring) : option (jsstring * jsstring) :=
  if includes (firstLineOf t) marker then
    match scoreMatch (firstLineOf t), labelMatch (firstLineOf t) with
    | Some sc, Some lb => Some (sc, lb)
    | _, _ => None
    end
  else None.

(** [response.text], an absent text read as the empty string. *)
Definition responseText (r : Response) : jsstring :=
  match text r with Some s => s | None => [] end.

(** The text that is parsed: the response text, or the fixed sentence in
    its place when there is none. *)
Definition parsedText (r : Response) : jsstring :=
  or_else (responseText r) noAnalysisText.

Definition failureMessage : jsstring :=
  lit "Failed to analyze symptoms. Please check your connection or try a different image.".

Definition fails {A} (o : outcome A) : Prop := exists e, o = Thrown e.

(** A response carries usable text when its text is present and not empty. *)
Definition usableText (r : Response) : bool := truthy (responseText r).

(** A model that always answers [r]. *)
Definition answering (r : Response) : remote := fun _ _ => Returned r.

Definition textResponse (t : jsstring) : Response :=
  {| text := Some t; groundingChunks := None |}.

Definition silentResponse : Response :=
  {| text := None; groundingChunks := None |}.

(** The request log after a run, and its outcome. *)
Definition outcomeOf {A} (run : outcome A * list Request) : outcome A := fst run.
Definition callsOf {A} (run : outcome A * list Request) : list Request := snd run.

(** Failing exactly on a remote error or on a response without usable
    text. *)
Definition failsOnErrorOrNoText (ai : remote) (symptoms : jsstring)
    (image : option ImageState) (vitals : option Vitals.t)
    (language : jsstring) (log : list Request) : Prop :=
  let req := analysisRequest symptoms image vitals language in
  fails (outcomeOf (analyzeSymptoms ai symptoms image vitals language log))
  <-> (fails (ai log req)
       \/ exists r, ai log req = Returned r /\ usableText r = false).

(** The parse of a text [t] into a confidence and a content: the stated
    pair and the trimmed rest when the first line has the marker and both
    patterns match, and 0 / Low with the whole text otherwise. *)
Definition parsedAs (t : jsstring) (conf : Confidence.t) (content : jsstring)
  : Prop :=
  (forall sc lb,
      includes (firstLineOf t) marker = true ->
      scoreMatch (firstLineOf t) = Some sc ->
      labelMatch (firstLineOf t) = Some lb ->
      conf = Confidence.mk (parseInt sc (Some 10%N)) lb
      /\ content = trim (afterFirstLine t))
  /\ (includes (firstLineOf t) marker = false
      \/ scoreMatch (firstLineOf t) = None
      \/ labelMatch (firstLineOf t) = None ->
      conf = defaultConfidence /\ content = t).

Definition exampleReply : jsstring :=
  lit "CONFIDENCE_SCORE: 72 | CONFIDENCE_LABEL: Medium" ++ nl ++ lit "Body text".

(** The buckets of the system instruction. *)
Definition inRange (lo hi : Z) (x : num) : bool :=
  match x with
  | Fin q => Qle_bool (inject_Z lo) q && Qle_bool q (inject_Z hi)
  | _ => false
  end.

Definition named (s : jsstring) (name : string) : bool :=
  if list_eq_dec N.eq_dec s (lit name) then true else false.

Definition bucketAgrees (c : Confidence.t) : bool :=
  (named (Confidence.label c) "High" && inRange 80 100 (Confidence.score c))
  || (named (Confidence.label c) "Medium" && inRange 50 79 (Confidence.score c))
  || (named (Confidence.label c) "Low" && inRange 0 49 (Confidence.score c)).

(** The content leaves out the header line of the text. *)
Definition excludesHeader (t content : jsstring) : Prop :=
  includes (firstLineOf t) marker = true -> content = trim (afterFirstLine t).

Definition mislabelledReply : jsstring :=
  lit "CONFIDENCE_SCORE: 10 | CONFIDENCE_LABEL: High" ++ nl ++ lit "Body".

Definition malformedReply : jsstring :=
  lit "CONFIDENCE_SCORE: n/a" ++ nl ++ lit "Body".

(** The citations of a doctor lookup response. *)
Definition citations (r : Response) (defaultTitle : jsstring)
  : list MapSource.t :=
  DoctorSearchResult.mapSources (processResponse r defaultTitle).

Definition lookupFailure : jsstring := lit "Failed to locate nearby doctors.".

(** A model whose first call throws and whose later calls answer with a
    text and no citation. *)
Definition mapsDown : remote :=
  fun log _ =>
    match log with
    | [] => Thrown (Error (lit "maps tool unavailable"))
    | _ :: _ => Returned (textResponse (lit "Clinics near you"))
    end.

Definition noNumeral : Q -> jsstring := fun _ => [].

(** The four categories of vitals, in the order of the classifier, and the
    condition names each one can report. *)
Inductive Category := Temperature | HeartRate | BloodPressure | OxygenSaturation.

Definition categories : list Category :=
  [Temperature; HeartRate; BloodPressure; OxygenSaturation].

Definition Category_eqb (a b : Category) : bool :=
  match a, b with
  | Temperature, Temperature
  | HeartRate, HeartRate
  | BloodPressure, BloodPressure
  | OxygenSaturation, OxygenSaturation => true
  | _, _ => false
  end.

Definition conditionsOf (c : Category) : list string :=
  match c with
  | Temperature => ["High Fever"; "Fever"; "Hypothermia Risk"; "Temperature"]
  | HeartRate => ["Tachycardia"; "Elevated HR"; "Bradycardia"; "Heart Rate"]
  | BloodPressure =>
      ["Hypertensive Crisis"; "High BP"; "Elevated BP"; "Blood Pressure"]
  | OxygenSaturation => ["Hypoxia Risk"; "Low Oxygen"; "Oxygen Level"]
  end%string.

Definition inCategory (c : Category) (a : LocalAnalysis.t) : bool :=
  existsb (named (LocalAnalysis.condition a)) (conditionsOf c).

Definition categoryOf (a : LocalAnalysis.t) : option Category :=
  find (fun c => inCategory c a) categories.

(** A category is populated when its field is not empty; blood pressure
    needs both of its fields. *)
Definition populated (v : Vitals.t) (c : Category) : bool :=
  match c with
  | Temperature => truthy (Vitals.temp v)
  | HeartRate => truthy (Vitals.hr v)
  | BloodPressure => truthy (Vitals.bpSys v) && truthy (Vitals.bpDia v)
  | OxygenSaturation => truthy (Vitals.spo2 v)
  end.

(** The classifier reports exactly one alert of category [c], of severity
    [s]. *)
Definition alertOf (c : Category) (v : Vitals.t) (s : Severity) : Prop :=
  exists a,
    filter (inCategory c) (localAnalysis v) = [a]
    /\ LocalAnalysis.severity a = s.

(** A session of the application: the user fills the form and submits, or
    clears the history.  A submission comes with what the browser gives
    during it: the identifier, the time, and what the write to
    localStorage throws, if it is refused. *)
Record Submission := {
  typed : jsstring;
  photo : option ImageState;
  readings : Vitals.t;
  chosenLanguage : jsstring;
  uuid : jsstring;
  now : Z;
  refused : option exn }.

Inductive Event :=
| Submit (s : Submission)
| Clear.

(** The state of [useState] at mount, with nothing stored. *)
Definition initialState : AppState :=
  {| symptoms := []; isAnalyzing := false; result := None; error := None;
     history := []; selectedLanguage := lit "English"; selectedImage := None;
     vitals := Vitals.mk [] [] [] [] []; trendInsights := [];
     storage := None |}.

(** [setSymptoms], [setSelectedImage], [setVitals], [setSelectedLanguage]
    as the form is filled. *)
Definition fillForm (s : Submission) (st : AppState) : AppState :=
  {| symptoms := typed s; isAnalyzing := isAnalyzing st; result := result st;
     error := error st; history := history st;
     selectedLanguage := chosenLanguage s; selectedImage := photo s;
     vitals := readings s; trendInsights := trendInsights st;
     storage := storage st |}.

Definition step (ai : remote) (numeral : Q -> jsstring) (e : Event)
    (w : AppState * list Request) : AppState * list Request :=
  let '(st, log) := w in
  let '(_, st', log') :=
    match e with
    | Submit s =>
        handleAnalyze ai numeral (uuid s) (now s) (refused s) (fillForm s st) log
    | Clear => clearHistory st log
    end in
  (st', log').

Definition session (ai : remote) (numeral : Q -> jsstring) (es : list Event)
  : AppState * list Request :=
  fold_left (fun w e => step ai numeral e w) es (initialState, []).

(** The guard of [handleAnalyze]: something was entered. *)
Definition somethingEntered (st : AppState) : bool :=
  truthy (trim (symptoms st))
  || (match selectedImage st with Some _ => true | None => false end)
  || someVitals (vitals st).

(** The history entry a submission creates for the analysis [data]. *)
Definition entryFor (uuid : jsstring) (now : Z) (st : AppState)
    (data : AnalysisResult.t) : HistoryItem.t :=
  HistoryItem.mk uuid
    (or_else (symptoms st)
       (match selectedImage st with
        | Some _ => lit "[Image Scan Analysis]"
        | None => lit "[Vitals Analysis]"
        end))
    now data (Some (vitals st)).

(** A history is newest first when no entry is older than one after it. *)
Definition newestFirst (h : list HistoryItem.t) : Prop :=
  StronglySorted
    (fun a b => (HistoryItem.timestamp b <= HistoryItem.timestamp a)%Z) h.

Definition stateAfter (run : outcome unit * AppState * list Request) : AppState :=
  snd (fst run).

(** The entries the trend analyzer looks at: the first five of those that
    carry a vitals snapshot, the history being newest first. *)
Definition recentWindow (h : list HistoryItem.t) : list HistoryItem.t :=
  firstn 5 (filter hasVitals h).

Definition vitalsWithHr (hr : string) : Vitals.t :=
  Vitals.mk [] (lit hr) [] [] [].

(** An earlier analysis, kept with the heart rate [hr]. *)
Definition pastEntry (hr : string) : HistoryItem.t :=
  HistoryItem.mk (lit "earlier") (lit "cough") 1690000000000%Z
    (AnalysisResult.mk (lit "Rest.") defaultConfidence (lit "English") [])
    (Some (vitalsWithHr hr)).

(** A form with a symptom and a heart rate of 85, over a history of one
    entry with a heart rate of 70. *)
Definition returningVisit : AppState :=
  {| symptoms := lit "headache"; isAnalyzing := false; result := None;
     error := None; history := [pastEntry "70"];
     selectedLanguage := lit "English"; selectedImage := None;
     vitals := vitalsWithHr "85"; trendInsights := [];
     storage := Some (JSON_stringify [pastEntry "70"]) |}.






(** The change of [c] against the mean [m], in percent, in exact
    arithmetic. *)
Definition percentChange (c m : Q) : Q := (c - m) / m * 100.


(** The state after that form is submitted to a model that answers with
    the example reply, the write to localStorage going through. *)
Definition afterReturningVisit : AppState :=
  stateAfter (handleAnalyze (answering (textResponse exampleReply))
                noNumeral (lit "id-2") 1700000000000%Z None returningVisit []).



(** Each block appends at most one alert, of its own category, and
    exactly one when the category is populated. *)
Definition blockOf (cat : Category)
    (check : Vitals.t -> list LocalAnalysis.t -> list LocalAnalysis.t) : Prop :=
  forall v,
    (forall alerts, check v alerts = alerts ++ check v [])
    /\ (populated v cat = false -> check v [] = [])
    /\ (populated v cat = true ->
        exists a, check v [] = [a]
                  /\ forall c, inCategory c a = Category_eqb c cat).








(** The value of a decimal literal of the source. *)
Definition literal (q : Q) : Q :=
  match number q with
  | Fin r => r
  | _ => 0
  end.


(** An earlier analysis kept at the time [t]. *)
Definition entryAt (t : Z) : HistoryItem.t :=
  HistoryItem.mk (lit "earlier") (lit "cough") t
    (AnalysisResult.mk (lit "Rest.") defaultConfidence (lit "English") [])
    (Some (vitalsWithHr "70")).

(** A history of ten entries, newest first. *)
Definition fullHistory : list HistoryItem.t :=
  map entryAt [1690000000010; 1690000000009; 1690000000008; 1690000000007;
               1690000000006; 1690000000005; 1690000000004; 1690000000003;
               1690000000002; 1690000000001]%Z.

(** A form with a symptom over that history. *)
Definition eleventhVisit : AppState :=
  {| symptoms := lit "headache"; isAnalyzing := false; result := None;
     error := None; history := fullHistory;
     selectedLanguage := lit "English"; selectedImage := None;
     vitals := vitalsWithHr "85"; trendInsights := [];
     storage := Some (JSON_stringify fullHistory) |}.

(** The analysis the example reply is parsed into. *)
Definition exampleAnalysis : AnalysisResult.t :=
  AnalysisResult.mk (lit "Body text")
    (Confidence.mk (ofZ 72) (lit "Medium")) (lit "English") [].

(** What the browser throws when the quota of localStorage is used up. *)
Definition quotaExceeded : exn :=
  DOMException (lit "The quota has been exceeded.").




(* ================================================================== *)
(** * Vocabulary of the further properties *)

(** A response with the given text and grounding chunks. *)
Definition groundedResponse (t : option jsstring) (chunks : list GroundingChunk)
  : Response :=
  {| text := t; groundingChunks := Some chunks |}.

(** The web part of a chunk, when it has a uri and a title that are not
    empty: title and uri. *)
Definition completeWeb (chunk : GroundingChunk) : option (jsstring * jsstring) :=
  match web chunk with
  | Some w =>
      match present (web_uri w), present (web_title w) with
      | Some u, Some t => Some (t, u)
      | _, _ => None
      end
  | None => None
  end.

(** The maps part of a chunk, when it has a uri and a title that are not
    empty: title, uri and address. *)
Definition completeMaps (chunk : GroundingChunk)
  : option (jsstring * jsstring * option jsstring) :=
  match maps chunk with
  | Some m =>
      match present (maps_uri m), present (maps_title m) with
      | Some u, Some t => Some (t, u, maps_address m)
      | _, _ => None
      end
  | None => None
  end.

(** What one chunk contributes to the sources of an analysis and to the
    map sources of a doctor lookup. *)
Definition webSourceOf (chunk : GroundingChunk) : list GroundingSource.t :=
  match completeWeb chunk with
  | Some (t, u) => [GroundingSource.mk t u]
  | None => []
  end.

Definition mapSourceOf (chunk : GroundingChunk) : list MapSource.t :=
  match completeMaps chunk with
  | Some (t, u, a) => [MapSource.mk t u a]
  | None =>
      match completeWeb chunk with
      | Some (t, u) => [MapSource.mk t u (Some [])]
      | None => []
      end
  end.



(** The classifier reports exactly one alert of category [c], named
    [name], of severity [s]. *)
Definition reportOf (c : Category) (v : Vitals.t) (name : string)
    (s : Severity) : Prop :=
  exists a,
    filter (inCategory c) (localAnalysis v) = [a]
    /\ LocalAnalysis.condition a = lit name
    /\ LocalAnalysis.severity a = s.

(** No category of the vitals is populated. *)
Definition unpopulated (v : Vitals.t) : Prop :=
  forall c, populated v c = false.

(** The form is blank: the symptoms are white space only, there is no
    image and every vitals field is empty. *)
Definition blankForm (st : AppState) : Prop :=
  forallb isWhiteSpace (symptoms st) = true
  /\ selectedImage st = None
  /\ vitals st = Vitals.mk [] [] [] [] [].

(** The fields of the form, which no handler run changes. *)
Definition sameForm (st st' : AppState) : Prop :=
  symptoms st' = symptoms st
  /\ selectedImage st' = selectedImage st
  /\ vitals st' = vitals st
  /\ selectedLanguage st' = selectedLanguage st.

(** What is stored is the text made of the history on display, or there
    is neither a history nor a stored text. *)
Definition mirrored (st : AppState) : Prop :=
  storage st = Some (JSON_stringify (history st))
  \/ (history st = [] /\ storage st = None).

(** No write of the session is refused by the browser. *)
Definition writable (e : Event) : bool :=
  match e with
  | Submit s => match refused s with None => true | Some _ => false end
  | Clear => true
  end.

Definition isSubmit (e : Event) : bool :=
  match e with Submit _ => true | Clear => false end.

(** A request for a symptom analysis: web search is its only tool. *)
Definition isAnalysisRequest (req : Request) : Prop :=
  tools (config req) = [googleSearch] /\ toolConfig (config req) = None.

(** A string without a comma. *)
Definition noComma (s : jsstring) : Prop :=
  forallb (fun c => negb (c =? 44)%N) s = true.

(** A string with a code unit that is not white space. *)
Definition visible (s : jsstring) : Prop :=
  existsb (fun c => negb (isWhiteSpace c)) s = true.

Definition noPinsNote : jsstring :=
  lit "Note: Specific map pins weren't returned, but here are relevant search results.".

Definition noLocationMessage : jsstring :=
  lit "Unable to retrieve your location.".

(** A context of 100 code units followed by [tail]. *)
Definition longContext (tail : string) : jsstring :=
  repeat 97%N 100 ++ lit tail.

(** The text of the last part of a request made of parts. *)
Definition lastText (req : Request) : option jsstring :=
  match contents req with
  | Parts parts =>
      match last parts (textPart []) with
      | textPart t => Some t
      | inlineData _ _ => None
      end
  | Prompt _ => None
  end.

(** The parts of a request before its last one. *)
Definition leadingParts (req : Request) : list Part :=
  match contents req with
  | Parts parts => removelast parts
  | Prompt _ => []
  end.


(** A session of one submission of a symptom, the write being refused. *)
Definition refusedSession : list Event :=
  [Submit {| typed := lit "headache"; photo := None;
             readings := Vitals.mk [] [] [] [] [];
             chosenLanguage := lit "English";
             uuid := lit "id-1"; now := 1700000000000%Z;
             refused := Some quotaExceeded |}].


(** A line that, trimmed, is an asterisk or a hyphen, a space and the
    text [t]. *)
Definition bulletOf (line t : jsstring) : Prop :=
  trim line = lit "* " ++ t \/ trim line = lit "- " ++ t.


(* ================================================================== *)
(** * Properties *)

(** ** Strings: lines, trimming and the two patterns *)

Section Runs.

Variable p : N -> bool.

Lemma takeWhile_dropWhile (s : jsstring) :
  takeWhile p s ++ dropWhile p s = s.
Proof.
  induction s as [|c t IH]; simpl; [reflexivity|].
  destruct (p c); simpl; [now rewrite IH | reflexivity].
Qed.

Lemma takeWhile_all (s : jsstring) : forallb p (takeWhile p s) = true.
Proof.
  induction s as [|c t IH]; simpl; [reflexivity|].
  destruct (p c) eqn:E; simpl; [now rewrite E | reflexivity].
Qed.

Lemma dropWhile_all (s : jsstring) :
  forallb p s = true -> dropWhile p s = [].
Proof.
  induction s as [|c t IH]; simpl; [reflexivity|].
  destruct (p c); simpl; [exact IH | discriminate].
Qed.

End Runs.

Lemma split_cons (sep : N) (s : jsstring) :
  exists l ls, split sep s = l :: ls.
Proof.
  induction s as [|c t (l & ls & E)]; simpl.
  - now exists [], [].
  - destruct (c =? sep)%N.
    + now exists [], (split sep t).
    + rewrite E. now exists (c :: l), ls.
Qed.

Lemma join_cons2 (sep l m : jsstring) (ls : list jsstring) :
  join sep (l :: m :: ls) = l ++ sep ++ join sep (m :: ls).
Proof. reflexivity. Qed.

Lemma join_split (sep : N) (s : jsstring) : join [sep] (split sep s) = s.
Proof.
  induction s as [|c t IH]; [reflexivity|].
  cbn [split].
  destruct (split_cons sep t) as (l & ls & E). rewrite E in *.
  destruct (c =? sep)%N eqn:Ec.
  - apply N.eqb_eq in Ec. subst c. rewrite join_cons2, IH. reflexivity.
  - destruct ls as [|m ls].
    + simpl in *. now rewrite IH.
    + rewrite <- IH, !join_cons2. reflexivity.
Qed.

Lemma split_lines (s : jsstring) :
  nth_error (split 10 s) 0 = Some (firstLineOf s)
  /\ join nl (skipn 1 (split 10 s)) = afterFirstLine s.
Proof.
  unfold firstLineOf, afterFirstLine, notLF, nl.
  induction s as [|c t [IH1 IH2]]; simpl; [now split|].
  destruct (split_cons 10 t) as (l & ls & E).
  destruct (c =? 10)%N eqn:Ec; simpl.
  - split; [reflexivity|]. apply join_split.
  - rewrite E in *. simpl in *. injection IH1 as ->. split; [reflexivity|].
    exact IH2.
Qed.

(** A string is its trimmed end followed by white space only. *)
Lemma trimEnd_decompose (s : jsstring) :
  exists w, s = trimEnd s ++ w /\ forallb isWhiteSpace w = true.
Proof.
  exists (rev (takeWhile isWhiteSpace (rev s))). split.
  - unfold trimEnd. rewrite <- rev_app_distr, takeWhile_dropWhile.
    now rewrite rev_involutive.
  - rewrite forallb_forall. intros x Hx. apply in_rev in Hx.
    pose proof (takeWhile_all isWhiteSpace (rev s)) as H.
    rewrite forallb_forall in H. now apply H.
Qed.

Section Patterns.

(** A key without white space, and a class without white space. *)
Variable key : jsstring.
Variable cls : N -> bool.
Variable k0 : N.
Variable key' : jsstring.
Hypothesis key_shape : key = k0 :: key'.
Hypothesis key_solid : forall c, In c key -> isWhiteSpace c = false.
Hypothesis cls_solid : forall c, cls c = true -> isWhiteSpace c = false.

Lemma k0_solid : isWhiteSpace k0 = false.
Proof. apply key_solid. rewrite key_shape. now left. Qed.

Lemma stripPrefix_ws (c : N) (t : jsstring) :
  isWhiteSpace c = true -> stripPrefix key (c :: t) = None.
Proof.
  intros Hc. rewrite key_shape. simpl.
  destruct (k0 =? c)%N eqn:E; [|reflexivity].
  apply N.eqb_eq in E. subst c. now rewrite k0_solid in Hc.
Qed.

Lemma stripPrefix_app_ws (x w : jsstring) :
  forallb isWhiteSpace w = true ->
  stripPrefix key (x ++ w)
  = match stripPrefix key x with Some r => Some (r ++ w) | None => None end.
Proof.
  intros Hw. pose proof key_solid as Hk. clear key_shape key_solid.
  revert x. induction key as [|a k IH]; intros x; [reflexivity|].
  destruct x as [|b x]; simpl.
  - destruct w as [|b w']; [reflexivity|]. simpl in *.
    apply andb_true_iff in Hw. destruct Hw as [Hb _].
    destruct (a =? b)%N eqn:E; [|reflexivity].
    apply N.eqb_eq in E. subst b. rewrite (Hk a) in Hb; [discriminate|now left].
  - destruct (a =? b)%N; [|reflexivity]. apply IH.
    intros c Hc. apply Hk. now right.
Qed.

Lemma takeWhile_cls_app_ws (r w : jsstring) :
  forallb isWhiteSpace w = true ->
  takeWhile cls (r ++ w) = takeWhile cls r.
Proof.
  intros Hw. induction r as [|c r IH]; simpl.
  - destruct w as [|b w']; [reflexivity|]. simpl in *.
    apply andb_true_iff in Hw. destruct Hw as [Hb _].
    destruct (cls b) eqn:E; [|reflexivity].
    apply cls_solid in E. congruence.
  - destruct (cls c); [now rewrite IH | reflexivity].
Qed.

Lemma group_app_ws (r w : jsstring) :
  forallb isWhiteSpace w = true ->
  takeWhile cls (dropWhile isWhiteSpace (r ++ w))
  = takeWhile cls (dropWhile isWhiteSpace r).
Proof.
  intros Hw. induction r as [|c r IH]; simpl.
  - rewrite (dropWhile_all _ _ Hw). reflexivity.
  - destruct (isWhiteSpace c); [exact IH|].
    now apply (takeWhile_cls_app_ws (c :: r)).
Qed.

Lemma matchHere_app_ws (x w : jsstring) :
  forallb isWhiteSpace w = true ->
  matchHere key cls (x ++ w) = matchHere key cls x.
Proof.
  intros Hw. unfold matchHere. rewrite (stripPrefix_app_ws _ _ Hw).
  destruct (stripPrefix key x) as [r|]; [|reflexivity].
  now rewrite (group_app_ws _ _ Hw).
Qed.

Lemma matchGroup_ws (w : jsstring) :
  forallb isWhiteSpace w = true -> matchGroup key cls w = None.
Proof.
  induction w as [|c w IH]; simpl; intros Hw.
  - unfold matchHere. rewrite key_shape. reflexivity.
  - apply andb_true_iff in Hw. destruct Hw as [Hc Hw].
    unfold matchHere. rewrite (stripPrefix_ws _ _ Hc). now apply IH.
Qed.

Lemma matchGroup_app_ws (x w : jsstring) :
  forallb isWhiteSpace w = true ->
  matchGroup key cls (x ++ w) = matchGroup key cls x.
Proof.
  intros Hw. induction x as [|c x IH].
  - simpl app. rewrite (matchGroup_ws _ Hw). simpl.
    unfold matchHere. rewrite key_shape. reflexivity.
  - change ((c :: x) ++ w) with (c :: (x ++ w)).
    cbn [matchGroup]. change (c :: (x ++ w)) with ((c :: x) ++ w).
    rewrite (matchHere_app_ws _ _ Hw). now rewrite IH.
Qed.

Lemma matchGroup_trimStart (s : jsstring) :
  matchGroup key cls (trimStart s) = matchGroup key cls s.
Proof.
  unfold trimStart. induction s as [|c t IH]; [reflexivity|].
  cbn [dropWhile]. destruct (isWhiteSpace c) eqn:Hc; [|reflexivity].
  rewrite IH. cbn [matchGroup]. unfold matchHere.
  now rewrite (stripPrefix_ws _ _ Hc).
Qed.

(** The pattern finds in the trimmed string what it finds in the string. *)
Lemma matchGroup_trim (s : jsstring) :
  matchGroup key cls (trim s) = matchGroup key cls s.
Proof.
  unfold trim. destruct (trimEnd_decompose (trimStart s)) as (w & E & Hw).
  rewrite <- (matchGroup_trimStart s). rewrite E at 2.
  now rewrite (matchGroup_app_ws _ _ Hw).
Qed.

Lemma includes_ws (w : jsstring) :
  forallb isWhiteSpace w = true -> includes w key = false.
Proof.
  induction w as [|c w IH]; simpl; intros Hw.
  - unfold startsWith. rewrite key_shape. reflexivity.
  - apply andb_true_iff in Hw. destruct Hw as [Hc Hw].
    unfold startsWith. rewrite (stripPrefix_ws _ _ Hc). now apply IH.
Qed.

Lemma includes_app_ws (x w : jsstring) :
  forallb isWhiteSpace w = true -> includes (x ++ w) key = includes x key.
Proof.
  intros Hw. induction x as [|c x IH].
  - simpl app. rewrite (includes_ws _ Hw). simpl.
    unfold startsWith. rewrite key_shape. reflexivity.
  - change ((c :: x) ++ w) with (c :: (x ++ w)).
    cbn [includes]. rewrite IH. f_equal.
    change (c :: (x ++ w)) with ((c :: x) ++ w).
    unfold startsWith. rewrite (stripPrefix_app_ws _ _ Hw).
    now destruct (stripPrefix key (c :: x)).
Qed.

Lemma includes_trimStart (s : jsstring) :
  includes (trimStart s) key = includes s key.
Proof.
  unfold trimStart. induction s as [|c t IH]; [reflexivity|].
  cbn [dropWhile]. destruct (isWhiteSpace c) eqn:Hc; [|reflexivity].
  rewrite IH. cbn [includes]. unfold startsWith.
  now rewrite (stripPrefix_ws _ _ Hc).
Qed.

Lemma includes_trim (s : jsstring) :
  includes (trim s) key = includes s key.
Proof.
  unfold trim. destruct (trimEnd_decompose (trimStart s)) as (w & E & Hw).
  rewrite <- (includes_trimStart s). rewrite E at 2.
  now rewrite (includes_app_ws _ _ Hw).
Qed.

End Patterns.

Lemma isWhiteSpace_range (c : N) :
  isWhiteSpace c = true -> (9 <= c <= 13 \/ c = 32 \/ 160 <= c)%N.
Proof.
  unfold isWhiteSpace. cbn [existsb]. intros H.
  repeat (apply orb_true_iff in H; destruct H as [H|H]);
    try (apply N.eqb_eq in H; lia); try discriminate.
  apply andb_true_iff in H. destruct H as [H _]. apply N.leb_le in H. lia.
Qed.

Lemma isDigit_range (c : N) : isDigit c = true -> (48 <= c <= 57)%N.
Proof.
  unfold isDigit. intros H. apply andb_true_iff in H. destruct H as [H1 H2].
  apply N.leb_le in H1, H2. lia.
Qed.

Lemma isWord_range (c : N) : isWord c = true -> (48 <= c <= 122)%N.
Proof.
  unfold isWord. intros H.
  repeat (apply orb_true_iff in H; destruct H as [H|H]).
  - apply andb_true_iff in H. destruct H as [H1 H2].
    apply N.leb_le in H1, H2. lia.
  - apply andb_true_iff in H. destruct H as [H1 H2].
    apply N.leb_le in H1, H2. lia.
  - apply isDigit_range in H. lia.
  - apply N.eqb_eq in H. lia.
Qed.

Lemma solid_not_ws (c : N) : (48 <= c <= 122)%N -> isWhiteSpace c = false.
Proof.
  intros H. destruct (isWhiteSpace c) eqn:E; [|reflexivity].
  apply isWhiteSpace_range in E. lia.
Qed.

Lemma literal_solid (key : jsstring) :
  forallb (fun c => negb (isWhiteSpace c)) key = true ->
  forall c, In c key -> isWhiteSpace c = false.
Proof.
  intros H c Hc. rewrite forallb_forall in H. apply H in Hc.
  now apply negb_true_iff in Hc.
Qed.

Lemma marker_trim (l : jsstring) : includes (trim l) marker = includes l marker.
Proof.
  apply (includes_trim marker 67%N (lit "ONFIDENCE_SCORE:") eq_refl).
  apply literal_solid. reflexivity.
Qed.

Lemma scoreMatch_trim (l : jsstring) : scoreMatch (trim l) = scoreMatch l.
Proof.
  apply (matchGroup_trim (lit "CONFIDENCE_SCORE:") isDigit 67%N
           (lit "ONFIDENCE_SCORE:") eq_refl).
  - apply literal_solid. reflexivity.
  - intros c Hc. apply solid_not_ws. apply isDigit_range in Hc. lia.
Qed.

Lemma labelMatch_trim (l : jsstring) : labelMatch (trim l) = labelMatch l.
Proof.
  apply (matchGroup_trim (lit "CONFIDENCE_LABEL:") isWord 67%N
           (lit "ONFIDENCE_LABEL:") eq_refl).
  - apply literal_solid. reflexivity.
  - intros c Hc. apply solid_not_ws. now apply isWord_range.
Qed.

(** ** The response parser *)

(** The parser returns on every text, without a call to the model. *)
Lemma responseParser_run (fullText : jsstring) (log : list Request) :
  responseParser fullText log
  = (Returned
       (match headerOf fullText with
        | Some (sc, lb) =>
            (Confidence.mk (parseInt sc (Some 10%N)) lb,
             trim (afterFirstLine fullText))
        | None => (defaultConfidence, fullText)
        end),
     log).
Proof.
  unfold responseParser, headerOf.
  destruct (split_lines fullText) as [E1 E2]. rewrite E1, E2.
  unfold bind, ret, tryCatch.
  fold marker. rewrite marker_trim, scoreMatch_trim, labelMatch_trim.
  destruct (includes (firstLineOf fullText) marker); [|reflexivity].
  destruct (scoreMatch (firstLineOf fullText));
    destruct (labelMatch (firstLineOf fullText)); reflexivity.
Qed.

Lemma analyzeSymptoms_run (ai : remote) (symptoms : jsstring)
    (image : option ImageState) (vitals : option Vitals.t)
    (language : jsstring) (log : list Request) :
  analyzeSymptoms ai symptoms image vitals language log
  = (match ai log (analysisRequest symptoms image vitals language) with
     | Returned r =>
         Returned
           (match headerOf (parsedText r) with
            | Some (sc, lb) =>
                AnalysisResult.mk (trim (afterFirstLine (parsedText r)))
                  (Confidence.mk (parseInt sc (Some 10%N)) lb)
                  language (groundingSources r)
            | None =>
                AnalysisResult.mk (parsedText r) defaultConfidence
                  language (groundingSources r)
            end)
     | Thrown _ => Thrown (Error failureMessage)
     end,
     log ++ [analysisRequest symptoms image vitals language]).
Proof.
  unfold analyzeSymptoms, tryCatch, bind, generateContent.
  destruct (ai log (analysisRequest symptoms image vitals language)) as [r|e];
    [|reflexivity].
  fold (responseText r). fold (parsedText r).
  rewrite responseParser_run.
  destruct (headerOf (parsedText r)) as [[sc lb]|]; reflexivity.
Qed.


(** ** The analysis orchestrator *)

Lemma parsedText_usable (r : Response) :
  usableText r = true -> parsedText r = responseText r.
Proof. unfold usableText, parsedText, or_else. now intros ->. Qed.

Lemma parsedText_unusable (r : Response) :
  usableText r = false -> parsedText r = noAnalysisText.
Proof. unfold usableText, parsedText, or_else. now intros ->. Qed.

Lemma headerOf_noAnalysisText : headerOf noAnalysisText = None.
Proof. vm_compute. reflexivity. Qed.

(** C1 (as stated it fails): with a model that answers without any text,
    [analyzeSymptoms] returns a result, so it does not fail exactly on
    "remote error or no usable text". *)
Lemma analyzeSymptoms_no_text_returns :
  ~ failsOnErrorOrNoText (answering silentResponse) [] None None
      (lit "English") [].
Proof.
  unfold failsOnErrorOrNoText. intros [_ H].
  destruct H as [e He].
  - right. exists silentResponse. split; reflexivity.
  - unfold outcomeOf in He. rewrite analyzeSymptoms_run in He.
    simpl in He. destruct (headerOf (parsedText silentResponse)) as [[? ?]|];
      discriminate.
Qed.

(** C1 (amended): [analyzeSymptoms] makes exactly one call to the model;
    it fails exactly when that call throws, and then with the fixed
    message; when the call answers without usable text it returns a result
    whose content is the fixed sentence and whose confidence is 0 / Low. *)
Theorem analyzeSymptoms_fails_iff_call_throws :
  forall (ai : remote) (symptoms : jsstring) (image : option ImageState)
         (vitals : option Vitals.t) (language : jsstring) (log : list Request),
    let req := analysisRequest symptoms image vitals language in
    let run := analyzeSymptoms ai symptoms image vitals language log in
    callsOf run = log ++ [req]
    /\ (fails (outcomeOf run) <-> fails (ai log req))
    /\ (fails (ai log req) -> outcomeOf run = Thrown (Error failureMessage))
    /\ (forall r, ai log req = Returned r -> usableText r = false ->
        exists res,
          outcomeOf run = Returned res
          /\ AnalysisResult.content res = noAnalysisText
          /\ AnalysisResult.confidence res = defaultConfidence).
Proof.
  intros ai symptoms image vitals language log req run.
  unfold run, outcomeOf, callsOf. rewrite analyzeSymptoms_run. fold req.
  cbn [fst snd]. split; [reflexivity|].
  destruct (ai log req) as [r|e] eqn:E.
  - split; [|split].
    + split; intros [e He]; discriminate.
    + intros [e He]. discriminate.
    + intros r' Hr' Hu. injection Hr' as <-.
      rewrite (parsedText_unusable _ Hu), headerOf_noAnalysisText.
      eexists. repeat split.
  - split; [|split].
    + split; intros _; eexists; reflexivity.
    + reflexivity.
    + intros r' Hr'. discriminate.
Qed.

Lemma analyzeSymptoms_fails_iff_call_throws_witness :
  exists res,
    outcomeOf (analyzeSymptoms (answering silentResponse) [] None None
                 (lit "English") []) = Returned res
    /\ AnalysisResult.content res = noAnalysisText
    /\ AnalysisResult.confidence res = defaultConfidence.
Proof.
  destruct (analyzeSymptoms_fails_iff_call_throws (answering silentResponse)
              [] None None (lit "English") []) as (_ & _ & _ & H).
  exact (H silentResponse eq_refl eq_refl).
Defined.

(** ** The doctor lookup orchestrator *)

Lemma findNearbyDoctors_run (ai : remote) (numeral : Q -> jsstring)
    (medicalContext : jsstring) (lat lng : num) (language : jsstring)
    (log : list Request) :
  let req1 := mapsRequest numeral medicalContext lat lng language in
  let req2 := searchRequest numeral medicalContext lat lng language in
  let stage2 :=
    (match ai (log ++ [req1]) req2 with
     | Returned r2 => Returned (processResponse r2 (lit "Search Results"))
     | Thrown _ => Thrown (Error lookupFailure)
     end, log ++ [req1; req2]) in
  findNearbyDoctors ai numeral medicalContext lat lng language log
  = match ai log req1 with
    | Returned r1 =>
        match citations r1 (lit "Maps Search Results") with
        | [] => stage2
        | _ :: _ =>
            (Returned (processResponse r1 (lit "Maps Search Results")),
             log ++ [req1])
        end
    | Thrown _ => stage2
    end.
Proof.
  intros req1 req2 stage2.
  assert (S2 : forall lg, lg = log ++ [req1] ->
            tryCatch
              (bind (generateContent ai req2)
                 (fun response =>
                    ret (processResponse response (lit "Search Results"))))
              (fun _ => throw (Error (lit "Failed to locate nearby doctors.")))
              lg = stage2).
  { intros lg ->. unfold stage2, tryCatch, bind, generateContent, ret, throw.
    rewrite <- app_assoc. simpl.
    destruct (ai (log ++ [req1]) req2); reflexivity. }
  unfold findNearbyDoctors. fold req1 req2.
  unfold bind at 1. unfold tryCatch at 1. unfold bind at 1.
  unfold generateContent at 1.
  destruct (ai log req1) as [r1|e].
  - unfold citations.
    destruct (DoctorSearchResult.mapSources
                (processResponse r1 (lit "Maps Search Results"))) eqn:E;
      cbn [List.length Nat.ltb Nat.leb ret].
    + now apply S2.
    + reflexivity.
  - cbn [ret]. now apply S2.
Qed.

(** C2: when the maps-grounded call answers with at least one citation its
    result is returned and no second request is made; when it throws or
    answers without citation the search-grounded request is made and its
    result returned, whatever its citations; the operation fails exactly
    when that second request was made and threw. *)
Theorem findNearbyDoctors_two_stage :
  forall (ai : remote) (numeral : Q -> jsstring) (medicalContext : jsstring)
         (lat lng : num) (language : jsstring) (log : list Request),
    let req1 := mapsRequest numeral medicalContext lat lng language in
    let req2 := searchRequest numeral medicalContext lat lng language in
    let run := findNearbyDoctors ai numeral medicalContext lat lng language log in
    let stage1 := ai log req1 in
    let stage2 := ai (log ++ [req1]) req2 in
    (forall r1,
        stage1 = Returned r1 ->
        citations r1 (lit "Maps Search Results") <> [] ->
        run = (Returned (processResponse r1 (lit "Maps Search Results")),
               log ++ [req1]))
    /\ (fails stage1
        \/ (exists r1, stage1 = Returned r1
                       /\ citations r1 (lit "Maps Search Results") = []) ->
        callsOf run = log ++ [req1; req2]
        /\ (forall r2, stage2 = Returned r2 ->
              outcomeOf run = Returned (processResponse r2 (lit "Search Results")))
        /\ (fails stage2 -> outcomeOf run = Thrown (Error lookupFailure)))
    /\ (fails (outcomeOf run)
        <-> callsOf run = log ++ [req1; req2] /\ fails stage2).
Proof.
  intros ai numeral medicalContext lat lng language log req1 req2 run
         stage1 stage2.
  assert (Hlog : log ++ [req1] <> log ++ [req1; req2]).
  { intros H. apply app_inv_head in H. discriminate. }
  unfold run, outcomeOf, callsOf. rewrite findNearbyDoctors_run.
  fold req1 req2 stage1 stage2.
  destruct stage1 as [r1|e1] eqn:E1.
  - destruct (citations r1 (lit "Maps Search Results")) as [|c cs] eqn:Ec.
    + split; [|split].
      * intros r Hr Hc. injection Hr as <-. now rewrite Ec in Hc.
      * intros _. cbn [fst snd]. split; [reflexivity|].
        split.
        -- intros r2 ->. reflexivity.
        -- intros [e ->]. reflexivity.
      * cbn [fst snd]. destruct stage2 as [r2|e2].
        -- split; [intros [e He]; discriminate|].
           intros [_ [e He]]. discriminate.
        -- split; intros _; [split; [reflexivity|]|]; eexists; reflexivity.
    + split; [|split].
      * intros r Hr _. injection Hr as <-. reflexivity.
      * intros [[e He]|(r & Hr & Hc)]; [discriminate|].
        injection Hr as <-. rewrite Ec in Hc. discriminate.
      * cbn [fst snd]. split; [intros [e He]; discriminate|].
        intros [H _]. now apply Hlog in H.
  - split; [|split].
    + intros r Hr. discriminate.
    + intros _. cbn [fst snd]. split; [reflexivity|].
      split.
      * intros r2 ->. reflexivity.
      * intros [e ->]. reflexivity.
    + cbn [fst snd]. destruct stage2 as [r2|e2].
      * split; [intros [e He]; discriminate|].
        intros [_ [e He]]. discriminate.
      * split; intros _; [split; [reflexivity|]|]; eexists; reflexivity.
Qed.

Lemma findNearbyDoctors_two_stage_witness :
  callsOf (findNearbyDoctors mapsDown noNumeral (lit "sore throat")
             (ofZ 0) (ofZ 0) (lit "English") [])
  = [mapsRequest noNumeral (lit "sore throat") (ofZ 0) (ofZ 0) (lit "English");
     searchRequest noNumeral (lit "sore throat") (ofZ 0) (ofZ 0) (lit "English")]
  /\ outcomeOf (findNearbyDoctors mapsDown noNumeral (lit "sore throat")
                  (ofZ 0) (ofZ 0) (lit "English") [])
     = Returned (processResponse (textResponse (lit "Clinics near you"))
                   (lit "Search Results")).
Proof.
  destruct (findNearbyDoctors_two_stage mapsDown noNumeral (lit "sore throat")
              (ofZ 0) (ofZ 0) (lit "English") []) as (_ & H & _).
  destruct H as (Hc & Hr & _).
  - left. eexists. reflexivity.
  - split; [exact Hc|]. apply Hr. reflexivity.
Defined.

(** ** What the parser makes of a response *)

Lemma headerOf_parsedAs (t : jsstring) :
  parsedAs t
    (match headerOf t with
     | Some (sc, lb) => Confidence.mk (parseInt sc (Some 10%N)) lb
     | None => defaultConfidence
     end)
    (match headerOf t with
     | Some _ => trim (afterFirstLine t)
     | None => t
     end).
Proof.
  unfold parsedAs, headerOf. split.
  - intros sc lb -> -> ->. now split.
  - intros [->|[->| ->]]; [now split| |].
    + destruct (includes (firstLineOf t) marker); now split.
    + destruct (includes (firstLineOf t) marker);
        [destruct (scoreMatch (firstLineOf t))|]; now split.
Qed.

(** C3 (as stated it fails): on the empty response text the marker is
    absent, yet the content of the result is not that text. *)
Lemma empty_response_text_not_kept :
  exists res,
    outcomeOf (analyzeSymptoms (answering (textResponse [])) [] None None
                 (lit "English") []) = Returned res
    /\ ~ parsedAs [] (AnalysisResult.confidence res)
                     (AnalysisResult.content res).
Proof.
  eexists. split; [vm_compute; reflexivity|].
  intros [_ H]. destruct H as [_ H]; [now left|]. discriminate.
Qed.

(** C3 (amended): whatever the model answers, [analyzeSymptoms] returns.
    For a response text that is not empty the result is its parse: the
    stated score and label with every line after the first, trimmed, when
    the first line has the marker and both patterns match; 0 / Low with
    the whole text unchanged otherwise.  An empty or absent response text
    gives 0 / Low with the fixed sentence as content.  The reply
    "CONFIDENCE_SCORE: 72 | CONFIDENCE_LABEL: Medium", line feed,
    "Body text" gives 72 / Medium and "Body text". *)
Theorem response_parsed_or_fallback :
  forall (ai : remote) (symptoms : jsstring) (image : option ImageState)
         (vitals : option Vitals.t) (language : jsstring) (log : list Request)
         (r : Response),
    ai log (analysisRequest symptoms image vitals language) = Returned r ->
    exists res,
      outcomeOf (analyzeSymptoms ai symptoms image vitals language log)
      = Returned res
      /\ (responseText r <> [] ->
          parsedAs (responseText r) (AnalysisResult.confidence res)
                   (AnalysisResult.content res))
      /\ (responseText r = [] ->
          AnalysisResult.confidence res = defaultConfidence
          /\ AnalysisResult.content res = noAnalysisText)
      /\ (responseText r = exampleReply ->
          AnalysisResult.confidence res = Confidence.mk (ofZ 72) (lit "Medium")
          /\ AnalysisResult.content res = lit "Body text").
Proof.
  intros ai symptoms image vitals language log r Hr.
  unfold outcomeOf. rewrite analyzeSymptoms_run, Hr. cbn [fst].
  eexists. split; [reflexivity|]. split; [|split].
  - intros Hne.
    assert (E : parsedText r = responseText r).
    { apply parsedText_usable. unfold usableText.
      destruct (responseText r); [contradiction|reflexivity]. }
    rewrite E. pose proof (headerOf_parsedAs (responseText r)) as P.
    destruct (headerOf (responseText r)) as [[sc lb]|]; exact P.
  - intros He.
    assert (E : parsedText r = noAnalysisText).
    { apply parsedText_unusable. unfold usableText. now rewrite He. }
    rewrite E, headerOf_noAnalysisText. now split.
  - intros He.
    assert (E : parsedText r = exampleReply).
    { unfold parsedText. rewrite He. reflexivity. }
    rewrite E.
    replace (headerOf exampleReply)
      with (Some (lit "72", lit "Medium")) by (vm_compute; reflexivity).
    split; vm_compute; reflexivity.
Qed.

Lemma response_parsed_or_fallback_witness :
  exists res,
    outcomeOf (analyzeSymptoms (answering (textResponse exampleReply))
                 [] None None (lit "English") []) = Returned res
    /\ AnalysisResult.confidence res = Confidence.mk (ofZ 72) (lit "Medium")
    /\ AnalysisResult.content res = lit "Body text".
Proof.
  destruct (response_parsed_or_fallback (answering (textResponse exampleReply))
              [] None None (lit "English") [] (textResponse exampleReply)
              eq_refl) as (res & Hres & _ & _ & H).
  exists res. split; [exact Hres|]. exact (H eq_refl).
Defined.

(** ** The confidence invariant *)

(** C5 (as stated it fails): a reply stating score 10 with label High is
    returned with that pair, which no bucket allows; a reply whose first
    line has the marker but no score keeps that line in the content. *)
Lemma stated_confidence_not_checked :
  (exists res,
      outcomeOf (analyzeSymptoms (answering (textResponse mislabelledReply))
                   [] None None (lit "English") []) = Returned res
      /\ bucketAgrees (AnalysisResult.confidence res) = false)
  /\ (exists res,
         outcomeOf (analyzeSymptoms (answering (textResponse malformedReply))
                      [] None None (lit "English") []) = Returned res
         /\ ~ excludesHeader malformedReply (AnalysisResult.content res)).
Proof.
  split; eexists; (split; [vm_compute; reflexivity|]).
  - vm_compute. reflexivity.
  - intros H. specialize (H eq_refl). vm_compute in H. discriminate.
Qed.

(** C5 (amended): every result of [analyzeSymptoms] comes from a response
    of the model and copies what the parsed text states.  When the first
    line has the marker and both patterns match, the confidence is the
    stated pair, so that it agrees with the buckets exactly when the
    stated pair does, and the content leaves out the header line.
    Otherwise the confidence is 0 / Low, which agrees with the buckets,
    and the content is the whole parsed text. *)
Theorem confidence_is_what_the_header_states :
  forall (ai : remote) (symptoms : jsstring) (image : option ImageState)
         (vitals : option Vitals.t) (language : jsstring) (log : list Request)
         (res : AnalysisResult.t),
    outcomeOf (analyzeSymptoms ai symptoms image vitals language log)
    = Returned res ->
    exists r,
      ai log (analysisRequest symptoms image vitals language) = Returned r
      /\ (forall sc lb,
             headerOf (parsedText r) = Some (sc, lb) ->
             AnalysisResult.confidence res
             = Confidence.mk (parseInt sc (Some 10%N)) lb
             /\ bucketAgrees (AnalysisResult.confidence res)
                = bucketAgrees (Confidence.mk (parseInt sc (Some 10%N)) lb)
             /\ excludesHeader (parsedText r) (AnalysisResult.content res))
      /\ (headerOf (parsedText r) = None ->
          AnalysisResult.confidence res = defaultConfidence
          /\ bucketAgrees (AnalysisResult.confidence res) = true
          /\ AnalysisResult.content res = parsedText r).
Proof.
  intros ai symptoms image vitals language log res.
  unfold outcomeOf. rewrite analyzeSymptoms_run. cbn [fst].
  destruct (ai log (analysisRequest symptoms image vitals language)) as [r|e];
    [|discriminate].
  intros H. injection H as <-. exists r. split; [reflexivity|]. split.
  - intros sc lb ->. cbn. repeat split.
  - intros ->. cbn. repeat split.
Qed.

Lemma confidence_is_what_the_header_states_witness :
  exists r,
    answering (textResponse mislabelledReply) []
      (analysisRequest [] None None (lit "English")) = Returned r
    /\ parsedText r = mislabelledReply.
Proof.
  destruct (confidence_is_what_the_header_states
              (answering (textResponse mislabelledReply))
              [] None None (lit "English") []
              (AnalysisResult.mk (lit "Body")
                 (Confidence.mk (ofZ 10) (lit "High")) (lit "English") []))
    as (r & Hr & _).
  - vm_compute. reflexivity.
  - exists r. split; [exact Hr|]. injection Hr as <-. reflexivity.
Defined.

(** ** The vitals classifier *)

Lemma Qltb_lt (x y : Q) : Qltb x y = true <-> (x < y)%Q.
Proof.
  unfold Qltb. rewrite Qlt_alt. destruct (x ?= y)%Q; split; congruence.
Qed.

Lemma Qltb_ge (x y : Q) : Qltb x y = false <-> (y <= x)%Q.
Proof.
  rewrite <- not_true_iff_false, Qltb_lt. split.
  - apply Qnot_lt_le.
  - intros H H'. exact (Qle_not_lt _ _ H H').
Qed.

Ltac block_alert :=
  eexists; split; [reflexivity | intros []; vm_compute; reflexivity].

Lemma feverCheck_block : blockOf Temperature feverCheck.
Proof.
  intros v. unfold feverCheck, populated, push.
  destruct (truthy (Vitals.temp v)).
  - destruct (gt _ _); [|destruct (gt _ _); [|destruct (lt _ _)]];
      (split; [reflexivity | split; [discriminate | intros _; block_alert]]).
  - split; [intros; now rewrite app_nil_r | split; [reflexivity|discriminate]].
Qed.

Lemma heartRateCheck_block : blockOf HeartRate heartRateCheck.
Proof.
  intros v. unfold heartRateCheck, populated, push.
  destruct (truthy (Vitals.hr v)).
  - destruct (gt _ _); [|destruct (gt _ _); [|destruct (lt _ _)]];
      (split; [reflexivity | split; [discriminate | intros _; block_alert]]).
  - split; [intros; now rewrite app_nil_r | split; [reflexivity|discriminate]].
Qed.

Lemma bloodPressureCheck_block : blockOf BloodPressure bloodPressureCheck.
Proof.
  intros v. unfold bloodPressureCheck, populated, push.
  destruct (truthy (Vitals.bpSys v) && truthy (Vitals.bpDia v)).
  - destruct (_ || _); [|destruct (_ || _); [|destruct (_ || _)]];
      (split; [reflexivity | split; [discriminate | intros _; block_alert]]).
  - split; [intros; now rewrite app_nil_r | split; [reflexivity|discriminate]].
Qed.

Lemma spo2Check_block : blockOf OxygenSaturation spo2Check.
Proof.
  intros v. unfold spo2Check, populated, push.
  destruct (truthy (Vitals.spo2 v)).
  - destruct (lt _ _); [|destruct (lt _ _)];
      (split; [reflexivity | split; [discriminate | intros _; block_alert]]).
  - split; [intros; now rewrite app_nil_r | split; [reflexivity|discriminate]].
Qed.

Lemma localAnalysis_blocks (v : Vitals.t) :
  localAnalysis v
  = feverCheck v [] ++ heartRateCheck v [] ++ bloodPressureCheck v []
    ++ spo2Check v [].
Proof.
  unfold localAnalysis.
  rewrite (proj1 (spo2Check_block v)), (proj1 (bloodPressureCheck_block v)),
    (proj1 (heartRateCheck_block v)).
  now rewrite <- !app_assoc.
Qed.

Lemma block_filter (cat : Category) check (v : Vitals.t) (c : Category) :
  blockOf cat check ->
  filter (inCategory c) (check v [])
  = if Category_eqb c cat then check v [] else [].
Proof.
  intros B. destruct (B v) as (_ & Hn & Hp).
  destruct (populated v cat).
  - destruct (Hp eq_refl) as (a & -> & Ha). cbn [filter]. rewrite Ha.
    now destruct (Category_eqb c cat).
  - rewrite (Hn eq_refl). now destruct (Category_eqb c cat).
Qed.

Lemma block_categories (cat : Category) check (v : Vitals.t) :
  blockOf cat check ->
  map categoryOf (check v [])
  = if populated v cat then [Some cat] else [].
Proof.
  intros B. destruct (B v) as (_ & Hn & Hp).
  destruct (populated v cat).
  - destruct (Hp eq_refl) as (a & -> & Ha). cbn [map]. f_equal.
    unfold categoryOf, categories. cbn [find]. rewrite !Ha.
    now destruct cat.
  - now rewrite (Hn eq_refl).
Qed.

Lemma filter_category (v : Vitals.t) (c : Category) :
  filter (inCategory c) (localAnalysis v)
  = match c with
    | Temperature => feverCheck v []
    | HeartRate => heartRateCheck v []
    | BloodPressure => bloodPressureCheck v []
    | OxygenSaturation => spo2Check v []
    end.
Proof.
  rewrite localAnalysis_blocks, !filter_app.
  rewrite (block_filter Temperature feverCheck v c feverCheck_block),
    (block_filter HeartRate heartRateCheck v c heartRateCheck_block),
    (block_filter BloodPressure bloodPressureCheck v c bloodPressureCheck_block),
    (block_filter OxygenSaturation spo2Check v c spo2Check_block).
  destruct c; cbn [Category_eqb app]; now rewrite ?app_nil_r.
Qed.

Ltac severity_iff :=
  split; intros ?; first [reflexivity | discriminate | lra | (exfalso; lra)].

(** The literal 100.4 of the source is the binary64 value next to it. *)
Lemma number_100_4 : number (1004 # 10) = Fin (literal (1004 # 10)).
Proof. vm_compute. reflexivity. Qed.

(** C6: a populated temperature field that reads as the number [t] gives
    exactly one temperature alert; it is critical iff [t > 103] or
    [t < 95], a warning iff [100.4 < t <= 103], and normal otherwise.
    Here [t] is the binary64 value [parseFloat] reads in the field and
    100.4 is the binary64 value of that literal, so that a field of
    100.4, and one of 100.40000000000000001, which reads as the same
    number, is normal, and 103.0 is a warning; an infinite reading is
    critical.  A heart rate of 120 gives a warning, 121 a critical alert,
    50 a normal one and 49 a warning. *)
Theorem temperature_and_heart_rate_thresholds :
  (forall v t,
      truthy (Vitals.temp v) = true ->
      parseFloat (Vitals.temp v) = Fin t ->
      exists s,
        alertOf Temperature v s
        /\ (s = critical <-> (103 < t \/ t < 95)%Q)
        /\ (s = warning <-> (literal (1004 # 10) < t /\ t <= 103)%Q)
        /\ (s = normal <->
            ~ (103 < t \/ t < 95)%Q
            /\ ~ (literal (1004 # 10) < t /\ t <= 103)%Q))
  /\ (forall v negative,
         truthy (Vitals.temp v) = true ->
         parseFloat (Vitals.temp v) = Inf negative ->
         alertOf Temperature v critical)
  /\ literal (1004 # 10) = 3532510957718733 # 35184372088832
  /\ (forall v, Vitals.temp v = lit "100.4" -> alertOf Temperature v normal)
  /\ (forall v, Vitals.temp v = lit "100.40000000000000001" ->
                alertOf Temperature v normal)
  /\ (forall v, Vitals.temp v = lit "103.0" -> alertOf Temperature v warning)
  /\ (forall v, Vitals.hr v = lit "120" -> alertOf HeartRate v warning)
  /\ (forall v, Vitals.hr v = lit "121" -> alertOf HeartRate v critical)
  /\ (forall v, Vitals.hr v = lit "50" -> alertOf HeartRate v normal)
  /\ (forall v, Vitals.hr v = lit "49" -> alertOf HeartRate v warning).
Proof.
  split.
  { intros v t Hp Ht. unfold alertOf. rewrite filter_category.
    unfold feverCheck. rewrite Hp, Ht, number_100_4.
    assert (L : 95 < literal (1004 # 10) /\ literal (1004 # 10) < 103)
      by (split; reflexivity).
    set (l := literal (1004 # 10)) in *. clearbody l.
    unfold gt, lt, ofZ, push, inject_Z.
    destruct (Qltb (103 # 1) t) eqn:E1;
      [apply Qltb_lt in E1 | apply Qltb_ge in E1].
    - exists critical. split; [eexists; split; reflexivity|].
      split; [|split]; severity_iff.
    - destruct (Qltb l t) eqn:E2;
        [apply Qltb_lt in E2 | apply Qltb_ge in E2].
      + exists warning. split; [eexists; split; reflexivity|].
        split; [|split]; severity_iff.
      + destruct (Qltb t (95 # 1)) eqn:E3;
          [apply Qltb_lt in E3 | apply Qltb_ge in E3].
        * exists critical. split; [eexists; split; reflexivity|].
          split; [|split]; severity_iff.
        * exists normal. split; [eexists; split; reflexivity|].
          split; [|split]; severity_iff. }
  split.
  { intros v negative Hp Ht. unfold alertOf. rewrite filter_category.
    unfold feverCheck. rewrite Hp, Ht, number_100_4.
    destruct negative; eexists; split; reflexivity. }
  split; [vm_compute; reflexivity|].
  repeat split; intros v Hv; unfold alertOf; rewrite filter_category;
    unfold feverCheck, heartRateCheck; rewrite Hv;
    eexists; (split; [vm_compute; reflexivity | reflexivity]).
Qed.

Lemma temperature_and_heart_rate_thresholds_witness :
  alertOf Temperature (Vitals.mk (lit "104.2") [] [] [] []) critical
  /\ alertOf HeartRate (Vitals.mk [] (lit "120") [] [] []) warning.
Proof.
  destruct temperature_and_heart_rate_thresholds
    as (Ht & _ & _ & _ & _ & _ & Hh & _).
  split.
  - destruct (Ht (Vitals.mk (lit "104.2") [] [] [] []) (literal (1042 # 10))
                eq_refl eq_refl) as (s & Ha & Hc & _).
    assert (E : s = critical).
    { apply Hc. left. reflexivity. }
    rewrite <- E. exact Ha.
  - apply Hh. reflexivity.
Defined.

(** C7: the categories of the alerts are the populated categories, in the
    order temperature, heart rate, blood pressure, SpO2, each once; blood
    pressure counts as populated only with both of its fields, and with
    one of them missing there is no blood pressure alert. *)
Theorem one_alert_per_populated_category :
  forall v,
    map categoryOf (localAnalysis v)
    = map Some (filter (populated v) categories)
    /\ (forall c,
           List.length (filter (inCategory c) (localAnalysis v))
           = if populated v c then 1%nat else 0%nat)
    /\ (truthy (Vitals.bpSys v) = false \/ truthy (Vitals.bpDia v) = false ->
        filter (inCategory BloodPressure) (localAnalysis v) = []).
Proof.
  intros v. split; [|split].
  - rewrite localAnalysis_blocks, !map_app.
    rewrite (block_categories Temperature feverCheck v feverCheck_block),
      (block_categories HeartRate heartRateCheck v heartRateCheck_block),
      (block_categories BloodPressure bloodPressureCheck v
         bloodPressureCheck_block),
      (block_categories OxygenSaturation spo2Check v spo2Check_block).
    unfold categories. cbn [filter].
    destruct (populated v Temperature), (populated v HeartRate),
      (populated v BloodPressure), (populated v OxygenSaturation);
      reflexivity.
  - intros c. rewrite filter_category.
    destruct c.
    + destruct (feverCheck_block v) as (_ & Hn & Hp).
      destruct (populated v Temperature);
        [destruct (Hp eq_refl) as (a & -> & _) | rewrite (Hn eq_refl)];
        reflexivity.
    + destruct (heartRateCheck_block v) as (_ & Hn & Hp).
      destruct (populated v HeartRate);
        [destruct (Hp eq_refl) as (a & -> & _) | rewrite (Hn eq_refl)];
        reflexivity.
    + destruct (bloodPressureCheck_block v) as (_ & Hn & Hp).
      destruct (populated v BloodPressure);
        [destruct (Hp eq_refl) as (a & -> & _) | rewrite (Hn eq_refl)];
        reflexivity.
    + destruct (spo2Check_block v) as (_ & Hn & Hp).
      destruct (populated v OxygenSaturation);
        [destruct (Hp eq_refl) as (a & -> & _) | rewrite (Hn eq_refl)];
        reflexivity.
  - intros H. rewrite filter_category.
    apply (proj1 (proj2 (bloodPressureCheck_block v))).
    unfold populated. destruct H as [-> | ->]; [reflexivity|].
    apply andb_false_r.
Qed.

Lemma one_alert_per_populated_category_witness :
  filter (inCategory BloodPressure)
    (localAnalysis (Vitals.mk (lit "98.6") [] (lit "150") [] (lit "97"))) = [].
Proof.
  apply (proj2 (proj2 (one_alert_per_populated_category
                         (Vitals.mk (lit "98.6") [] (lit "150") [] (lit "97"))))).
  right. reflexivity.
Defined.

(** ** Submitting an analysis *)

(** What [handleAnalyze] leaves behind: nothing when nothing was entered;
    otherwise the trends of the history as it was, and then either the
    result with the new entry in front of the history, stored unless the
    write is refused, in which case what was thrown is the error; or the
    error of the analysis. *)
Lemma handleAnalyze_run (ai : remote) (numeral : Q -> jsstring)
    (uuid : jsstring) (now : Z) (refused : option exn) (st : AppState)
    (log : list Request) :
  handleAnalyze ai numeral uuid now refused st log
  = if somethingEntered st then
      let trends := calculateTrends numeral (vitals st) (history st) in
      match analyzeSymptoms ai (symptoms st) (selectedImage st)
              (Some (vitals st)) (selectedLanguage st) log with
      | (Returned data, log') =>
          let updatedHistory :=
            firstn 10 (entryFor uuid now st data :: history st) in
          (Returned tt,
           {| symptoms := symptoms st; isAnalyzing := false;
              result := Some data;
              error := match refused with
                       | Some e => Some (or_else (exn_message e)
                                           (lit "Something went wrong."))
                       | None => None
                       end;
              history := updatedHistory;
              selectedLanguage := selectedLanguage st;
              selectedImage := selectedImage st; vitals := vitals st;
              trendInsights := trends;
              storage := match refused with
                         | Some _ => storage st
                         | None => Some (JSON_stringify updatedHistory)
                         end |},
           log')
      | (Thrown e, log') =>
          (Returned tt,
           {| symptoms := symptoms st; isAnalyzing := false;
              result := None;
              error := Some (or_else (exn_message e)
                               (lit "Something went wrong."));
              history := history st;
              selectedLanguage := selectedLanguage st;
              selectedImage := selectedImage st; vitals := vitals st;
              trendInsights := trends; storage := storage st |},
           log')
      end
    else (Returned tt, st, log).
Proof.
  unfold handleAnalyze. rewrite <- !negb_orb. fold (somethingEntered st).
  destruct (somethingEntered st); cbn [negb]; [|reflexivity].
  unfold ui_bind, set, tryCatchFinally, await, setItem.
  destruct (analyzeSymptoms ai (symptoms st) (selectedImage st)
              (Some (vitals st)) (selectedLanguage st) log)
    as [[data|e] log']; [destruct refused|]; reflexivity.
Qed.

Lemma firstn_cons_length {A} (n : nat) (x : A) (l : list A) :
  firstn (S n) (x :: l) = x :: firstn n l.
Proof. reflexivity. Qed.

(** Every history a session reaches satisfies what the empty history
    satisfies and what putting an entry in front and keeping ten
    preserves. *)
Lemma session_invariant (P : list HistoryItem.t -> Prop) :
  P [] ->
  (forall uuid now st data,
      P (history st) ->
      P (firstn 10 (entryFor uuid now st data :: history st))) ->
  forall (ai : remote) (numeral : Q -> jsstring) (es : list Event),
    P (history (fst (session ai numeral es))).
Proof.
  intros P0 Pstep ai numeral es. unfold session.
  assert (G : forall w, P (history (fst w)) ->
                P (history (fst (fold_left (fun w e => step ai numeral e w)
                                   es w)))).
  { induction es as [|e es IH]; intros w Hw; [exact Hw|].
    cbn [fold_left]. apply IH. destruct w as [st log]. cbn [fst] in Hw.
    unfold step. destruct e as [s|]; [|exact P0].
    rewrite handleAnalyze_run.
    destruct (somethingEntered (fillForm s st)); [|exact Hw].
    cbv zeta.
    destruct (analyzeSymptoms ai (symptoms (fillForm s st))
                (selectedImage (fillForm s st))
                (Some (vitals (fillForm s st)))
                (selectedLanguage (fillForm s st)) log)
      as [[data|e] log']; cbn [fst history]; [|exact Hw].
    apply Pstep. exact Hw. }
  apply G. exact P0.
Qed.

Lemma Forall_firstn {A} (P : A -> Prop) (n : nat) (l : list A) :
  Forall P l -> Forall P (firstn n l).
Proof.
  intros H. revert n. induction H as [|x l Hx Hl IH]; intros [|n]; cbn;
    constructor; [exact Hx | apply IH].
Qed.

Lemma StronglySorted_firstn {A} (R : A -> A -> Prop) (n : nat) (l : list A) :
  StronglySorted R l -> StronglySorted R (firstn n l).
Proof.
  intros H. revert n. induction H as [|x l Hl IH Hx]; intros [|n]; cbn;
    constructor; [apply IH | now apply Forall_firstn].
Qed.

(** C8: a submission whose analysis succeeds puts the new entry in front
    of the history and keeps the first ten: the new entry first, the
    earlier ones after it in their order, at most ten in all; when the
    history held ten entries its last, oldest, entry is dropped and
    exactly ten remain; a history that was newest first by its timestamps
    stays so when the clock has not gone back.  This is so whether or not
    the browser accepts the write to localStorage: an accepted write
    stores the text made of the new history, a refused one leaves what
    was stored.  Any other submission leaves the history as it was.  In
    every session started from an empty history, the history never holds
    more than ten entries. *)
Theorem history_bounded_newest_first :
  (forall (ai : remote) (numeral : Q -> jsstring) (uuid : jsstring) (now : Z)
          (refused : option exn) (st : AppState) (log : list Request),
      let run := analyzeSymptoms ai (symptoms st) (selectedImage st)
                   (Some (vitals st)) (selectedLanguage st) log in
      let st' :=
        stateAfter (handleAnalyze ai numeral uuid now refused st log) in
      (forall data,
          somethingEntered st = true ->
          outcomeOf run = Returned data ->
          history st' = entryFor uuid now st data :: firstn 9 (history st)
          /\ (List.length (history st') <= 10)%nat
          /\ (List.length (history st) = 10%nat ->
              history st' = entryFor uuid now st data :: removelast (history st)
              /\ List.length (history st') = 10%nat)
          /\ (newestFirst (history st) ->
              Forall (fun h => (HistoryItem.timestamp h <= now)%Z) (history st) ->
              newestFirst (history st'))
          /\ (refused = None ->
              storage st' = Some (JSON_stringify (history st')))
          /\ (refused <> None -> storage st' = storage st))
      /\ (somethingEntered st = false \/ fails (outcomeOf run) ->
          history st' = history st))
  /\ (forall (ai : remote) (numeral : Q -> jsstring) (es : list Event),
         (List.length (history (fst (session ai numeral es))) <= 10)%nat).
Proof.
  split.
  - intros ai numeral uuid now refused st log run st'.
    unfold st', run, stateAfter, outcomeOf. rewrite handleAnalyze_run.
    destruct (analyzeSymptoms ai (symptoms st) (selectedImage st)
                (Some (vitals st)) (selectedLanguage st) log)
      as [[d|e] log']; cbn [fst snd]; split.
    + intros data -> H. injection H as <-. cbv zeta.
      cbn [fst snd history storage]. rewrite firstn_cons_length.
      split; [reflexivity|]. split; [|split; [|split; [|split]]].
      * cbn [List.length]. apply le_n_S, firstn_le_length.
      * intros H. split.
        -- f_equal. rewrite removelast_firstn_len. now rewrite H.
        -- cbn [List.length]. rewrite length_firstn. now rewrite H.
      * intros Hs Hn. constructor.
        -- now apply StronglySorted_firstn.
        -- now apply Forall_firstn.
      * intros ->. reflexivity.
      * intros H. destruct refused; [reflexivity | contradiction].
    + intros [-> | [e He]]; [reflexivity | discriminate].
    + intros data _ H. discriminate.
    + intros _. destruct (somethingEntered st); reflexivity.
  - apply (session_invariant (fun h => (List.length h <= 10)%nat)).
    + apply Nat.le_0_l.
    + intros uuid now st data _. apply firstn_le_length.
Qed.

(** The eleventh entry: over a history of ten, the new entry comes first,
    the oldest one is gone and ten remain, also when the write is
    refused. *)
Lemma history_bounded_newest_first_witness :
  history (stateAfter
             (handleAnalyze (answering (textResponse exampleReply)) noNumeral
                (lit "id-11") 1700000000000%Z (Some quotaExceeded)
                eleventhVisit []))
  = entryFor (lit "id-11") 1700000000000%Z eleventhVisit exampleAnalysis
    :: removelast fullHistory
  /\ List.length
       (history (stateAfter
                   (handleAnalyze (answering (textResponse exampleReply))
                      noNumeral (lit "id-11") 1700000000000%Z
                      (Some quotaExceeded) eleventhVisit [])))
     = 10%nat
  /\ ~ In (entryAt 1690000000001) (removelast fullHistory).
Proof.
  destruct (proj1 history_bounded_newest_first
              (answering (textResponse exampleReply)) noNumeral
              (lit "id-11") 1700000000000%Z (Some quotaExceeded)
              eleventhVisit []) as [H _].
  destruct (H exampleAnalysis eq_refl) as (_ & _ & E & _).
  - vm_compute. reflexivity.
  - destruct (E eq_refl) as [E1 E2]. split; [exact E1|]. split; [exact E2|].
    vm_compute. intros K. repeat (destruct K as [K|K]; [discriminate K|]).
    exact K.
Defined.

(** C9: a submission that goes through sets the trend insights to what
    [calculateTrends] gives on the vitals of the form and on the history
    as it was before the submission, whether the analysis then succeeds or
    not, and whatever entry is created: the entry, when one is created,
    only enters the history of the next state. *)
Theorem trends_read_prior_history :
  forall (ai : remote) (numeral : Q -> jsstring) (uuid : jsstring) (now : Z)
         (refused : option exn) (st : AppState) (log : list Request),
    somethingEntered st = true ->
    let st' :=
      stateAfter (handleAnalyze ai numeral uuid now refused st log) in
    trendInsights st' = calculateTrends numeral (vitals st) (history st)
    /\ (forall data,
           outcomeOf (analyzeSymptoms ai (symptoms st) (selectedImage st)
                        (Some (vitals st)) (selectedLanguage st) log)
           = Returned data ->
           history st'
           = firstn 10 (entryFor uuid now st data :: history st)).
Proof.
  intros ai numeral uuid now refused st log Hg st'.
  unfold st', stateAfter, outcomeOf.
  rewrite handleAnalyze_run, Hg. cbv zeta.
  destruct (analyzeSymptoms ai (symptoms st) (selectedImage st)
              (Some (vitals st)) (selectedLanguage st) log)
    as [[data|e] log']; cbn [fst snd trendInsights history].
  - split; [reflexivity|]. intros d H. injection H as <-. reflexivity.
  - split; [reflexivity|]. intros d H. discriminate.
Qed.

(** With one earlier heart rate of 70 and a current one of 85 the stored
    insight is that of the earlier history; the history that holds the new
    entry would give none. *)
Lemma trends_read_prior_history_witness :
  trendInsights afterReturningVisit
  = calculateTrends noNumeral (vitalsWithHr "85") [pastEntry "70"]
  /\ trendInsights afterReturningVisit <> []
  /\ calculateTrends noNumeral (vitalsWithHr "85")
       (history afterReturningVisit) = [].
Proof.
  split; [|split].
  - exact (proj1 (trends_read_prior_history
                    (answering (textResponse exampleReply)) noNumeral
                    (lit "id-2") 1700000000000%Z None returningVisit []
                    eq_refl)).
  - vm_compute. discriminate.
  - vm_compute. reflexivity.
Defined.

(** ** Entries created by the application *)

Lemma forallb_firstn {A} (f : A -> bool) (n : nat) (l : list A) :
  forallb f l = true -> forallb f (firstn n l) = true.
Proof.
  revert l. induction n as [|n IH]; intros [|x l]; cbn; try reflexivity.
  intros H. apply andb_true_iff in H. destruct H as [-> H]. now apply IH.
Qed.

Lemma session_keeps_snapshots (ai : remote) (numeral : Q -> jsstring)
    (es : list Event) :
  forallb hasVitals (history (fst (session ai numeral es))) = true.
Proof.
  apply (session_invariant (fun h => forallb hasVitals h = true)).
  - reflexivity.
  - intros uuid now st data H. apply forallb_firstn.
    cbn [forallb]. now rewrite H.
Qed.

(** C10: the entry a successful submission puts in front of the history
    carries the vitals of the form as its snapshot, also when every field
    of it is empty; hence, in every session started from an empty history,
    the filter on snapshots keeps the whole history, and the window of the
    trend analyzer is the first five entries of the history. *)
Theorem created_entries_carry_vitals :
  (forall (ai : remote) (numeral : Q -> jsstring) (uuid : jsstring) (now : Z)
          (refused : option exn) (st : AppState) (log : list Request)
          (data : AnalysisResult.t),
      somethingEntered st = true ->
      outcomeOf (analyzeSymptoms ai (symptoms st) (selectedImage st)
                   (Some (vitals st)) (selectedLanguage st) log)
      = Returned data ->
      exists item rest,
        history (stateAfter
                   (handleAnalyze ai numeral uuid now refused st log))
        = item :: rest
        /\ HistoryItem.id item = uuid
        /\ HistoryItem.vitals item = Some (vitals st)
        /\ hasVitals item = true)
  /\ (forall (ai : remote) (numeral : Q -> jsstring) (es : list Event),
         let h := history (fst (session ai numeral es)) in
         filter hasVitals h = h /\ recentWindow h = firstn 5 h).
Proof.
  split.
  - intros ai numeral uuid now refused st log data Hg Hd.
    unfold stateAfter, outcomeOf in *. rewrite handleAnalyze_run, Hg.
    cbv zeta.
    destruct (analyzeSymptoms ai (symptoms st) (selectedImage st)
                (Some (vitals st)) (selectedLanguage st) log)
      as [[d|e] log']; cbn [fst] in Hd; [|discriminate].
    injection Hd as ->. cbn [fst snd history].
    rewrite firstn_cons_length. eexists. eexists.
    split; [reflexivity|]. repeat split.
  - intros ai numeral es h.
    assert (E : filter hasVitals h = h).
    { apply forallb_filter_id, session_keeps_snapshots. }
    split; [exact E|]. unfold recentWindow. now rewrite E.
Qed.

Lemma created_entries_carry_vitals_witness :
  exists item rest,
    history (stateAfter
               (handleAnalyze (answering (textResponse exampleReply)) noNumeral
                  (lit "id-3") 1700000000000%Z None
                  (fillForm
                     {| typed := lit "headache"; photo := None;
                        readings := Vitals.mk [] [] [] [] [];
                        chosenLanguage := lit "English";
                        uuid := lit "id-3"; now := 1700000000000%Z;
                        refused := None |}
                     initialState) []))
    = item :: rest
    /\ HistoryItem.vitals item = Some (Vitals.mk [] [] [] [] []).
Proof.
  destruct (proj1 created_entries_carry_vitals
              (answering (textResponse exampleReply)) noNumeral
              (lit "id-3") 1700000000000%Z None
              (fillForm
                 {| typed := lit "headache"; photo := None;
                    readings := Vitals.mk [] [] [] [] [];
                    chosenLanguage := lit "English";
                    uuid := lit "id-3"; now := 1700000000000%Z;
                    refused := None |}
                 initialState) []
              (AnalysisResult.mk (lit "Body text")
                 (Confidence.mk (ofZ 72) (lit "Medium")) (lit "English") []))
    as (item & rest & H & _ & Hv & _).
  - reflexivity.
  - vm_compute. reflexivity.
  - exists item, rest. split; [exact H | exact Hv].
Defined.

(** ** Binary64 rounding *)

Lemma roundHalfEven_nonneg (n : Z) (d : positive) :
  (0 <= n)%Z -> (0 <= roundHalfEven n d)%Z.
Proof.
  intros H. unfold roundHalfEven.
  assert (F : (0 <= n / Z.pos d)%Z) by (apply Z.div_pos; lia).
  destruct (2 * (n mod Z.pos d) ?= Z.pos d)%Z; [destruct (Z.even _)| |]; lia.
Qed.

Lemma pow2_pos (e : Z) : 0 < pow2 e.
Proof. apply Qpower_0_lt. reflexivity. Qed.









(** The nearest integer is within a half. *)
Lemma roundHalfEven_close (n : Z) (d : positive) :
  Qabs (inject_Z (roundHalfEven n d) - (n # d)) <= 1 # 2.
Proof.
  unfold roundHalfEven.
  pose proof (Z.div_mod n (Zpos d) ltac:(discriminate)) as E.
  pose proof (Z.mod_pos_bound n (Zpos d) ltac:(reflexivity)) as B.
  set (f := (n / Zpos d)%Z) in *. set (r := (n mod Zpos d)%Z) in *.
  clearbody f r.
  assert (V : (n # d) == inject_Z f + (r # d)).
  { unfold Qeq, Qplus, inject_Z. cbn [Qnum Qden]. rewrite E. 
    rewrite Pos.mul_1_l. ring. }
  assert (R0 : 0 <= r # d) by (unfold Qle; cbn; lia).
  destruct (2 * r ?= Zpos d)%Z eqn:C.
  - apply Z.compare_eq in C.
    assert (H : (r # d) == 1 # 2) by (unfold Qeq; cbn; lia).
    destruct (Z.even f); rewrite V, H.
    + setoid_replace (inject_Z f - (inject_Z f + (1 # 2))) with (- (1 # 2)) by ring.
      discriminate.
    + rewrite inject_Z_plus.
      setoid_replace (inject_Z f + inject_Z 1 - (inject_Z f + (1 # 2))) with (1 # 2) by ring.
      discriminate.
  - rewrite Z.compare_lt_iff in C.
    assert (H : (r # d) <= 1 # 2) by (unfold Qle; cbn; lia).
    rewrite V. apply Qabs_Qle_condition. split; lra.
  - rewrite Z.compare_gt_iff in C.
    assert (H : 1 # 2 <= (r # d)) by (unfold Qle; cbn; lia).
    assert (H1 : (r # d) <= 1) by (unfold Qle; cbn; lia).
    rewrite V, inject_Z_plus. apply Qabs_Qle_condition.
    change (inject_Z 1) with 1. split; lra.
Qed.

Lemma pow2_sub (a b : Z) :
  (0 <= a)%Z -> (0 <= b)%Z -> pow2 (a - b) == inject_Z (2 ^ a) / inject_Z (2 ^ b).
Proof.
  intros Ha Hb. unfold pow2. rewrite Qpower_minus by discriminate.
  now rewrite !Zpower_Qpower.
Qed.

Lemma Qlt_div_iff (a b c d : Z) :
  (0 < b)%Z -> (0 < d)%Z ->
  (inject_Z a / inject_Z b < inject_Z c / inject_Z d <-> (a * d < c * b)%Z).
Proof.
  intros Hb Hd.
  assert (Qb : 0 < inject_Z b) by (rewrite <- (Zlt_Qlt 0); exact Hb).
  assert (Qd : 0 < inject_Z d) by (rewrite <- (Zlt_Qlt 0); exact Hd).
  rewrite Zlt_Qlt, !inject_Z_mult. split; intros H.
  - apply (Qmult_lt_r _ _ (inject_Z b * inject_Z d)) in H; [|nra].
    setoid_replace (inject_Z a / inject_Z b * (inject_Z b * inject_Z d))
      with (inject_Z a * inject_Z d) in H by (field; lra).
    setoid_replace (inject_Z c / inject_Z d * (inject_Z b * inject_Z d))
      with (inject_Z c * inject_Z b) in H by (field; lra).
    exact H.
  - apply (Qmult_lt_r _ _ (inject_Z b * inject_Z d)); [nra|].
    setoid_replace (inject_Z a / inject_Z b * (inject_Z b * inject_Z d))
      with (inject_Z a * inject_Z d) by (field; lra).
    setoid_replace (inject_Z c / inject_Z d * (inject_Z b * inject_Z d))
      with (inject_Z c * inject_Z b) by (field; lra).
    exact H.
Qed.

Lemma Qmake_div (n : Z) (d : positive) : n # d == inject_Z n / inject_Z (Zpos d).
Proof. rewrite Qmake_Qdiv. reflexivity. Qed.

(** The binade of a positive rational. *)
Lemma binade_spec (n d : positive) :
  pow2 (binade n d) <= Zpos n # d /\ Zpos n # d < pow2 (binade n d + 1).
Proof.
  pose proof (Z.log2_spec (Zpos n) ltac:(reflexivity)) as [Ln Un].
  pose proof (Z.log2_spec (Zpos d) ltac:(reflexivity)) as [Ld Ud].
  pose proof (Z.log2_nonneg (Zpos n)) as Nn.
  pose proof (Z.log2_nonneg (Zpos d)) as Nd.
  set (ln := Z.log2 (Zpos n)) in *. set (ld := Z.log2 (Zpos d)) in *.
  assert (Pn : (0 < 2 ^ ln)%Z) by (apply Z.pow_pos_nonneg; lia).
  assert (Pd : (0 < 2 ^ ld)%Z) by (apply Z.pow_pos_nonneg; lia).
  assert (Pn1 : (0 < 2 ^ Z.succ ln)%Z) by (apply Z.pow_pos_nonneg; lia).
  assert (Pd1 : (0 < 2 ^ Z.succ ld)%Z) by (apply Z.pow_pos_nonneg; lia).
  assert (Up : Zpos n # d < pow2 (ln - ld + 1)).
  { replace (ln - ld + 1)%Z with (Z.succ ln - ld)%Z by lia.
    rewrite pow2_sub by lia. rewrite Qmake_div.
    apply Qlt_div_iff; [reflexivity | exact Pd|]. nia. }
  assert (Lo : pow2 (ln - ld - 1) < Zpos n # d).
  { replace (ln - ld - 1)%Z with (ln - Z.succ ld)%Z by lia.
    rewrite pow2_sub by lia. rewrite Qmake_div.
    apply Qlt_div_iff; [exact Pd1 | reflexivity|]. nia. }
  unfold binade. fold ln ld.
  destruct (Qle_bool (pow2 (ln - ld)) (Zpos n # d)) eqn:T.
  - apply Qle_bool_iff in T. split; [exact T | exact Up].
  - split; [apply Qlt_le_weak, Lo|].
    replace (ln - ld - 1 + 1)%Z with (ln - ld)%Z by lia.
    apply Qnot_le_lt. intros H. apply Qle_bool_iff in H. congruence.
Qed.

Lemma pow2_le (a b : Z) : (a <= b)%Z -> pow2 a <= pow2 b.
Proof. intros H. apply Qpower_le_compat_l; [exact H | discriminate]. Qed.

Lemma pow2_plus (a b : Z) : pow2 (a + b) == pow2 a * pow2 b.
Proof. unfold pow2. apply Qpower_plus. discriminate. Qed.

(** What [nearest] gives: a multiple [M * 2^k] of the spacing [2^k] of
    binary64 at [n / d], with [M] of at most 53 bits, within half that
    spacing. *)
Lemma nearest_spec (n d : positive) :
  let k := (Z.max (binade n d) (-1022) - 52)%Z in
  exists M : Z,
    nearest n d == inject_Z M * pow2 k
    /\ (0 <= M <= 2 ^ 53)%Z
    /\ Qabs (nearest n d - (Zpos n # d)) <= pow2 k * (1 # 2).
Proof.
  intros k. unfold nearest. fold k.
  pose proof (pow2_pos k) as U.
  destruct (binade_spec n d) as [_ Hi].
  assert (W : pow2 (binade n d + 1) <= pow2 53 * pow2 k).
  { rewrite <- pow2_plus. apply pow2_le. lia. }
  set (u := pow2 k) in *. set (q := Zpos n # d) in *.
  assert (Q0 : 0 < q) by reflexivity.
  set (s := q / u).
  assert (S0 : 0 <= s).
  { apply Qle_shift_div_l; [exact U|]. rewrite Qmult_0_l.
    now apply Qlt_le_weak. }
  assert (S1 : s < pow2 53).
  { apply Qlt_shift_div_r; [exact U|]. lra. }
  assert (Es : s * u == q).
  { unfold s. field. intros E. rewrite E in U. discriminate U. }
  clearbody s u q.
  pose proof (roundHalfEven_close (Qnum s) (Qden s)) as C.
  assert (N : (0 <= Qnum s)%Z) by (unfold Qle in S0; cbn in S0; lia).
  pose proof (roundHalfEven_nonneg (Qnum s) (Qden s) N) as R0.
  set (M := roundHalfEven (Qnum s) (Qden s)) in *. clearbody M.
  replace (Qnum s # Qden s) with s in C by now destruct s.
  apply Qabs_Qle_condition in C. destruct C as [C1 C2].
  exists M. split; [reflexivity|]. split.
  - split; [exact R0|].
    assert (B : inject_Z M < inject_Z (2 ^ 53) + 1).
    { change (inject_Z (2 ^ 53)) with (pow2 53). lra. }
    change 1 with (inject_Z 1) in B. rewrite <- inject_Z_plus in B.
    rewrite <- Zlt_Qlt in B. lia.
  - rewrite <- Es.
    apply Qabs_Qle_condition. split; nra.
Qed.

(** A finite Number value is a binary64 value within half the spacing
    of binary64 at the real it rounds. *)
Lemma number_close (q r : Q) :
  number q = Fin r ->
  exists (M k : Z),
    r == inject_Z M * pow2 k
    /\ (Z.abs M <= 2 ^ 53)%Z
    /\ (-1074 <= k)%Z
    /\ Qabs (r - q) <= pow2 k * (1 # 2)
    /\ ((k = -1074)%Z \/ pow2 (k + 52) <= Qabs q).
Proof.
  unfold number. destruct q as [[|n|n] d]; cbn [Qnum Qden].
  - intros H. injection H as <-. exists 0%Z, (-1074)%Z.
    split; [ring|]. split; [discriminate|]. split; [discriminate|].
    split; [|now left]. pose proof (pow2_pos (-1074)).
    setoid_replace (0 - (0 # d)) with 0 by reflexivity. cbn [Qabs Z.abs].
    change (0 # 1) with 0. nra.
  - destruct (nearest_spec n d) as (M & E & B & C).
    destruct (binade_spec n d) as [Lo _].
    set (k := (Z.max (binade n d) (-1022) - 52)%Z) in *.
    pose proof (Qred_correct (nearest n d)) as Rc.
    set (rv := Qred (nearest n d)) in *. clearbody rv.
    destruct (Qle_bool _ _); [discriminate|]. intros H. injection H as <-.
    exists M, k.
    split; [now rewrite Rc|]. split; [lia|]. split; [lia|].
    split; [now rewrite Rc|].
    destruct (Z.le_gt_cases (binade n d) (-1022)) as [H | H].
    + left. lia.
    + right. replace (k + 52)%Z with (binade n d) by lia.
      rewrite Qabs_pos by discriminate. exact Lo.
  - destruct (nearest_spec n d) as (M & E & B & C).
    destruct (binade_spec n d) as [Lo _].
    set (k := (Z.max (binade n d) (-1022) - 52)%Z) in *.
    pose proof (Qred_correct (- nearest n d)) as Rc.
    set (rv := Qred (- nearest n d)) in *. clearbody rv.
    destruct (Qle_bool _ _); [discriminate|]. intros H. injection H as <-.
    exists (- M)%Z, k.
    split; [rewrite Rc, E, inject_Z_opp; ring|].
    split; [lia|]. split; [lia|].
    split.
    + rewrite Rc.
      setoid_replace (- nearest n d - (Zneg n # d))
        with (- (nearest n d - (Zpos n # d))).
      * now rewrite Qabs_opp.
      * change (Zneg n # d) with (- (Zpos n # d)). ring.
    + destruct (Z.le_gt_cases (binade n d) (-1022)) as [H | H].
      * left. lia.
      * right. replace (k + 52)%Z with (binade n d) by lia.
        change (Zneg n # d) with (- (Zpos n # d)).
        rewrite Qabs_opp, Qabs_pos by discriminate. exact Lo.
Qed.

(** A real that rounds to an infinity is at least [2^1024 - 2^970] in
    magnitude. *)
Lemma number_overflow (q : Q) (negative : bool) :
  number q = Inf negative -> pow2 1024 - pow2 970 <= Qabs q.
Proof.
  assert (G : forall n d,
             pow2 1024 <= nearest n d ->
             pow2 1024 - pow2 970 <= Zpos n # d).
  { intros n d V.
    destruct (nearest_spec n d) as (M & E & B & C).
    destruct (binade_spec n d) as [Lo _].
    set (k := (Z.max (binade n d) (-1022) - 52)%Z) in *.
    apply Qabs_Qle_condition in C. destruct C as [C1 C2].
    assert (P970 : 0 < pow2 970) by apply pow2_pos.
    destruct (Z.le_gt_cases k 971) as [H | H].
    - assert (U : pow2 k * (1 # 2) <= pow2 970).
      { pose proof (pow2_le k 971 H) as L.
        setoid_replace (pow2 971) with (pow2 970 * 2) in L by reflexivity.
        lra. }
      lra.
    - assert (L : pow2 1024 <= pow2 (binade n d)) by (apply pow2_le; lia).
      lra. }
  unfold number. destruct q as [[|n|n] d]; cbn [Qnum Qden].
  - discriminate.
  - destruct (Qle_bool (pow2 1024) (nearest n d)) eqn:T; [|discriminate].
    intros _. apply Qle_bool_iff in T. rewrite Qabs_pos by discriminate.
    now apply G.
  - destruct (Qle_bool (pow2 1024) (nearest n d)) eqn:T; [|discriminate].
    intros _. apply Qle_bool_iff in T.
    change (Zneg n # d) with (- (Zpos n # d)).
    rewrite Qabs_opp, Qabs_pos by discriminate. now apply G.
Qed.

(** Values of the rounding: 0.1 and 1/3; a tie goes to the even
    neighbour, down at 2^53 + 1 and up at 2^53 + 3; the largest finite
    number and the first real that overflows; the smallest number, half of
    which is rounded to zero. *)
Lemma number_values :
  number (1 # 10) = Fin (3602879701896397 # 36028797018963968)
  /\ number (1 # 3) = Fin (6004799503160661 # 18014398509481984)
  /\ number (inject_Z (2 ^ 53 + 1)) = ofZ (2 ^ 53)
  /\ number (inject_Z (2 ^ 53 + 3)) = ofZ (2 ^ 53 + 4)
  /\ number (inject_Z (2 ^ 1024 - 2 ^ 970 - 1)) = ofZ (2 ^ 1024 - 2 ^ 971)
  /\ number (inject_Z (2 ^ 1024 - 2 ^ 970)) = Inf false
  /\ number (- inject_Z (2 ^ 1024 - 2 ^ 970)) = Inf true
  /\ number (1 # Z.to_pos (2 ^ 1074)) = Fin (1 # Z.to_pos (2 ^ 1074))
  /\ number (1 # Z.to_pos (2 ^ 1075)) = Fin 0
  /\ number (3 # Z.to_pos (2 ^ 1075)) = Fin (1 # Z.to_pos (2 ^ 1073)).
Proof. repeat split; vm_compute; reflexivity. Qed.











(** ** The trend analyzer *)













(* ================================================================== *)
(** * Further properties *)

(** ** Strings *)

Lemma stripPrefix_self_app (p b : jsstring) : stripPrefix p (p ++ b) = Some b.
Proof.
  induction p as [|c p IH]; [reflexivity|].
  cbn [app stripPrefix]. now rewrite N.eqb_refl.
Qed.

Lemma includes_here (s p : jsstring) : startsWith s p = true -> includes s p = true.
Proof. intros H. destruct s; cbn [includes]; now rewrite H. Qed.

Lemma includes_app_r (x y p : jsstring) :
  includes y p = true -> includes (x ++ y) p = true.
Proof.
  intros H. induction x as [|c x IH]; [exact H|].
  cbn [app includes]. rewrite IH. apply orb_true_r.
Qed.

Lemma includes_prefix (p b : jsstring) : includes (p ++ b) p = true.
Proof.
  apply includes_here. unfold startsWith. now rewrite stripPrefix_self_app.
Qed.

(** [trim] leaves nothing exactly of the strings made of white space. *)
Lemma dropWhile_nil_iff (f : N -> bool) (s : jsstring) :
  dropWhile f s = [] <-> forallb f s = true.
Proof.
  induction s as [|c s IH]; cbn; [tauto|].
  destruct (f c); cbn; [exact IH|]. split; discriminate.
Qed.

Lemma dropWhile_head (f : N -> bool) (s : jsstring) (c : N) (t : jsstring) :
  dropWhile f s = c :: t -> f c = false.
Proof.
  induction s as [|a s IH]; cbn; [discriminate|].
  destruct (f a) eqn:E; [exact IH|]. intros H. injection H as <- _. exact E.
Qed.

Lemma forallb_rev (f : N -> bool) (s : jsstring) :
  forallb f (rev s) = forallb f s.
Proof.
  induction s as [|c s IH]; [reflexivity|].
  cbn [rev forallb]. rewrite forallb_app, IH. cbn. rewrite andb_true_r.
  apply andb_comm.
Qed.

Lemma trimEnd_nil_iff (s : jsstring) :
  trimEnd s = [] <-> forallb isWhiteSpace s = true.
Proof.
  unfold trimEnd. rewrite <- (forallb_rev isWhiteSpace s).
  rewrite <- dropWhile_nil_iff. split.
  - intros H. apply (f_equal (@rev N)) in H. now rewrite rev_involutive in H.
  - now intros ->.
Qed.

Lemma dropWhile_suffix_all (f : N -> bool) (s : jsstring) :
  forallb f s = true -> forallb f (dropWhile f s) = true.
Proof. intros H. apply dropWhile_nil_iff in H. now rewrite H. Qed.

Lemma forallb_dropWhile (f g : N -> bool) (s : jsstring) :
  forallb g s = true -> forallb g (dropWhile f s) = true.
Proof.
  induction s as [|c s IH]; cbn; [reflexivity|].
  intros H. apply andb_true_iff in H. destruct H as [Hc Hs].
  destruct (f c); [now apply IH|]. cbn. now rewrite Hc, Hs.
Qed.

Lemma trim_nil_iff (s : jsstring) :
  trim s = [] <-> forallb isWhiteSpace s = true.
Proof.
  unfold trim. rewrite trimEnd_nil_iff. unfold trimStart. split.
  - intros H. destruct (dropWhile isWhiteSpace s) as [|c t] eqn:E.
    + now apply dropWhile_nil_iff.
    + apply dropWhile_head in E. cbn in H. now rewrite E in H.
  - apply forallb_dropWhile.
Qed.

(** The last code unit of a trimmed string is not white space. *)
Lemma trimEnd_last (s u : jsstring) (c : N) :
  trimEnd s = u ++ [c] -> isWhiteSpace c = false.
Proof.
  unfold trimEnd. intros H. apply (f_equal (@rev N)) in H.
  rewrite rev_involutive, rev_app_distr in H. cbn in H.
  now apply dropWhile_head in H.
Qed.

Lemma trim_last (s u : jsstring) (c : N) :
  trim s = u ++ [c] -> isWhiteSpace c = false.
Proof. apply trimEnd_last. Qed.





(** ** Citations *)

Lemma present_some (o : option jsstring) (s : jsstring) :
  present o = Some s -> o = Some s /\ s <> [].
Proof.
  unfold present. destruct o as [x|]; [|discriminate].
  destruct x as [|c x]; cbn; [discriminate|].
  intros H. injection H as <-. split; [reflexivity | discriminate].
Qed.

Lemma fold_push_flat_map {A B} (f : A -> list B) (l : list A) (acc : list B) :
  fold_left (fun acc x => acc ++ f x) l acc = acc ++ flat_map f l.
Proof.
  revert acc. induction l as [|x l IH]; intros acc; cbn.
  - now rewrite app_nil_r.
  - now rewrite IH, app_assoc.
Qed.

Lemma fold_left_pointwise {A B} (f g : B -> A -> B) (l : list A) (acc : B) :
  (forall a x, f a x = g a x) -> fold_left f l acc = fold_left g l acc.
Proof.
  intros H. revert acc. induction l as [|x l IH]; intros acc; cbn;
    [reflexivity|]. now rewrite H, IH.
Qed.

Lemma groundingSources_flat (r : Response) :
  groundingSources r
  = match groundingChunks r with
    | Some chunks => flat_map webSourceOf chunks
    | None => []
    end.
Proof.
  unfold groundingSources. destruct (groundingChunks r) as [chunks|];
    [|reflexivity].
  rewrite <- (app_nil_l (flat_map webSourceOf chunks)).
  rewrite <- fold_push_flat_map. apply fold_left_pointwise.
  intros sources chunk.
  unfold webSourceOf, completeWeb. destruct (web chunk) as [w|];
    [|now rewrite app_nil_r].
  destruct (present (web_uri w)), (present (web_title w));
    now rewrite ?app_nil_r.
Qed.

Lemma citations_flat (r : Response) (d : jsstring) :
  citations r d
  = match groundingChunks r with
    | Some chunks => flat_map mapSourceOf chunks
    | None => []
    end.
Proof.
  unfold citations, processResponse. cbn [DoctorSearchResult.mapSources].
  destruct (groundingChunks r) as [chunks|]; [|reflexivity].
  rewrite <- (app_nil_l (flat_map mapSourceOf chunks)).
  rewrite <- fold_push_flat_map. apply fold_left_pointwise.
  intros sources chunk.
  unfold mapSourceOf, completeMaps, completeWeb.
  destruct (maps chunk) as [m|].
  - destruct (present (maps_uri m)), (present (maps_title m));
      try reflexivity;
      (destruct (web chunk) as [w|]; [|now rewrite app_nil_r];
       destruct (present (web_uri w)), (present (web_title w));
       now rewrite ?app_nil_r).
  - destruct (web chunk) as [w|]; [|now rewrite app_nil_r].
    destruct (present (web_uri w)), (present (web_title w));
      now rewrite ?app_nil_r.
Qed.

Lemma completeWeb_some (chunk : GroundingChunk) (t u : jsstring) :
  completeWeb chunk = Some (t, u) -> t <> [] /\ u <> [].
Proof.
  unfold completeWeb. destruct (web chunk) as [w|]; [|discriminate].
  destruct (present (web_uri w)) as [u'|] eqn:Eu; [|discriminate].
  destruct (present (web_title w)) as [t'|] eqn:Et; [|discriminate].
  intros H. injection H as <- <-.
  split; [exact (proj2 (present_some _ _ Et)) | exact (proj2 (present_some _ _ Eu))].
Qed.

Lemma completeMaps_some (chunk : GroundingChunk) (t u : jsstring)
    (a : option jsstring) :
  completeMaps chunk = Some (t, u, a) -> t <> [] /\ u <> [].
Proof.
  unfold completeMaps. destruct (maps chunk) as [m|]; [|discriminate].
  destruct (present (maps_uri m)) as [u'|] eqn:Eu; [|discriminate].
  destruct (present (maps_title m)) as [t'|] eqn:Et; [|discriminate].
  intros H. injection H as <- <- _.
  split; [exact (proj2 (present_some _ _ Et)) | exact (proj2 (present_some _ _ Eu))].
Qed.

(** X1: the sources of an analysis are the web parts of the grounding
    chunks that have both a title and a uri, in the order of the chunks:
    a chunk in the middle of the list contributes its own source, or
    nothing, between those of the chunks before and after it.  A response
    without grounding chunks has no sources, and no source has an empty
    title or uri. *)
Theorem sources_are_the_complete_web_chunks :
  forall (r : Response),
    (groundingChunks r = None -> groundingSources r = [])
    /\ (forall t before chunk after,
           groundingSources (groundedResponse t (before ++ chunk :: after))
           = groundingSources (groundedResponse t before)
             ++ match completeWeb chunk with
                | Some (ti, u) => [GroundingSource.mk ti u]
                | None => []
                end
             ++ groundingSources (groundedResponse t after))
    /\ Forall (fun s => GroundingSource.title s <> []
                        /\ GroundingSource.uri s <> [])
         (groundingSources r)
    /\ (forall chunks,
           groundingChunks r = Some chunks ->
           (List.length (groundingSources r) <= List.length chunks)%nat).
Proof.
  intros r. split; [|split; [|split]].
  - intros H. rewrite groundingSources_flat. now rewrite H.
  - intros t before chunk after. rewrite !groundingSources_flat.
    cbn [groundingChunks groundedResponse].
    rewrite flat_map_app. reflexivity.
  - rewrite groundingSources_flat.
    destruct (groundingChunks r) as [chunks|]; [|constructor].
    apply Forall_flat_map. apply Forall_forall. intros chunk _.
    unfold webSourceOf.
    destruct (completeWeb chunk) as [[t u]|] eqn:E; [|constructor].
    constructor; [|constructor]. exact (completeWeb_some _ _ _ E).
  - intros chunks H. rewrite groundingSources_flat, H. clear H.
    induction chunks as [|chunk chunks IH]; [apply Nat.le_refl|].
    cbn [flat_map List.length]. rewrite length_app.
    unfold webSourceOf at 1.
    destruct (completeWeb chunk) as [[t u]|]; cbn [List.length]; lia.
Qed.

Lemma sources_are_the_complete_web_chunks_witness :
  groundingSources silentResponse = [].
Proof.
  exact (proj1 (sources_are_the_complete_web_chunks silentResponse) eq_refl).
Defined.

(** X2: the map sources of a doctor lookup take one entry per grounding
    chunk at most, in the order of the chunks: the maps part of a chunk
    when it has a title and a uri, with its address; otherwise its web
    part when that has both, with an empty address; otherwise nothing.
    No entry has an empty title or uri, the entries do not depend on the
    default title, and the content is the text of the response, or the
    default title when there is none. *)
Theorem map_sources_prefer_the_maps_part :
  forall (r : Response) (d : jsstring),
    DoctorSearchResult.content (processResponse r d) = or_else (responseText r) d
    /\ (d <> [] -> DoctorSearchResult.content (processResponse r d) <> [])
    /\ (forall d', citations r d' = citations r d)
    /\ (forall t before chunk after,
           citations (groundedResponse t (before ++ chunk :: after)) d
           = citations (groundedResponse t before) d
             ++ match completeMaps chunk with
                | Some (ti, u, a) => [MapSource.mk ti u a]
                | None =>
                    match completeWeb chunk with
                    | Some (ti, u) => [MapSource.mk ti u (Some [])]
                    | None => []
                    end
                end
             ++ citations (groundedResponse t after) d)
    /\ Forall (fun s => MapSource.title s <> [] /\ MapSource.uri s <> [])
         (citations r d)
    /\ (forall chunks,
           groundingChunks r = Some chunks ->
           (List.length (citations r d) <= List.length chunks)%nat).
Proof.
  intros r d. split; [reflexivity|]. split; [|split; [|split; [|split]]].
  - intros Hd. cbn. fold (responseText r). unfold or_else.
    destruct (responseText r); cbn; [exact Hd | discriminate].
  - intros d'. now rewrite !citations_flat.
  - intros t before chunk after. rewrite !citations_flat.
    cbn [groundingChunks groundedResponse]. rewrite flat_map_app. reflexivity.
  - rewrite citations_flat.
    destruct (groundingChunks r) as [chunks|]; [|constructor].
    apply Forall_flat_map. apply Forall_forall. intros chunk _.
    unfold mapSourceOf.
    destruct (completeMaps chunk) as [[[t u] a]|] eqn:Em.
    + constructor; [|constructor]. exact (completeMaps_some _ _ _ _ Em).
    + destruct (completeWeb chunk) as [[t u]|] eqn:Ew; [|constructor].
      constructor; [|constructor]. exact (completeWeb_some _ _ _ Ew).
  - intros chunks H. rewrite citations_flat, H. clear H.
    induction chunks as [|chunk chunks IH]; [apply Nat.le_refl|].
    cbn [flat_map List.length]. rewrite length_app.
    unfold mapSourceOf at 1.
    destruct (completeMaps chunk) as [[[t u] a]|];
      [|destruct (completeWeb chunk) as [[t u]|]]; cbn [List.length]; lia.
Qed.

Lemma map_sources_prefer_the_maps_part_witness :
  DoctorSearchResult.content
    (processResponse silentResponse (lit "Search Results")) <> [].
Proof.
  apply (proj1 (proj2 (map_sources_prefer_the_maps_part silentResponse
                         (lit "Search Results")))).
  discriminate.
Defined.

(** ** Results of the analysis *)

Lemma parsedText_not_empty (r : Response) : parsedText r <> [].
Proof.
  unfold parsedText, or_else. destruct (responseText r) as [|c s];
    cbn; discriminate.
Qed.


(** X3: a result of [analyzeSymptoms] carries the requested language and
    the web sources of the response it came from; its content is empty
    only when a header was parsed off the first line (a reply of nothing
    but its header): on the fallback path the content is never empty. *)
Theorem analysis_result_echoes_the_request :
  forall (ai : remote) (symptoms : jsstring) (image : option ImageState)
         (vitals : option Vitals.t) (language : jsstring) (log : list Request)
         (res : AnalysisResult.t),
    outcomeOf (analyzeSymptoms ai symptoms image vitals language log)
    = Returned res ->
    AnalysisResult.language res = language
    /\ exists r,
         ai log (analysisRequest symptoms image vitals language) = Returned r
         /\ AnalysisResult.sources res = groundingSources r
         /\ (AnalysisResult.content res = [] ->
             headerOf (parsedText r) <> None).
Proof.
  intros ai symptoms image vitals language log res.
  unfold outcomeOf. rewrite analyzeSymptoms_run. cbn [fst].
  destruct (ai log (analysisRequest symptoms image vitals language)) as [r|e];
    [|discriminate].
  intros H. injection H as <-.
  destruct (headerOf (parsedText r)) as [[sc lb]|] eqn:E.
  - split; [reflexivity|]. exists r.
    split; [reflexivity|]. split; [reflexivity|]. intros _ H'. congruence.
  - split; [reflexivity|]. exists r.
    split; [reflexivity|]. split; [reflexivity|].
    cbn. intros H. now apply parsedText_not_empty in H.
Qed.

Lemma analysis_result_echoes_the_request_witness :
  AnalysisResult.language
    (AnalysisResult.mk (lit "Body text") (Confidence.mk (ofZ 72) (lit "Medium"))
       (lit "English") [])
  = lit "English".
Proof.
  exact (proj1 (analysis_result_echoes_the_request
                  (answering (textResponse exampleReply)) [] None None
                  (lit "English") []
                  (AnalysisResult.mk (lit "Body text")
                     (Confidence.mk (ofZ 72) (lit "Medium")) (lit "English") [])
                  eq_refl)).
Defined.




(** ** Requests of the doctor lookup *)

(** X5: the search-grounded request reads the medical context through its
    first 100 code units only: two contexts that agree on them give the
    same request, and those code units are part of the prompt.  The
    maps-grounded prompt carries the whole context. *)
Theorem search_request_reads_100_code_units :
  forall (numeral : Q -> jsstring) (medicalContext : jsstring) (lat lng : num)
         (language : jsstring),
    (forall medicalContext',
        firstn 100 medicalContext' = firstn 100 medicalContext ->
        searchRequest numeral medicalContext' lat lng language
        = searchRequest numeral medicalContext lat lng language)
    /\ includes (fallbackPrompt numeral medicalContext lat lng language)
         (firstn 100 medicalContext) = true
    /\ includes (mapsPrompt numeral medicalContext lat lng language)
         medicalContext = true.
Proof.
  intros numeral medicalContext lat lng language. split; [|split].
  - intros c' H. unfold searchRequest, fallbackPrompt, substring0.
    now rewrite H.
  - unfold fallbackPrompt, substring0. cbn [List.concat].
    do 3 apply includes_app_r. apply includes_prefix.
  - unfold mapsPrompt. cbn [List.concat].
    do 2 apply includes_app_r. apply includes_prefix.
Qed.

Lemma search_request_reads_100_code_units_witness :
  searchRequest noNumeral (longContext " and a rash") (ofZ 0) (ofZ 0)
    (lit "English")
  = searchRequest noNumeral (longContext " and a cough") (ofZ 0) (ofZ 0)
      (lit "English").
Proof.
  apply (proj1 (search_request_reads_100_code_units noNumeral
                  (longContext " and a cough") (ofZ 0) (ofZ 0)
                  (lit "English"))).
  reflexivity.
Defined.

(** X6: [findNearbyDoctors] makes one request or two, after those already
    in the log.  A result it returns has a content that is not empty; a
    result without map sources is a result of the second request, and a
    result of the first request alone has map sources.  When it throws,
    two requests were made and the error is the fixed one. *)
Theorem doctor_lookup_results :
  forall (ai : remote) (numeral : Q -> jsstring) (medicalContext : jsstring)
         (lat lng : num) (language : jsstring) (log : list Request),
    let req1 := mapsRequest numeral medicalContext lat lng language in
    let req2 := searchRequest numeral medicalContext lat lng language in
    let run := findNearbyDoctors ai numeral medicalContext lat lng language log in
    (callsOf run = log ++ [req1] \/ callsOf run = log ++ [req1; req2])
    /\ (forall res,
           outcomeOf run = Returned res ->
           DoctorSearchResult.content res <> []
           /\ (DoctorSearchResult.mapSources res = [] ->
               callsOf run = log ++ [req1; req2])
           /\ (callsOf run = log ++ [req1] ->
               DoctorSearchResult.mapSources res <> []))
    /\ (forall e,
           outcomeOf run = Thrown e ->
           e = Error lookupFailure /\ callsOf run = log ++ [req1; req2]).
Proof.
  intros ai numeral medicalContext lat lng language log req1 req2 run.
  assert (Hlog : log ++ [req1; req2] <> log ++ [req1]).
  { intros H. apply app_inv_head in H. discriminate. }
  assert (Hc : forall r d, d <> [] ->
                 DoctorSearchResult.content (processResponse r d) <> []).
  { intros r d Hd. cbn. unfold or_else.
    destruct (match text r with Some s => s | None => [] end); cbn;
      [exact Hd | discriminate]. }
  unfold run, outcomeOf, callsOf. rewrite findNearbyDoctors_run.
  fold req1 req2. cbv zeta.
  destruct (ai log req1) as [r1|e1].
  - destruct (citations r1 (lit "Maps Search Results")) as [|c cs] eqn:Ec.
    + destruct (ai (log ++ [req1]) req2) as [r2|e2]; cbn [fst snd].
      * split; [now right|]. split; [|intros e H; discriminate].
        intros res H. injection H as <-.
        split; [apply Hc; discriminate|]. split; [reflexivity|].
        intros H. now apply Hlog in H.
      * split; [now right|]. split; [intros res H; discriminate|].
        intros e H. injection H as <-. now split.
    + cbn [fst snd]. split; [now left|].
      split; [|intros e H; discriminate].
      intros res H. injection H as <-.
      split; [apply Hc; discriminate|].
      unfold citations in Ec. rewrite Ec. split; [discriminate|].
      intros _. discriminate.
  - destruct (ai (log ++ [req1]) req2) as [r2|e2]; cbn [fst snd].
    + split; [now right|]. split; [|intros e H; discriminate].
      intros res H. injection H as <-.
      split; [apply Hc; discriminate|]. split; [reflexivity|].
      intros H. now apply Hlog in H.
    + split; [now right|]. split; [intros res H; discriminate|].
      intros e H. injection H as <-. now split.
Qed.

Lemma doctor_lookup_results_witness :
  DoctorSearchResult.content
    (processResponse (textResponse (lit "Clinics near you"))
       (lit "Search Results")) <> [].
Proof.
  destruct (doctor_lookup_results mapsDown noNumeral (lit "sore throat")
              (ofZ 0) (ofZ 0) (lit "English") []) as (_ & H & _).
  exact (proj1 (H (processResponse (textResponse (lit "Clinics near you"))
                     (lit "Search Results")) eq_refl)).
Defined.

(** ** The classifier, further thresholds *)

Ltac threshold_cases :=
  repeat match goal with
         | |- context [Qltb ?x ?y] =>
             let E := fresh "E" in
             destruct (Qltb x y) eqn:E;
             [apply Qltb_lt in E | apply Qltb_ge in E]
         end.

Ltac report :=
  eexists; split; [reflexivity | split; reflexivity].

Ltac by_thresholds :=
  cbn [orb andb]; repeat split; intros;
  first [ exfalso; lra | report ].

(** X7: a populated heart rate field that reads as the integer [h] gives
    exactly one heart rate alert: "Tachycardia", critical, above 120;
    "Elevated HR", a warning, above 100 up to 120; "Bradycardia", a
    warning, below 50; "Heart Rate", normal, from 50 to 100. *)
Theorem heart_rate_thresholds :
  forall v h,
    truthy (Vitals.hr v) = true ->
    parseInt (Vitals.hr v) None = Fin h ->
    (120 < h -> reportOf HeartRate v "Tachycardia" critical)
    /\ (100 < h /\ h <= 120 -> reportOf HeartRate v "Elevated HR" warning)
    /\ (h < 50 -> reportOf HeartRate v "Bradycardia" warning)
    /\ (50 <= h /\ h <= 100 -> reportOf HeartRate v "Heart Rate" normal).
Proof.
  intros v h Hp Hh. unfold reportOf. rewrite filter_category.
  unfold heartRateCheck. rewrite Hp, Hh.
  unfold gt, lt, ofZ, push, inject_Z. threshold_cases; by_thresholds.
Qed.

Lemma heart_rate_thresholds_witness :
  reportOf HeartRate (vitalsWithHr "130") "Tachycardia" critical.
Proof.
  apply (proj1 (heart_rate_thresholds (vitalsWithHr "130") 130
                  eq_refl eq_refl)).
  reflexivity.
Defined.

(** X8: with both blood pressure fields populated and reading as the
    integers [s] and [d] there is exactly one blood pressure alert:
    "Hypertensive Crisis", critical, when [s > 180] or [d > 120];
    otherwise "High BP", a warning, when [s > 140] or [d > 90]; otherwise
    "Elevated BP", a warning, when [s > 130] or [d > 80]; otherwise
    "Blood Pressure", normal. *)
Theorem blood_pressure_thresholds :
  forall v s d,
    truthy (Vitals.bpSys v) = true ->
    truthy (Vitals.bpDia v) = true ->
    parseInt (Vitals.bpSys v) None = Fin s ->
    parseInt (Vitals.bpDia v) None = Fin d ->
    (180 < s \/ 120 < d ->
     reportOf BloodPressure v "Hypertensive Crisis" critical)
    /\ (s <= 180 /\ d <= 120 /\ (140 < s \/ 90 < d) ->
        reportOf BloodPressure v "High BP" warning)
    /\ (s <= 140 /\ d <= 90 /\ (130 < s \/ 80 < d) ->
        reportOf BloodPressure v "Elevated BP" warning)
    /\ (s <= 130 /\ d <= 80 ->
        reportOf BloodPressure v "Blood Pressure" normal).
Proof.
  intros v s d Hs Hd Es Ed. unfold reportOf. rewrite filter_category.
  unfold bloodPressureCheck. rewrite Hs, Hd, Es, Ed.
  unfold gt, lt, ofZ, push, inject_Z. cbn [andb].
  threshold_cases; by_thresholds.
Qed.

Lemma blood_pressure_thresholds_witness :
  reportOf BloodPressure (Vitals.mk [] [] (lit "150") (lit "85") [])
    "High BP" warning.
Proof.
  apply (proj1 (proj2 (blood_pressure_thresholds
                         (Vitals.mk [] [] (lit "150") (lit "85") [])
                         150 85 eq_refl eq_refl eq_refl eq_refl))).
  split; [discriminate|]. split; [discriminate|]. left. reflexivity.
Defined.

(** X9: a populated SpO2 field that reads as the integer [o] gives exactly
    one oxygen alert: "Hypoxia Risk", critical, below 90; "Low Oxygen", a
    warning, from 90 to below 95; "Oxygen Level", normal, from 95. *)
Theorem oxygen_thresholds :
  forall v o,
    truthy (Vitals.spo2 v) = true ->
    parseInt (Vitals.spo2 v) None = Fin o ->
    (o < 90 -> reportOf OxygenSaturation v "Hypoxia Risk" critical)
    /\ (90 <= o /\ o < 95 -> reportOf OxygenSaturation v "Low Oxygen" warning)
    /\ (95 <= o -> reportOf OxygenSaturation v "Oxygen Level" normal).
Proof.
  intros v o Hp Ho. unfold reportOf. rewrite filter_category.
  unfold spo2Check. rewrite Hp, Ho.
  unfold gt, lt, ofZ, push, inject_Z. threshold_cases; by_thresholds.
Qed.

Lemma oxygen_thresholds_witness :
  reportOf OxygenSaturation (Vitals.mk [] [] [] [] (lit "92"))
    "Low Oxygen" warning.
Proof.
  apply (proj1 (proj2 (oxygen_thresholds (Vitals.mk [] [] [] [] (lit "92")) 92
                         eq_refl eq_refl))).
  split; [discriminate | reflexivity].
Defined.

(** X10: a populated field in which no number can be read is reported as
    normal: every comparison with "not a number" is false, which leaves
    the last branch of each check.  For blood pressure this is so when
    neither field can be read. *)
Theorem unreadable_vitals_are_reported_normal :
  forall v,
    (truthy (Vitals.temp v) = true -> parseFloat (Vitals.temp v) = NaN ->
     reportOf Temperature v "Temperature" normal)
    /\ (truthy (Vitals.hr v) = true -> parseInt (Vitals.hr v) None = NaN ->
        reportOf HeartRate v "Heart Rate" normal)
    /\ (truthy (Vitals.bpSys v) = true -> truthy (Vitals.bpDia v) = true ->
        parseInt (Vitals.bpSys v) None = NaN ->
        parseInt (Vitals.bpDia v) None = NaN ->
        reportOf BloodPressure v "Blood Pressure" normal)
    /\ (truthy (Vitals.spo2 v) = true -> parseInt (Vitals.spo2 v) None = NaN ->
        reportOf OxygenSaturation v "Oxygen Level" normal).
Proof.
  intros v. unfold reportOf. repeat split.
  - intros Hp Hn. rewrite filter_category. unfold feverCheck.
    rewrite Hp, Hn. report.
  - intros Hp Hn. rewrite filter_category. unfold heartRateCheck.
    rewrite Hp, Hn. report.
  - intros Hs Hd Es Ed. rewrite filter_category. unfold bloodPressureCheck.
    rewrite Hs, Hd, Es, Ed. report.
  - intros Hp Hn. rewrite filter_category. unfold spo2Check.
    rewrite Hp, Hn. report.
Qed.

Lemma unreadable_vitals_are_reported_normal_witness :
  reportOf HeartRate (vitalsWithHr ".5") "Heart Rate" normal.
Proof.
  exact (proj1 (proj2 (unreadable_vitals_are_reported_normal
                         (vitalsWithHr ".5"))) eq_refl eq_refl).
Defined.

(** ** Vitals in the prompt and in the local alerts *)

Lemma localAnalysis_nil_iff (v : Vitals.t) :
  localAnalysis v = [] <-> unpopulated v.
Proof.
  rewrite localAnalysis_blocks.
  destruct (feverCheck_block v) as (_ & Tn & Tp).
  destruct (heartRateCheck_block v) as (_ & Hn & Hp).
  destruct (bloodPressureCheck_block v) as (_ & Bn & Bp).
  destruct (spo2Check_block v) as (_ & On & Op).
  unfold unpopulated. split.
  - intros E. apply app_eq_nil in E. destruct E as [E1 E].
    apply app_eq_nil in E. destruct E as [E2 E].
    apply app_eq_nil in E. destruct E as [E3 E4].
    intros []; match goal with
               | |- populated v ?c = false =>
                   destruct (populated v c) eqn:P; [|reflexivity]
               end.
    + destruct (Tp eq_refl) as (a & Ea & _). congruence.
    + destruct (Hp eq_refl) as (a & Ea & _). congruence.
    + destruct (Bp eq_refl) as (a & Ea & _). congruence.
    + destruct (Op eq_refl) as (a & Ea & _). congruence.
  - intros U.
    now rewrite (Tn (U Temperature)), (Hn (U HeartRate)),
      (Bn (U BloodPressure)), (On (U OxygenSaturation)).
Qed.

Lemma vitalsContext_nil_iff (v : Vitals.t) :
  vitalsContext (Some v) = [] <-> unpopulated v.
Proof.
  unfold vitalsContext, unpopulated. split.
  - intros E c. destruct c; cbn [populated];
      destruct (truthy (Vitals.temp v)), (truthy (Vitals.hr v)),
        (truthy (Vitals.bpSys v)), (truthy (Vitals.bpDia v)),
        (truthy (Vitals.spo2 v));
      try reflexivity; cbn [andb app List.length Nat.ltb Nat.leb] in E;
      discriminate E.
  - intros U.
    pose proof (U Temperature) as U1. pose proof (U HeartRate) as U2.
    pose proof (U BloodPressure) as U3. pose proof (U OxygenSaturation) as U4.
    cbn [populated] in U1, U2, U3, U4. now rewrite U1, U2, U3, U4.
Qed.

(** X11: the prompt carries a block of patient vitals exactly when the
    local classifier raises at least one alert, that is, when a category
    is populated; without vitals at all there is no block.  A systolic or
    a diastolic value alone lets the form be submitted, but reaches
    neither the alerts nor the prompt. *)
Theorem vitals_block_matches_local_alerts :
  vitalsContext None = []
  /\ (forall v,
         (vitalsContext (Some v) = [] <-> localAnalysis v = [])
         /\ (localAnalysis v = [] <-> unpopulated v))
  /\ (forall v,
         truthy (Vitals.temp v) = false ->
         truthy (Vitals.hr v) = false ->
         truthy (Vitals.spo2 v) = false ->
         xorb (truthy (Vitals.bpSys v)) (truthy (Vitals.bpDia v)) = true ->
         someVitals v = true
         /\ localAnalysis v = []
         /\ vitalsContext (Some v) = []).
Proof.
  split; [reflexivity|]. split.
  - intros v. split; [|apply localAnalysis_nil_iff].
    now rewrite vitalsContext_nil_iff, localAnalysis_nil_iff.
  - intros v Ht Hh Ho Hx.
    assert (U : unpopulated v).
    { intros []; cbn [populated]; try assumption.
      destruct (truthy (Vitals.bpSys v)), (truthy (Vitals.bpDia v));
        try reflexivity; discriminate. }
    split; [|split].
    + unfold someVitals. cbn [existsb]. rewrite Ht, Hh, Ho.
      destruct (truthy (Vitals.bpSys v)), (truthy (Vitals.bpDia v));
        try reflexivity; discriminate.
    + now apply localAnalysis_nil_iff.
    + now apply vitalsContext_nil_iff.
Qed.

Lemma vitals_block_matches_local_alerts_witness :
  someVitals (Vitals.mk [] [] (lit "150") [] []) = true
  /\ localAnalysis (Vitals.mk [] [] (lit "150") [] []) = []
  /\ vitalsContext (Some (Vitals.mk [] [] (lit "150") [] [])) = [].
Proof.
  apply (proj2 (proj2 vitals_block_matches_local_alerts)); reflexivity.
Defined.

(** ** Submissions and sessions *)

Lemma truthy_nil_iff (s : jsstring) : truthy s = false <-> s = [].
Proof. destruct s; cbn; split; intros; congruence. Qed.

Lemma somethingEntered_false_iff (st : AppState) :
  somethingEntered st = false <-> blankForm st.
Proof.
  unfold somethingEntered, blankForm, someVitals. cbn [existsb].
  rewrite !orb_false_iff, <- trim_nil_iff, !truthy_nil_iff.
  split.
  - intros ((Hs & Hi) & Ht & Hh & Hb & Hd & Ho & _).
    split; [exact Hs|]. split.
    + destruct (selectedImage st); [discriminate | reflexivity].
    + destruct (vitals st) as [t h b d o]. cbn in *. now subst.
  - intros (Hs & Hi & Hv). rewrite Hi, Hv. cbn. repeat split. exact Hs.
Qed.

(** X12: [handleAnalyze] does nothing at all, and asks the model nothing,
    exactly on a blank form: symptoms of white space only, no image and
    every vitals field empty.  On any other form it makes exactly one
    request, the analysis request of the form. *)
Theorem blank_form_is_not_submitted :
  forall (ai : remote) (numeral : Q -> jsstring) (uuid : jsstring) (now : Z)
         (refused : option exn) (st : AppState) (log : list Request),
    let run := handleAnalyze ai numeral uuid now refused st log in
    (blankForm st -> run = (Returned tt, st, log))
    /\ (~ blankForm st ->
        snd run
        = log ++ [analysisRequest (symptoms st) (selectedImage st)
                    (Some (vitals st)) (selectedLanguage st)]).
Proof.
  intros ai numeral uuid now refused st log run. unfold run.
  rewrite handleAnalyze_run. split.
  - intros H. apply somethingEntered_false_iff in H. now rewrite H.
  - intros H. destruct (somethingEntered st) eqn:E.
    + cbv zeta. rewrite analyzeSymptoms_run.
      destruct (ai log _); reflexivity.
    + apply somethingEntered_false_iff in E. contradiction.
Qed.

Lemma blank_form_is_not_submitted_witness :
  handleAnalyze (answering silentResponse) noNumeral (lit "id-0") 0%Z None
    (fillForm {| typed := lit "   "; photo := None;
                 readings := Vitals.mk [] [] [] [] [];
                 chosenLanguage := lit "English";
                 uuid := lit "id-0"; now := 0%Z; refused := None |}
       initialState) []
  = (Returned tt,
     fillForm {| typed := lit "   "; photo := None;
                 readings := Vitals.mk [] [] [] [] [];
                 chosenLanguage := lit "English";
                 uuid := lit "id-0"; now := 0%Z; refused := None |}
       initialState,
     []).
Proof.
  apply (proj1 (blank_form_is_not_submitted (answering silentResponse)
                  noNumeral (lit "id-0") 0%Z None
                  (fillForm {| typed := lit "   "; photo := None;
                               readings := Vitals.mk [] [] [] [] [];
                               chosenLanguage := lit "English";
                               uuid := lit "id-0"; now := 0%Z;
                               refused := None |}
                     initialState) [])).
  repeat split.
Defined.

(** X13: [handleAnalyze] never throws and never changes the form.  After a
    submission that went through, the analysis is no longer in progress,
    and one of three things has happened.  The model answered and the
    browser took the write: the result is set, there is no error, and the
    text of the new history is stored.  The model answered and the write
    was refused: the result is set and the new entry is in the history,
    but the error shows what the browser threw (or "Something went
    wrong." when that has no message) and what is stored is as before.
    The call failed: there is no result, the error is the fixed message of
    [analyzeSymptoms], and history and storage are as before. *)
Theorem submission_outcomes :
  forall (ai : remote) (numeral : Q -> jsstring) (uuid : jsstring) (now : Z)
         (refused : option exn) (st : AppState) (log : list Request),
    let run := handleAnalyze ai numeral uuid now refused st log in
    let st' := stateAfter run in
    let analysis :=
      outcomeOf (analyzeSymptoms ai (symptoms st) (selectedImage st)
                   (Some (vitals st)) (selectedLanguage st) log) in
    fst (fst run) = Returned tt
    /\ sameForm st st'
    /\ (somethingEntered st = true ->
        isAnalyzing st' = false
        /\ ((exists data,
                analysis = Returned data
                /\ refused = None
                /\ result st' = Some data
                /\ error st' = None
                /\ history st'
                   = firstn 10 (entryFor uuid now st data :: history st)
                /\ storage st' = Some (JSON_stringify (history st')))
            \/ (exists data e,
                   analysis = Returned data
                   /\ refused = Some e
                   /\ result st' = Some data
                   /\ error st'
                      = Some (or_else (exn_message e)
                                (lit "Something went wrong."))
                   /\ history st'
                      = firstn 10 (entryFor uuid now st data :: history st)
                   /\ storage st' = storage st)
            \/ (fails analysis
                /\ result st' = None
                /\ error st' = Some failureMessage
                /\ history st' = history st
                /\ storage st' = storage st))).
Proof.
  intros ai numeral uuid now refused st log run st' analysis.
  unfold analysis, st', run, stateAfter, outcomeOf, sameForm.
  rewrite handleAnalyze_run.
  destruct (somethingEntered st).
  - cbv zeta. rewrite analyzeSymptoms_run.
    destruct (ai log _) as [r|e]; cbn [fst snd].
    + split; [reflexivity|]. split; [repeat split|]. intros _.
      split; [reflexivity|]. destruct refused as [e|].
      * right. left. eexists. exists e. repeat split.
      * left. eexists. repeat split.
    + split; [reflexivity|]. split; [repeat split|]. intros _.
      split; [reflexivity|]. right. right.
      split; [eexists; reflexivity|]. repeat split.
  - cbn [fst snd]. split; [reflexivity|]. split; [repeat split|].
    discriminate.
Qed.

(** A refused write: the eleventh visit ends with the result and with the
    message of the browser as the error. *)
Lemma submission_outcomes_witness :
  isAnalyzing
    (stateAfter (handleAnalyze (answering (textResponse exampleReply))
                   noNumeral (lit "id-11") 1700000000000%Z
                   (Some quotaExceeded) eleventhVisit [])) = false
  /\ result
       (stateAfter (handleAnalyze (answering (textResponse exampleReply))
                      noNumeral (lit "id-11") 1700000000000%Z
                      (Some quotaExceeded) eleventhVisit []))
     = Some exampleAnalysis
  /\ error
       (stateAfter (handleAnalyze (answering (textResponse exampleReply))
                      noNumeral (lit "id-11") 1700000000000%Z
                      (Some quotaExceeded) eleventhVisit []))
     = Some (lit "The quota has been exceeded.").
Proof.
  destruct (proj2 (proj2 (submission_outcomes
                            (answering (textResponse exampleReply))
                            noNumeral (lit "id-11") 1700000000000%Z
                            (Some quotaExceeded) eleventhVisit [])) eq_refl)
    as [Ha H].
  split; [exact Ha|].
  destruct H as [(data & _ & R & _) | [(data & e & A & R & Hr & He & _) | H]].
  - discriminate R.
  - injection R as <-. vm_compute in A. injection A as <-.
    split; [exact Hr | exact He].
  - destruct H as ((e & F) & _). vm_compute in F. discriminate F.
Defined.

(** Every state a session reaches satisfies what the initial state
    satisfies and what submissions and clearing preserve. *)
Lemma session_state_invariant (ai : remote) (numeral : Q -> jsstring)
    (P : AppState * list Request -> Prop) :
  P (initialState, []) ->
  (forall e w, P w -> P (step ai numeral e w)) ->
  forall es, P (session ai numeral es).
Proof.
  intros P0 Pstep es. unfold session.
  assert (G : forall w, P w ->
                P (fold_left (fun w e => step ai numeral e w) es w)).
  { induction es as [|e es IH]; intros w Hw; [exact Hw|].
    cbn [fold_left]. apply IH. now apply Pstep. }
  now apply G.
Qed.

Lemma step_submit (ai : remote) (numeral : Q -> jsstring) (s : Submission)
    (st : AppState) (log : list Request) :
  step ai numeral (Submit s) (st, log)
  = (stateAfter (handleAnalyze ai numeral (uuid s) (now s) (refused s)
                   (fillForm s st) log),
     snd (handleAnalyze ai numeral (uuid s) (now s) (refused s)
            (fillForm s st) log)).
Proof.
  unfold step, stateAfter.
  destruct (handleAnalyze ai numeral (uuid s) (now s) (refused s)
              (fillForm s st) log)
    as [[o st'] log']. reflexivity.
Qed.

(** X14: in every session started with nothing stored in which the
    browser refuses no write, what is stored is the text made of the
    history on display, or there is neither; clearing the history empties
    both, in every session.  A refused write breaks this: the history
    holds the new entry and nothing is stored. *)
Theorem storage_mirrors_the_history :
  (forall (ai : remote) (numeral : Q -> jsstring) (es : list Event),
      forallb writable es = true ->
      mirrored (fst (session ai numeral es)))
  /\ (forall (ai : remote) (numeral : Q -> jsstring) (es : list Event),
         history (fst (session ai numeral (es ++ [Clear]))) = []
         /\ storage (fst (session ai numeral (es ++ [Clear]))) = None)
  /\ (let st := fst (session (answering (textResponse exampleReply))
                       noNumeral refusedSession) in
      List.length (history st) = 1%nat /\ storage st = None
      /\ ~ mirrored st).
Proof.
  split; [|split].
  - intros ai numeral es. unfold session.
    assert (G : forall w,
              mirrored (fst w) -> forallb writable es = true ->
              mirrored (fst (fold_left (fun w e => step ai numeral e w) es w))).
    { induction es as [|e es IH]; intros w Hw Hes; [exact Hw|].
      cbn [fold_left]. cbn [forallb] in Hes.
      apply andb_true_iff in Hes. destruct Hes as [He Hes].
      apply IH; [|exact Hes]. destruct w as [st log]. cbn [fst] in Hw.
      destruct e as [s|].
      - rewrite step_submit. cbn [fst]. unfold stateAfter.
        rewrite handleAnalyze_run. cbn [writable] in He.
        destruct (refused s); [discriminate|].
        destruct (somethingEntered (fillForm s st)); [|exact Hw].
        cbv zeta.
        destruct (analyzeSymptoms ai _ _ _ _ log) as [[data|e] log'];
          cbn [fst snd]; [now left | exact Hw].
      - right. now split. }
    apply G. right. now split.
  - intros ai numeral es. unfold session. rewrite fold_left_app.
    cbn [fold_left].
    destruct (fold_left (fun w e => step ai numeral e w) es (initialState, []))
      as [st log]. now split.
  - cbv zeta. split; [vm_compute; reflexivity|].
    split; [vm_compute; reflexivity|].
    intros [H | [H _]]; vm_compute in H; discriminate H.
Qed.

(** Two submissions, both stored. *)
Lemma storage_mirrors_the_history_witness :
  mirrored
    (fst (session (answering (textResponse exampleReply)) noNumeral
            [Submit {| typed := lit "headache"; photo := None;
                       readings := Vitals.mk [] [] [] [] [];
                       chosenLanguage := lit "English";
                       uuid := lit "id-1"; now := 1700000000000%Z;
                       refused := None |};
             Submit {| typed := lit "cough"; photo := None;
                       readings := Vitals.mk [] (lit "72") [] [] [];
                       chosenLanguage := lit "English";
                       uuid := lit "id-2"; now := 1700000000500%Z;
                       refused := None |}])).
Proof.
  apply (proj1 storage_mirrors_the_history). reflexivity.
Defined.

(** X15: every entry of the history of a session has a label that is not
    empty: the symptoms as typed, or a placeholder when nothing was
    typed. *)
Theorem history_entries_are_labelled :
  forall (ai : remote) (numeral : Q -> jsstring) (es : list Event),
    Forall (fun h => HistoryItem.symptoms h <> [])
      (history (fst (session ai numeral es))).
Proof.
  apply (session_invariant
           (fun h => Forall (fun x => HistoryItem.symptoms x <> []) h)).
  - constructor.
  - intros uuid now st data H. apply Forall_firstn. constructor; [|exact H].
    cbn. unfold or_else. destruct (symptoms st); cbn;
      [destruct (selectedImage st)|]; discriminate.
Qed.

Lemma count_submit_snoc (es : list Event) (e : Event) :
  List.length (filter isSubmit (es ++ [e]))
  = (List.length (filter isSubmit es) + (if isSubmit e then 1 else 0))%nat.
Proof.
  rewrite filter_app, length_app. cbn [filter].
  now destruct (isSubmit e).
Qed.

(** X16: a session makes at most one request per submission and none for
    clearing, and every request it makes is an analysis request: web
    search as its only tool, never the maps tool. *)
Theorem session_requests :
  forall (ai : remote) (numeral : Q -> jsstring) (es : list Event),
    (List.length (snd (session ai numeral es))
     <= List.length (filter isSubmit es))%nat
    /\ Forall isAnalysisRequest (snd (session ai numeral es)).
Proof.
  intros ai numeral es.
  assert (G : forall es w,
            (List.length (snd (fold_left (fun w e => step ai numeral e w) es w))
             <= List.length (snd w) + List.length (filter isSubmit es))%nat
            /\ (Forall isAnalysisRequest (snd w) ->
                Forall isAnalysisRequest
                  (snd (fold_left (fun w e => step ai numeral e w) es w)))).
  { clear es. induction es as [|e es IH]; intros [st log].
    - cbn. split; [lia | tauto].
    - cbn [fold_left]. destruct (IH (step ai numeral e (st, log))) as [L F].
      assert (S : (List.length (snd (step ai numeral e (st, log)))
                   <= List.length log + (if isSubmit e then 1 else 0))%nat
                  /\ (Forall isAnalysisRequest log ->
                      Forall isAnalysisRequest
                        (snd (step ai numeral e (st, log))))).
      { destruct e as [s|]; [|cbn; split; [lia | tauto]].
        rewrite step_submit. cbn [snd isSubmit].
        rewrite handleAnalyze_run.
        destruct (somethingEntered (fillForm s st));
          [|cbn; split; [lia | tauto]].
        cbv zeta. rewrite analyzeSymptoms_run.
        destruct (ai log _); cbn [snd]; rewrite length_app; cbn [List.length];
          (split; [lia|]); intros H; apply Forall_app;
          (split; [exact H|]); constructor; try constructor; now split. }
      destruct S as [SL SF]. cbn [snd] in *. split.
      + cbn [filter]. destruct (isSubmit e); cbn [List.length] in *; lia.
      + intros H. apply F, SF, H. }
  destruct (G es (initialState, [])) as [L F]. cbn [snd List.length] in *.
  split; [exact L | apply F; constructor].
Qed.

(** ** Insights *)





(** ** The uploaded image *)

Lemma split_no_sep (sep : N) (s : jsstring) :
  forallb (fun c => negb (c =? sep)%N) s = true -> split sep s = [s].
Proof.
  induction s as [|c s IH]; [reflexivity|]. cbn [forallb split].
  intros H. apply andb_true_iff in H. destruct H as [Hc Hs].
  apply negb_true_iff in Hc. rewrite Hc, (IH Hs). reflexivity.
Qed.

Lemma split_app_sep (sep : N) (a b : jsstring) :
  forallb (fun c => negb (c =? sep)%N) a = true ->
  split sep (a ++ sep :: b) = a :: split sep b.
Proof.
  induction a as [|c a IH]; cbn [forallb app split].
  - intros _. now rewrite N.eqb_refl.
  - intros H. apply andb_true_iff in H. destruct H as [Hc Ha].
    apply negb_true_iff in Hc. rewrite Hc, (IH Ha). reflexivity.
Qed.

(** X18: the image data kept from a data URL is what stands between its
    first comma and its second comma or its end: for a header and a
    payload without commas, the payload, also when more follows after a
    further comma.  A string without a comma gives no data at all. *)
Theorem image_data_follows_the_first_comma :
  forall header payload,
    noComma header ->
    noComma payload ->
    base64Data (header ++ [44%N] ++ payload) = Some payload
    /\ (forall tail,
           base64Data (header ++ [44%N] ++ payload ++ [44%N] ++ tail)
           = Some payload)
    /\ base64Data header = None.
Proof.
  intros header payload Hh Hp. unfold base64Data. split; [|split].
  - cbn [app]. rewrite (split_app_sep 44 header payload Hh).
    now rewrite (split_no_sep 44 payload Hp).
  - intros tail. cbn [app]. rewrite (split_app_sep 44 header _ Hh).
    now rewrite (split_app_sep 44 payload tail Hp).
  - now rewrite (split_no_sep 44 header Hh).
Qed.

Lemma image_data_follows_the_first_comma_witness :
  base64Data (lit "data:image/png;base64" ++ [44%N] ++ lit "iVBORw0KGgo=")
  = Some (lit "iVBORw0KGgo=").
Proof.
  exact (proj1 (image_data_follows_the_first_comma
                  (lit "data:image/png;base64") (lit "iVBORw0KGgo=")
                  eq_refl eq_refl)).
Defined.

(** ** Dictated symptoms *)

Lemma visible_not_all_ws (s : jsstring) :
  visible s -> forallb isWhiteSpace s = false.
Proof.
  unfold visible. induction s as [|c s IH]; cbn; [discriminate|].
  destruct (isWhiteSpace c); cbn; [exact IH | reflexivity].
Qed.

Lemma visible_app_r (a b : jsstring) : visible b -> visible (a ++ b).
Proof.
  unfold visible. intros H. rewrite existsb_app, H. apply orb_true_r.
Qed.

(** X19: a dictated transcript is put after the symptoms already typed,
    with exactly one space between them, or taken as the symptoms when
    none were typed; once it has a code unit that is not white space the
    form is no longer blank and can be submitted. *)
Theorem dictation_extends_the_symptoms :
  forall prev transcript,
    (prev = [] -> appendTranscript prev transcript = transcript)
    /\ (prev <> [] ->
        appendTranscript prev transcript = prev ++ lit " " ++ transcript)
    /\ (visible transcript ->
        forall st,
          symptoms st = appendTranscript prev transcript ->
          somethingEntered st = true).
Proof.
  intros prev transcript. split; [|split].
  - intros ->. reflexivity.
  - intros H. destruct prev as [|c prev]; [contradiction | reflexivity].
  - intros Hv st Hs. unfold somethingEntered. rewrite Hs.
    assert (V : visible (appendTranscript prev transcript)).
    { unfold appendTranscript. destruct (truthy prev); [|exact Hv].
      now do 2 apply visible_app_r. }
    apply visible_not_all_ws in V.
    destruct (trim (appendTranscript prev transcript)) eqn:E.
    + apply trim_nil_iff in E. congruence.
    + reflexivity.
Qed.

Lemma dictation_extends_the_symptoms_witness :
  appendTranscript (lit "fever") (lit "and cough") = lit "fever and cough"
  /\ somethingEntered
       (fillForm {| typed := appendTranscript (lit "fever") (lit "and cough");
                    photo := None; readings := Vitals.mk [] [] [] [] [];
                    chosenLanguage := lit "English";
                    uuid := lit "id-4"; now := 0%Z; refused := None |}
          initialState) = true.
Proof.
  destruct (dictation_extends_the_symptoms (lit "fever") (lit "and cough"))
    as (_ & Ha & Hs).
  split.
  - rewrite Ha; [reflexivity | discriminate].
  - apply (Hs eq_refl). reflexivity.
Defined.

(** ** The doctor finder *)

Lemma findNearbyDoctors_throws (ai : remote) (numeral : Q -> jsstring)
    (medicalContext : jsstring) (lat lng : num) (language : jsstring)
    (log : list Request) (e : exn) :
  outcomeOf (findNearbyDoctors ai numeral medicalContext lat lng language log)
  = Thrown e ->
  e = Error lookupFailure.
Proof.
  unfold outcomeOf. rewrite findNearbyDoctors_run. cbv zeta.
  destruct (ai log _) as [r1|e1];
    [destruct (citations r1 (lit "Maps Search Results"))|];
    try (destruct (ai (log ++ _) _) as [r2|e2]); cbn [fst];
    intros H; try discriminate; now injection H as <-.
Qed.

(** X20: without a position nothing is asked of the model: when the
    browser has no geolocation, or reports a position error, the log of
    requests and the result on display stay as they were, the component
    stops loading and an error is shown.  Codes 1, 2 and 3 (denied,
    unavailable, timed out) each have a message no other code has; every
    other code has the general message. *)
Theorem no_position_no_request :
  forall (ai : remote) (numeral : Q -> jsstring)
         (medicalContext language : jsstring),
    (forall geo s log,
        (forall lat lng, geo <> DoctorFinder.Position lat lng) ->
        let after := DoctorFinder.handleFindDoctors ai numeral medicalContext
                       language geo s log in
        snd after = log
        /\ DoctorFinder.loading (fst after) = false
        /\ DoctorFinder.result (fst after) = DoctorFinder.result s
        /\ DoctorFinder.error (fst after) <> None)
    /\ (forall code s log,
           DoctorFinder.error
             (fst (DoctorFinder.handleFindDoctors ai numeral medicalContext
                     language (DoctorFinder.PositionError code) s log))
           = Some (DoctorFinder.positionErrorMessage code))
    /\ (forall c1 c2,
           In c1 [1; 2; 3]%Z ->
           DoctorFinder.positionErrorMessage c1
           = DoctorFinder.positionErrorMessage c2 ->
           c1 = c2)
    /\ (forall code,
           ~ In code [1; 2; 3]%Z ->
           DoctorFinder.positionErrorMessage code = noLocationMessage).
Proof.
  intros ai numeral medicalContext language. split; [|split; [|split]].
  - intros geo s log Hg.
    destruct geo as [|lat lng|code]; [|now contradiction (Hg lat lng)|];
      cbn; repeat split; discriminate.
  - reflexivity.
  - intros c1 c2 Hc1 E. unfold DoctorFinder.positionErrorMessage in E.
    destruct (c2 =? 1)%Z eqn:E1; [apply Z.eqb_eq in E1|];
      (destruct (c2 =? 2)%Z eqn:E2; [apply Z.eqb_eq in E2|]);
      (destruct (c2 =? 3)%Z eqn:E3; [apply Z.eqb_eq in E3|]);
      try lia;
      cbn [In] in Hc1;
      destruct Hc1 as [<- | [<- | [<- | []]]];
      first [ lia | vm_compute in E; discriminate E ].
  - intros code Hn. unfold DoctorFinder.positionErrorMessage.
    cbn [In] in Hn.
    destruct (code =? 1)%Z eqn:E1; [apply Z.eqb_eq in E1; lia|].
    destruct (code =? 2)%Z eqn:E2; [apply Z.eqb_eq in E2; lia|].
    destruct (code =? 3)%Z eqn:E3; [apply Z.eqb_eq in E3; lia|].
    reflexivity.
Qed.

Lemma no_position_no_request_witness :
  snd (DoctorFinder.handleFindDoctors mapsDown noNumeral (lit "sore throat")
         (lit "English") (DoctorFinder.PositionError 3)
         {| DoctorFinder.loading := false; DoctorFinder.result := None;
            DoctorFinder.error := None; DoctorFinder.status := [] |} [])
  = [].
Proof.
  apply (proj1 (no_position_no_request mapsDown noNumeral (lit "sore throat")
                  (lit "English"))).
  discriminate.
Defined.

(** X21: with a position, the requests made are those of
    [findNearbyDoctors] for that position, and the component stops
    loading.  When the lookup returns, its result is shown without error,
    with the note about missing map pins exactly when it has no map
    source, and an empty status otherwise.  When the lookup throws, the
    error shown is its fixed message (the fallback text "Failed to find
    doctors nearby." is never shown) and the result on display is left as
    it was. *)
Theorem position_starts_the_lookup :
  forall (ai : remote) (numeral : Q -> jsstring)
         (medicalContext language : jsstring) (lat lng : num)
         (s : DoctorFinder.State) (log : list Request),
    let run := findNearbyDoctors ai numeral medicalContext lat lng language
                 log in
    let after := DoctorFinder.handleFindDoctors ai numeral medicalContext
                   language (DoctorFinder.Position lat lng) s log in
    snd after = callsOf run
    /\ DoctorFinder.loading (fst after) = false
    /\ (forall data,
           outcomeOf run = Returned data ->
           DoctorFinder.result (fst after) = Some data
           /\ DoctorFinder.error (fst after) = None
           /\ (DoctorSearchResult.mapSources data = [] ->
               DoctorFinder.status (fst after) = noPinsNote)
           /\ (DoctorSearchResult.mapSources data <> [] ->
               DoctorFinder.status (fst after) = []))
    /\ (fails (outcomeOf run) ->
        DoctorFinder.error (fst after) = Some lookupFailure
        /\ DoctorFinder.result (fst after) = DoctorFinder.result s).
Proof.
  intros ai numeral medicalContext language lat lng s log run after.
  unfold after, DoctorFinder.handleFindDoctors. fold run.
  pose proof (findNearbyDoctors_throws ai numeral medicalContext lat lng
                language log) as T. fold run in T.
  unfold outcomeOf, callsOf in *.
  destruct run as [[data|e] log']; cbn [fst snd] in *.
  - split; [reflexivity|].
    destruct (DoctorSearchResult.mapSources data) as [|m ms] eqn:E;
      cbn [List.length Nat.eqb];
      (split; [reflexivity|]); (split; [|intros [e He]; discriminate]);
      intros d H; injection H as <-; rewrite E;
      repeat split; intros; congruence.
  - rewrite (T e eq_refl). split; [reflexivity|]. split; [reflexivity|].
    split; [intros d H; discriminate|]. intros _. now split.
Qed.

Lemma position_starts_the_lookup_witness :
  DoctorFinder.error
    (fst (DoctorFinder.handleFindDoctors mapsDown noNumeral
            (lit "sore throat") (lit "English")
            (DoctorFinder.Position (ofZ 0) (ofZ 0))
            {| DoctorFinder.loading := false; DoctorFinder.result := None;
               DoctorFinder.error := None; DoctorFinder.status := [] |} []))
  = None
  /\ DoctorFinder.status
       (fst (DoctorFinder.handleFindDoctors mapsDown noNumeral
               (lit "sore throat") (lit "English")
               (DoctorFinder.Position (ofZ 0) (ofZ 0))
               {| DoctorFinder.loading := false; DoctorFinder.result := None;
                  DoctorFinder.error := None; DoctorFinder.status := [] |} []))
     = noPinsNote.
Proof.
  destruct (position_starts_the_lookup mapsDown noNumeral (lit "sore throat")
              (lit "English") (ofZ 0) (ofZ 0)
              {| DoctorFinder.loading := false; DoctorFinder.result := None;
                 DoctorFinder.error := None; DoctorFinder.status := [] |} [])
    as (_ & _ & H & _).
  destruct (H (processResponse (textResponse (lit "Clinics near you"))
                 (lit "Search Results")) eq_refl) as (_ & He & Hs & _).
  split; [exact He | exact (Hs eq_refl)].
Defined.

(** ** Rendering the content of a lookup *)

Lemma startsWith_inv (s p : jsstring) :
  startsWith s p = true -> exists r, s = p ++ r.
Proof.
  unfold startsWith. revert s. induction p as [|a p IH]; intros s.
  - intros _. now exists s.
  - destruct s as [|b s]; cbn [stripPrefix]; [discriminate|].
    destruct (a =? b)%N eqn:E; [|discriminate].
    apply N.eqb_eq in E. subst b. intros H.
    destruct (IH s H) as [r ->]. now exists r.
Qed.

Lemma bullet_text (line b t : jsstring) :
  b = lit "* " \/ b = lit "- " ->
  trim line = b ++ t -> t <> [].
Proof.
  intros Hb E Ht. subst t. rewrite app_nil_r in E.
  assert (L : isWhiteSpace 32 = false).
  { destruct Hb as [-> | ->];
      [apply (trim_last line [42%N] 32%N E) | apply (trim_last line [45%N] 32%N E)]. }
  discriminate L.
Qed.

(** The three cases of [formatLine]. *)
Lemma formatLine_cases (line : jsstring) :
  (exists t, bulletOf line t /\ t <> []
             /\ DoctorFinder.formatLine line = DoctorFinder.li t)
  \/ (forallb isWhiteSpace line = true
      /\ DoctorFinder.formatLine line = DoctorFinder.spacer)
  \/ (forallb isWhiteSpace line = false
      /\ (forall t, ~ bulletOf line t)
      /\ DoctorFinder.formatLine line = DoctorFinder.p line).
Proof.
  unfold DoctorFinder.formatLine, bulletOf.
  destruct (startsWith (trim line) (lit "* ")) eqn:Ea;
    [|destruct (startsWith (trim line) (lit "- ")) eqn:Eh]; cbn [orb].
  - destruct (startsWith_inv _ _ Ea) as [r Er]. left. exists r.
    split; [now left|].
    split; [apply (bullet_text line (lit "* ") r); [now left | exact Er]|].
    rewrite Er. reflexivity.
  - destruct (startsWith_inv _ _ Eh) as [r Er]. left. exists r.
    split; [now right|].
    split; [apply (bullet_text line (lit "- ") r); [now right | exact Er]|].
    rewrite Er. reflexivity.
  - right.
    assert (N : forall t, ~ (trim line = lit "* " ++ t
                             \/ trim line = lit "- " ++ t)).
    { intros t [E | E]; rewrite E in *.
      - unfold startsWith in Ea. now rewrite stripPrefix_self_app in Ea.
      - unfold startsWith in Eh. now rewrite stripPrefix_self_app in Eh. }
    destruct (trim line) as [|c u] eqn:Et; cbn [truthy negb].
    + left. split; [now apply trim_nil_iff | reflexivity].
    + right. split; [|split; [exact N | reflexivity]].
      apply not_true_iff_false. intros H. apply trim_nil_iff in H.
      congruence.
Qed.

(** X22: a line of the content is rendered as a list item exactly when,
    trimmed, it starts with an asterisk or a hyphen and a space, the item
    being the rest of the trimmed line, which is then not empty; as a
    spacer exactly when it is white space only; and as a paragraph of the
    line, unchanged, exactly when it is neither. *)
Theorem line_rendering :
  forall line,
    (forall t,
        DoctorFinder.formatLine line = DoctorFinder.li t <-> bulletOf line t)
    /\ (forall t, bulletOf line t -> t <> [])
    /\ (DoctorFinder.formatLine line = DoctorFinder.spacer
        <-> forallb isWhiteSpace line = true)
    /\ (forall l,
           DoctorFinder.formatLine line = DoctorFinder.p l
           <-> l = line
               /\ forallb isWhiteSpace line = false
               /\ forall t, ~ bulletOf line t).
Proof.
  intros line.
  assert (U : forall t t', bulletOf line t -> bulletOf line t' -> t = t').
  { unfold bulletOf. intros t t' [E | E] [E' | E']; rewrite E in E';
      now injection E'. }
  assert (B : forall t, bulletOf line t -> t <> []).
  { intros t [E | E];
      [apply (bullet_text line (lit "* ") t) | apply (bullet_text line (lit "- ") t)];
      auto. }
  assert (W : forall t, bulletOf line t -> forallb isWhiteSpace line = false).
  { intros t H. apply not_true_iff_false. intros K.
    apply trim_nil_iff in K. destruct H as [E | E]; rewrite K in E;
      discriminate E. }
  destruct (formatLine_cases line)
    as [(t0 & Hb & Hne & ->) | [(Hw & ->) | (Hw & Hn & ->)]].
  - split; [|split; [exact B|split]].
    + intros t. split.
      * intros H. injection H as <-. exact Hb.
      * intros H. now rewrite (U _ _ H Hb).
    + split; [discriminate|]. intros K. rewrite (W _ Hb) in K.
      discriminate K.
    + intros l. split; [discriminate|]. intros (_ & _ & N).
      now contradiction (N t0).
  - split; [|split; [exact B|split]].
    + intros t. split; [discriminate|]. intros H.
      rewrite (W _ H) in Hw. discriminate Hw.
    + split; [intros _; exact Hw | reflexivity].
    + intros l. split; [discriminate|]. intros (_ & K & _).
      rewrite K in Hw. discriminate Hw.
  - split; [|split; [exact B|split]].
    + intros t. split; [discriminate|]. intros H.
      now contradiction (Hn t).
    + split; [discriminate|]. intros K. rewrite K in Hw. discriminate Hw.
    + intros l. split.
      * intros H. injection H as <-. now split.
      * intros (-> & _). reflexivity.
Qed.

Lemma line_rendering_witness :
  DoctorFinder.formatLine (lit "  * Dr. Rao, Main Street ")
  = DoctorFinder.li (lit "Dr. Rao, Main Street").
Proof.
  apply (proj1 (line_rendering (lit "  * Dr. Rao, Main Street "))).
  left. reflexivity.
Defined.

Lemma length_split (sep : N) (s : jsstring) :
  List.length (split sep s) = S (count_occ N.eq_dec s sep).
Proof.
  induction s as [|c s IH]; [reflexivity|]. cbn [split count_occ].
  destruct (split_cons sep s) as (l & ls & E). rewrite E in *.
  destruct (N.eqb_spec c sep) as [-> | Hne].
  - destruct (N.eq_dec sep sep); [|contradiction].
    cbn [List.length] in *. now rewrite IH.
  - destruct (N.eq_dec c sep); [contradiction|]. exact IH.
Qed.

Lemma map_p_inv (ls ls' : list jsstring) :
  map DoctorFinder.formatLine ls = map DoctorFinder.p ls' -> ls' = ls.
Proof.
  revert ls'. induction ls as [|l ls IH]; intros [|l' ls']; cbn [map];
    try discriminate; [reflexivity|].
  intros H. injection H as Hl Hls.
  assert (E : l' = l).
  { destruct (formatLine_cases l)
      as [(t & _ & _ & K) | [(_ & K) | (_ & _ & K)]];
      rewrite K in Hl; [discriminate | discriminate | now injection Hl]. }
  subst l'. now rewrite (IH _ Hls).
Qed.

(** X23: the content is rendered line by line: one element per line, that
    is one more than there are line feeds, and never none.  When every
    element is a paragraph, the paragraphs joined by line feeds are the
    content. *)
Theorem content_rendering :
  forall content,
    List.length (DoctorFinder.formatContent content)
    = S (count_occ N.eq_dec content 10%N)
    /\ (forall lines,
           DoctorFinder.formatContent content = map DoctorFinder.p lines ->
           join nl lines = content).
Proof.
  intros content. unfold DoctorFinder.formatContent. split.
  - rewrite length_map. apply length_split.
  - intros lines H. apply map_p_inv in H. subst lines. apply join_split.
Qed.

Lemma content_rendering_witness :
  join nl [lit "Dr. Rao, Main Street"; lit "Open until 6 pm"]
  = lit "Dr. Rao, Main Street" ++ nl ++ lit "Open until 6 pm".
Proof.
  apply (proj2 (content_rendering
                  (lit "Dr. Rao, Main Street" ++ nl ++ lit "Open until 6 pm"))).
  reflexivity.
Defined.

(** ** The analysis request *)

Ltac find_segment :=
  repeat first [apply includes_prefix | apply includes_app_r].

(** X24: the analysis request has the text prompt as its last part,
    preceded by the image when there is one and by nothing otherwise; the
    prompt carries the symptoms, the vitals block and the language as
    given, and the system instruction carries the language; the model is
    the image model exactly when there is an image; web search is the
    only tool. *)
Theorem analysis_request_carries_the_form :
  forall (symptoms : jsstring) (image : option ImageState)
         (vitals : option Vitals.t) (language : jsstring),
    let req := analysisRequest symptoms image vitals language in
    (exists prompt,
        lastText req = Some prompt
        /\ includes prompt symptoms = true
        /\ includes prompt (vitalsContext vitals) = true
        /\ includes prompt language = true)
    /\ leadingParts req
       = match image with
         | Some i => [inlineData (data i) (mimeType i)]
         | None => []
         end
    /\ (exists instruction,
           systemInstruction (config req) = Some instruction
           /\ includes instruction language = true)
    /\ (model req = lit "gemini-2.5-flash" <-> image <> None)
    /\ isAnalysisRequest req.
Proof.
  intros symptoms image vitals language req.
  split; [|split; [|split; [|split]]].
  - exists (analysisPrompt symptoms image (vitalsContext vitals) language).
    split; [destruct image; reflexivity|].
    unfold analysisPrompt. cbn [List.concat].
    split; [|split]; find_segment.
  - destruct image; reflexivity.
  - eexists. split; [reflexivity|].
    unfold systemInstructionText. cbn [List.concat]. find_segment.
  - destruct image as [i|]; cbn [model req analysisRequest].
    + split; [discriminate | reflexivity].
    + split; [intros H; vm_compute in H; discriminate H | intros H; now contradiction H].
  - split; reflexivity.
Qed.

Lemma analysis_request_carries_the_form_witness :
  model (analysisRequest (lit "rash") (Some {| data := lit "iVBORw0KGgo=";
                                                mimeType := lit "image/png" |})
           None (lit "English"))
  = lit "gemini-2.5-flash".
Proof.
  apply (proj2 (proj1 (proj2 (proj2 (proj2
           (analysis_request_carries_the_form (lit "rash")
              (Some {| data := lit "iVBORw0KGgo="; mimeType := lit "image/png" |})
              None (lit "English"))))))).
  discriminate.
Defined.
